(** * corsairpsu: the hwmon HID driver for Corsair RMi/HXi power supplies

    A shallow embedding of [corsairpsu.c] (driver version 0.1.7): the
    LINEAR11 decoder, the USB exchange under [usbdev_mutex], the
    command/response client with its single recovery handshake, the hwmon
    read callback and the custom sysfs attributes.

    Conventions.
    - C integers are [Z]; a conversion to a signed w-bit type is written
      [sint w].  [long] is 64 bits wide (an LP64 kernel such as x86_64).
    - Right shifts of signed values are arithmetic and left shifts wrap,
      as the kernel's compiler flags make them.
    - Bytes of the 64-byte buffer are [Z] in [0, 256).  Whether plain
      [char] is signed depends on the platform and the kernel version and
      is kept as a parameter ([char_signed]).
    - The kernel services the driver calls ([mutex_trylock],
      [mutex_unlock], [usb_interrupt_msg]) act on an explicit [world];
      every access to the mutex or to a device buffer appends an [event]
      to the world's trace.
    - The first part of the file holds the definitions, the second part
      the lemmas and theorems. *)

From Stdlib Require Import String Ascii DecimalString.
From Stdlib Require Import ZArith List Bool Lia.
Import ListNotations.

Local Open Scope Z_scope.

(* ================================================================== *)
(** * Part I: definitions *)

(** ** Fixed-width integers *)

(** Value of [x] after conversion to a signed integer of [w] bits. *)
Definition sint (w : Z) (x : Z) : Z :=
  (x + 2 ^ (w - 1)) mod 2 ^ w - 2 ^ (w - 1).

Definition s16 : Z -> Z := sint 16.
Definition s32 : Z -> Z := sint 32.
Definition s64 : Z -> Z := sint 64.

(** Conversion to [u8], [u16], [u32]. *)
Definition u8 (x : Z) : Z := x mod 2 ^ 8.
Definition u16 (x : Z) : Z := x mod 2 ^ 16.
Definition u32 (x : Z) : Z := x mod 2 ^ 32.

(** An integer object read from memory, least significant byte first (the
    host is little-endian). *)
Fixpoint le_combine (bs : list Z) : Z :=
  match bs with
  | [] => 0
  | b :: bs' => b + 256 * le_combine bs'
  end.

(** ** LINEAR11 *)

(** [pmbus_linear11_to_long(u16 v16, int scale)].

    [exponent] is an [s16], [mantissa] an [s32]; [mantissa * scale] is an
    [int] product, widened to the [long] variable [val]. *)
Definition pmbus_linear11_to_long (v16 : Z) (scale : Z) : Z :=
  let exponent := s16 (Z.shiftr (s16 v16) 11) in
  let mantissa := s32 (Z.shiftr (s16 (Z.shiftl (Z.land v16 0x7ff) 5)) 5) in
  let val := s64 (s32 (mantissa * scale)) in
  if 0 <=? exponent
  then s64 (Z.shiftl val exponent)
  else s64 (Z.shiftr val (- exponent)).

(** *** The format in the words of the specification *)

(** Low 11 bits, read as an 11-bit two's-complement integer. *)
Definition mantissa11 (v : Z) : Z :=
  let y := v mod 2 ^ 11 in
  if y <? 2 ^ 10 then y else y - 2 ^ 11.

(** High 5 bits, read as a 5-bit two's-complement integer. *)
Definition exponent5 (v : Z) : Z :=
  let n := (v / 2 ^ 11) mod 2 ^ 5 in
  if n <? 2 ^ 4 then n else n - 2 ^ 5.

(** Multiply by the scale first, then shift by the exponent: left for a
    non-negative exponent, arithmetic right otherwise. *)
Definition linear11_reference (v : Z) (scale : Z) : Z :=
  let y := mantissa11 v in
  let n := exponent5 v in
  if 0 <=? n then Z.shiftl (y * scale) n else Z.shiftr (y * scale) (- n).

(** The other order, shift then scale, for comparison. *)
Definition linear11_shift_first (v : Z) (scale : Z) : Z :=
  let y := mantissa11 v in
  let n := exponent5 v in
  (if 0 <=? n then Z.shiftl y n else Z.shiftr y (- n)) * scale.

(** The real-world value [Y * 2^N] in whole units (rounded down, as an
    arithmetic shift rounds). *)
Definition linear11_whole_units (v : Z) : Z :=
  let y := mantissa11 v in
  let n := exponent5 v in
  if 0 <=? n then y * 2 ^ n else y / 2 ^ (- n).

(** The scales the driver passes: RPM, milli-units, micro-units. *)
Definition scales : list Z := [0; 1000; 1000000].

(** ** Error codes *)

(** [#define USB_MUTEX_LOCKED_ERR -99] *)
Definition USB_MUTEX_LOCKED_ERR : Z := -99.

(** From the kernel's errno headers. *)
Definition EINVAL : Z := 22.
Definition ENODATA : Z := 61.
Definition EOPNOTSUPP : Z := 95.
Definition ETIMEDOUT : Z := 110.

(** ** What the driver takes from its environment *)

(** The USB device behind [data->usbdev].  [usb_snd u frame] is
    [usb_interrupt_msg] on the outbound pipe with the 64 bytes of the
    buffer: the status and the device afterwards.  [usb_rcv u] is
    [usb_interrupt_msg] on the inbound pipe: the status, the bytes the
    device delivered, and the device afterwards. *)
Class UsbDevice (U : Type) := {
  usb_snd : U -> list Z -> Z * U;
  usb_rcv : U -> Z * list Z * U
}.

(** No integer occurs twice in the list. *)
Fixpoint distinct (l : list Z) : bool :=
  match l with
  | [] => true
  | x :: l' => negb (existsb (Z.eqb x) l') && distinct l'
  end.

(** Signedness of plain [char], the element type of [data->buf]. *)
Class Platform := {
  char_signed : bool
}.

(** The enumeration constants of <linux/hwmon.h> that [corsairpsu_read]
    switches on.  The header is not part of the driver, so the constants
    are parameters; the labels of one [switch] are distinct. *)
Class HwmonHeader := {
  hwmon_chip : Z;
  hwmon_temp : Z;
  hwmon_in : Z;
  hwmon_curr : Z;
  hwmon_power : Z;
  hwmon_fan : Z;
  hwmon_temp_input : Z;
  hwmon_fan_input : Z;
  hwmon_in_input : Z;
  hwmon_curr_input : Z;
  hwmon_power_input : Z;
  hwmon_types_distinct :
    distinct [hwmon_chip; hwmon_temp; hwmon_fan; hwmon_in; hwmon_curr; hwmon_power]
    = true
}.

(** ** The world: one mutex, the attached devices, the trace *)

(** [struct corsairpsu_data]: the USB device and its 64-byte buffer. *)
Record corsairpsu_data (U : Type) := mk_data {
  usbdev : U;
  buf : list Z
}.
Arguments mk_data {U} _ _.
Arguments usbdev {U} _.
Arguments buf {U} _.

(** What a call does to the mutex and to the buffer of device [d]. *)
Inductive event : Type :=
| EvFrame (d : nat) (addr opcode opdata : Z)
    (* send_recv_cmd_impl: memset, then buf[0], buf[1], buf[2] *)
| EvTryLock (d : nat) (acquired : bool)
    (* mutex_trylock(&usbdev_mutex) *)
| EvUsbOut (d : nat) (frame : list Z) (ret : Z)
    (* outbound usb_interrupt_msg from data->buf *)
| EvClear (d : nat)
    (* memset(data->buf, 0, 64) between the two transfers *)
| EvUsbIn (d : nat) (ret : Z) (data : list Z)
    (* inbound usb_interrupt_msg into data->buf, which then holds data *)
| EvUnlock (d : nat)
    (* mutex_unlock(&usbdev_mutex) *)
| EvPeek (d : nat) (b : Z)
    (* send_recv_cmd: the test of data->buf[1], which held byte b *)
| EvCopy (d : nat) (n : nat).
    (* send_recv_cmd: memcpy(result, data->buf + 2, n) *)

(** [static DEFINE_MUTEX(usbdev_mutex)] is one object of the module;
    every attached device has its own [corsairpsu_data]. *)
Record world (U : Type) := mk_world {
  usbdev_mutex : bool;
  devs : nat -> corsairpsu_data U;
  trace : list event
}.
Arguments mk_world {U} _ _ _.
Arguments usbdev_mutex {U} _.
Arguments devs {U} _ _.
Arguments trace {U} _.

Definition emit {U} (e : event) (w : world U) : world U :=
  mk_world (usbdev_mutex w) (devs w) (trace w ++ [e]).

Definition set_mutex {U} (m : bool) (w : world U) : world U :=
  mk_world m (devs w) (trace w).

Definition set_dev {U} (d : nat) (x : corsairpsu_data U) (w : world U) : world U :=
  mk_world (usbdev_mutex w)
           (fun d' => if Nat.eqb d' d then x else devs w d')
           (trace w).

Definition set_buf {U} (d : nat) (b : list Z) (w : world U) : world U :=
  set_dev d (mk_data (usbdev (devs w d)) b) w.

(** The values a [char] object can hold, as bytes. *)
Definition is_byte (b : Z) : Prop := 0 <= b < 256.

(** [l[i] = v] on a list; nothing happens past the end. *)
Fixpoint store (i : nat) (v : Z) (l : list Z) : list Z :=
  match l, i with
  | [], _ => []
  | _ :: l', O => v :: l'
  | x :: l', S i' => x :: store i' v l'
  end.

(** The buffer after a transfer delivered [bytes] into it. *)
Definition overlay (bytes old : list Z) : list Z :=
  firstn 64 (map u8 bytes ++ skipn (length bytes) old).

Definition zeros64 : list Z := repeat 0 64%nat.

(** The events a world gained since an earlier one. *)
Definition events_since {U} (w w' : world U) : list event :=
  skipn (length (trace w)) (trace w').

(** The command frames built, in order. *)
Definition frame_of (e : event) : list (Z * Z * Z) :=
  match e with
  | EvFrame _ a o p => [(a, o, p)]
  | _ => []
  end.

Definition frames (t : list event) : list (Z * Z * Z) := flat_map frame_of t.

(** The status of each exchange attempted, in order: the busy code for a
    failed [mutex_trylock], the status of a failed transfer, 0 after a
    successful inbound transfer. *)
Definition status_of (e : event) : list Z :=
  match e with
  | EvTryLock _ false => [USB_MUTEX_LOCKED_ERR]
  | EvUsbOut _ _ ret => if ret <? 0 then [ret] else []
  | EvUsbIn _ ret _ => if ret <? 0 then [ret] else [0]
  | _ => []
  end.

Definition statuses (t : list event) : list Z := flat_map status_of t.

(** The bytes found in [data->buf[1]] by the tests of the echoed opcode. *)
Definition peek_of (e : event) : list Z :=
  match e with
  | EvPeek _ b => [b]
  | _ => []
  end.

Definition peeks (t : list event) : list Z := flat_map peek_of t.

(** The responses received: the buffer after each successful inbound
    transfer. *)
Definition response_of (e : event) : list (list Z) :=
  match e with
  | EvUsbIn _ ret data => if ret <? 0 then [] else [data]
  | _ => []
  end.

Definition responses (t : list event) : list (list Z) := flat_map response_of t.

(** Byte 1 of each response received: the opcode it echoes. *)
Definition echoes (t : list event) : list Z :=
  map (fun resp => nth 1 resp 0) (responses t).

Definition is_trylock (e : event) : bool :=
  match e with
  | EvTryLock _ _ => true
  | _ => false
  end.

Definition is_transfer (e : event) : bool :=
  match e with
  | EvUsbOut _ _ _ | EvUsbIn _ _ _ => true
  | _ => false
  end.

(** The number of exchanges attempted: one [mutex_trylock] each. *)
Definition attempts (t : list event) : nat := List.length (filter is_trylock t).

(** Accesses to the buffer made by the exchange itself. *)
Definition is_transport_access (e : event) : bool :=
  match e with
  | EvUsbOut _ _ _ | EvClear _ | EvUsbIn _ _ _ => true
  | _ => false
  end.

(** Accesses to the buffer made by the protocol client around it. *)
Definition is_client_access (e : event) : bool :=
  match e with
  | EvFrame _ _ _ _ | EvPeek _ _ | EvCopy _ _ => true
  | _ => false
  end.

Definition is_buffer_access (e : event) : bool :=
  is_transport_access e || is_client_access e.

(** Whether the caller holds the lock after event [e], given whether it
    held it before. *)
Definition held_after (held : bool) (e : event) : bool :=
  match e with
  | EvTryLock _ acquired => held || acquired
  | EvUnlock _ => false
  | _ => held
  end.

(** [under_lock sel held t]: every event of [t] selected by [sel] occurs
    while the caller holds the lock, [held] telling whether it holds it
    at the start of [t]. *)
Fixpoint under_lock (sel : event -> bool) (held : bool) (t : list event) : bool :=
  match t with
  | [] => true
  | e :: t' => (negb (sel e) || held) && under_lock sel (held_after held e) t'
  end.

(** [outside_lock sel held t]: every selected event occurs while the
    caller does not hold the lock. *)
Fixpoint outside_lock (sel : event -> bool) (held : bool) (t : list event) : bool :=
  match t with
  | [] => true
  | e :: t' => (negb (sel e) || negb held) && outside_lock sel (held_after held e) t'
  end.

(** The events of one call of [usb_send_recv_cmd] on device [d], by its
    status: the mutex was held; the outbound transfer failed; the inbound
    transfer failed; both succeeded. *)
Inductive exchange_events (d : nat) : Z -> list event -> Prop :=
| XBusy :
    exchange_events d USB_MUTEX_LOCKED_ERR [EvTryLock d false]
| XSendFailed (f : list Z) (r : Z) :
    r < 0 ->
    exchange_events d r [EvTryLock d true; EvUsbOut d f r; EvUnlock d]
| XRecvFailed (f : list Z) (r1 r : Z) (data : list Z) :
    0 <= r1 -> r < 0 ->
    exchange_events d r
      [EvTryLock d true; EvUsbOut d f r1; EvClear d; EvUsbIn d r data; EvUnlock d]
| XDone (f : list Z) (r1 r2 : Z) (resp : list Z) :
    0 <= r1 -> 0 <= r2 -> Forall is_byte resp ->
    exchange_events d 0
      [EvTryLock d true; EvUsbOut d f r1; EvClear d; EvUsbIn d r2 resp; EvUnlock d].

(** The event of [memcpy(result, data->buf + 2, result_size)], when the
    copy takes place. *)
Definition copy_events (d : nat) (result : option nat) : list event :=
  match result with
  | Some n => if (0 <? n)%nat then [EvCopy d n] else []
  | None => []
  end.

(** ** The driver *)

Section Driver.

Context {U : Type} {USB : UsbDevice U} {PLAT : Platform} {HW : HwmonHeader}.

(** *** Kernel services *)

(** [mutex_trylock(&usbdev_mutex)]: 1 and the mutex taken when it was
    free, 0 when it is held; never waits.  [d] names the calling
    exchange's device in the trace only. *)
Definition mutex_trylock (d : nat) (w : world U) : bool * world U :=
  if usbdev_mutex w
  then (false, emit (EvTryLock d false) w)
  else (true, emit (EvTryLock d true) (set_mutex true w)).

(** [mutex_unlock(&usbdev_mutex)] *)
Definition mutex_unlock (d : nat) (w : world U) : world U :=
  emit (EvUnlock d) (set_mutex false w).

(** [usb_interrupt_msg(data->usbdev, usb_sndintpipe(.., 0x01), data->buf, 64, ..)] *)
Definition usb_interrupt_msg_snd (d : nat) (w : world U) : Z * world U :=
  let dat := devs w d in
  let '(ret, u') := usb_snd (usbdev dat) (buf dat) in
  (ret, emit (EvUsbOut d (buf dat) ret) (set_dev d (mk_data u' (buf dat)) w)).

(** [usb_interrupt_msg(data->usbdev, usb_rcvintpipe(.., 0x81), data->buf, 64, ..)] *)
Definition usb_interrupt_msg_rcv (d : nat) (w : world U) : Z * world U :=
  let dat := devs w d in
  let '(ret, bytes, u') := usb_rcv (usbdev dat) in
  let data := overlay bytes (buf dat) in
  (ret, emit (EvUsbIn d ret data) (set_dev d (mk_data u' data) w)).

(** [memset(data->buf, 0, 64)] inside the exchange. *)
Definition clear_buf (d : nat) (w : world U) : world U :=
  emit (EvClear d) (set_buf d zeros64 w).

(** *** Transport *)

(** [usb_send_recv_cmd(data)]: the status and the world afterwards. *)
Definition usb_send_recv_cmd (d : nat) (w : world U) : Z * world U :=
  let '(locked, w) := mutex_trylock d w in
  if negb locked then (USB_MUTEX_LOCKED_ERR, w) else
  let '(ret, w) := usb_interrupt_msg_snd d w in
  if ret <? 0 then (ret, mutex_unlock d w) else
  let w := clear_buf d w in
  let '(ret, w) := usb_interrupt_msg_rcv d w in
  if ret <? 0 then (ret, mutex_unlock d w) else
  (0, mutex_unlock d w).

(** *** Protocol client *)

(** The first statements of [send_recv_cmd_impl]: the buffer is zeroed
    and its first three bytes are set.  [addr], [opcode] and [opdata] are
    [u8] parameters: their values are bytes. *)
Definition build_frame (d : nat) (addr opcode opdata : Z) (w : world U) : world U :=
  emit (EvFrame d addr opcode opdata)
       (set_buf d (store 2 opdata (store 1 opcode (store 0 addr zeros64))) w).

(** [send_recv_cmd_impl(data, addr, opcode, opdata, result, result_size)];
    the function does not use [result] and [result_size]. *)
Definition send_recv_cmd_impl (d : nat) (addr opcode opdata : Z) (w : world U)
  : Z * world U :=
  let w := build_frame d addr opcode opdata w in
  let '(ret, w) := usb_send_recv_cmd d w in
  if ret <? 0 then (ret, w) else (0, w).

(** The value of a [char] object holding byte [b], as the [int] it is
    promoted to in a comparison. *)
Definition char_value (b : Z) : Z :=
  if char_signed && (128 <=? b) then b - 256 else b.

(** [data->buf[1] != opcode]: the outcome of the test, and the world
    with the read recorded. *)
Definition echo_differs (d : nat) (opcode : Z) (w : world U) : bool * world U :=
  let b := nth 1 (buf (devs w d)) 0 in
  (negb (char_value b =? opcode), emit (EvPeek d b) w).

(** [if (result != NULL && result_size > 0) memcpy(result, data->buf + 2,
    result_size); return 0;].  [result] is [None] for a NULL pointer and
    [Some n] for a pointer with [result_size = n]; the second component
    is what was stored through [result], if anything was. *)
Definition copy_out (d : nat) (result : option nat) (w : world U)
  : Z * option (list Z) * world U :=
  match result with
  | Some n =>
      if (0 <? n)%nat
      then (0, Some (firstn n (skipn 2 (buf (devs w d)))), emit (EvCopy d n) w)
      else (0, None, w)
  | None => (0, None, w)
  end.

(** What [copy_out] stores through [result], as a function of the
    world it reads the buffer from. *)
Definition copied (d : nat) (result : option nat) (w : world U) : option (list Z) :=
  match result with
  | Some n => if (0 <? n)%nat then Some (firstn n (skipn 2 (buf (devs w d)))) else None
  | None => None
  end.

(** [send_recv_cmd(data, addr, opcode, opdata, result, result_size)] *)
Definition send_recv_cmd (d : nat) (addr opcode opdata : Z) (result : option nat)
  (w : world U) : Z * option (list Z) * world U :=
  let '(ret, w) := send_recv_cmd_impl d addr opcode opdata w in
  if ret <? 0 then (ret, None, w) else
  let '(differs, w) := echo_differs d opcode w in
  if differs then
    let '(ret, w) := send_recv_cmd_impl d 0xfe 0x03 0x00 w in
    if ret <? 0 then (ret, None, w) else
    let '(ret, w) := send_recv_cmd_impl d addr opcode opdata w in
    if ret <? 0 then (ret, None, w) else
    let '(differs, w) := echo_differs d opcode w in
    if differs then (- ENODATA, None, w)
    else copy_out d result w
  else copy_out d result w.

(** The events of one call of [send_recv_cmd] for the command
    [(a, o, p)], by its return value.  [x1] is the first exchange, [x2]
    the handshake, [x3] the second exchange of the command; [b1] and [b3]
    are byte 1 of the responses of [x1] and [x3], which the tests of
    [data->buf[1]] find. *)
Inductive client_events (d : nat) (a o p : Z) (result : option nat)
  : Z -> list event -> Prop :=
| CFirstFailed (r : Z) (x1 : list event) :
    exchange_events d r x1 -> r < 0 ->
    client_events d a o p result r (EvFrame d a o p :: x1)
| CFirstDone (x1 : list event) (b1 : Z) :
    exchange_events d 0 x1 -> echoes x1 = [b1] -> char_value b1 = o ->
    client_events d a o p result 0
      (EvFrame d a o p :: x1 ++ EvPeek d b1 :: copy_events d result)
| CHandshakeFailed (x1 x2 : list event) (b1 r : Z) :
    exchange_events d 0 x1 -> echoes x1 = [b1] -> char_value b1 <> o ->
    exchange_events d r x2 -> r < 0 ->
    client_events d a o p result r
      (EvFrame d a o p :: x1 ++ EvPeek d b1 :: EvFrame d 0xfe 0x03 0x00 :: x2)
| CRetryFailed (x1 x2 x3 : list event) (b1 r : Z) :
    exchange_events d 0 x1 -> echoes x1 = [b1] -> char_value b1 <> o ->
    exchange_events d 0 x2 ->
    exchange_events d r x3 -> r < 0 ->
    client_events d a o p result r
      (EvFrame d a o p :: x1 ++ EvPeek d b1 :: EvFrame d 0xfe 0x03 0x00 :: x2
         ++ EvFrame d a o p :: x3)
| CNoData (x1 x2 x3 : list event) (b1 b3 : Z) :
    exchange_events d 0 x1 -> echoes x1 = [b1] -> char_value b1 <> o ->
    exchange_events d 0 x2 ->
    exchange_events d 0 x3 -> echoes x3 = [b3] -> char_value b3 <> o ->
    client_events d a o p result (- ENODATA)
      (EvFrame d a o p :: x1 ++ EvPeek d b1 :: EvFrame d 0xfe 0x03 0x00 :: x2
         ++ EvFrame d a o p :: x3 ++ [EvPeek d b3])
| CRetryDone (x1 x2 x3 : list event) (b1 b3 : Z) :
    exchange_events d 0 x1 -> echoes x1 = [b1] -> char_value b1 <> o ->
    exchange_events d 0 x2 ->
    exchange_events d 0 x3 -> echoes x3 = [b3] -> char_value b3 = o ->
    client_events d a o p result 0
      (EvFrame d a o p :: x1 ++ EvPeek d b1 :: EvFrame d 0xfe 0x03 0x00 :: x2
         ++ EvFrame d a o p :: x3 ++ EvPeek d b3 :: copy_events d result).

(** *** The hwmon read callback *)

(** The label [err:] of [corsairpsu_read]. *)
Definition read_err (ret : Z) : Z :=
  if ret =? USB_MUTEX_LOCKED_ERR then - EINVAL else - EOPNOTSUPP.

(** The [u16 reading] after the call: the bytes stored through [&reading]
    or, when nothing was stored, what the variable held before ([junk]). *)
Definition reading_u16 (junk : Z) (out : option (list Z)) : Z :=
  match out with
  | Some bs => le_combine bs
  | None => u16 junk
  end.

(** One reading block of [corsairpsu_read]:
    [ret = send_recv_cmd(data, 0x03, opcode, 0x00, &reading, sizeof(u16));
     if (ret < 0) goto err;
     *val = pmbus_linear11_to_long(reading, scale); break;]
    and then [return 0].  The result is the return value, what was stored
    through [val] if anything, and the world. *)
Definition read_linear11 (d : nat) (opcode scale junk : Z) (w : world U)
  : Z * option Z * world U :=
  let '(ret, out, w) := send_recv_cmd d 0x03 opcode 0x00 (Some 2%nat) w in
  if ret <? 0 then (read_err ret, None, w) else
  (0, Some (pmbus_linear11_to_long (reading_u16 junk out) scale), w).

(** A reading block that starts with the rail selection:
    [ret = send_recv_cmd(data, 0x02, 0x00, rail, NULL, 0);
     if (ret < 0) goto err;] and then the block above. *)
Definition read_rail (d : nat) (rail opcode scale junk : Z) (w : world U)
  : Z * option Z * world U :=
  let '(ret, _, w) := send_recv_cmd d 0x02 0x00 rail None w in
  if ret <? 0 then (read_err ret, None, w) else
  read_linear11 d opcode scale junk w.

(** [corsairpsu_read(dev, type, attr, channel, val)], [d] standing for
    [dev_get_drvdata(dev)]. *)
Definition corsairpsu_read (d : nat) (type attr channel : Z) (junk : Z) (w : world U)
  : Z * option Z * world U :=
  let unsupported := (- EOPNOTSUPP, None, w) in
  if type =? hwmon_chip then
    if attr =? hwmon_chip then
      if channel =? 0 then read_linear11 d 0x8D 1000 junk w
      else unsupported
    else unsupported
  else if type =? hwmon_temp then
    if attr =? hwmon_temp_input then
      if channel =? 0 then read_linear11 d 0x8D 1000 junk w
      else if channel =? 1 then read_linear11 d 0x8E 1000 junk w
      else unsupported
    else unsupported
  else if type =? hwmon_fan then
    if attr =? hwmon_fan_input then
      if channel =? 0 then read_linear11 d 0x90 0 junk w
      else unsupported
    else unsupported
  else if type =? hwmon_in then
    if attr =? hwmon_in_input then
      if channel =? 0 then read_linear11 d 0x88 1000 junk w
      else if channel =? 1 then read_rail d 0x00 0x8B 1000 junk w
      else if channel =? 2 then read_rail d 0x01 0x8B 1000 junk w
      else if channel =? 3 then read_rail d 0x02 0x8B 1000 junk w
      else unsupported
    else unsupported
  else if type =? hwmon_curr then
    if attr =? hwmon_curr_input then
      if channel =? 0 then read_rail d 0x00 0x8C 1000 junk w
      else if channel =? 1 then read_rail d 0x01 0x8C 1000 junk w
      else if channel =? 2 then read_rail d 0x02 0x8C 1000 junk w
      else unsupported
    else unsupported
  else if type =? hwmon_power then
    if attr =? hwmon_power_input then
      if channel =? 0 then read_linear11 d 0xEE 1000000 junk w
      else if channel =? 1 then read_rail d 0x00 0x96 1000000 junk w
      else if channel =? 2 then read_rail d 0x01 0x96 1000000 junk w
      else if channel =? 3 then read_rail d 0x02 0x96 1000000 junk w
      else unsupported
    else unsupported
  else unsupported.


(** *** The custom attributes *)

(** [sprintf(buf, "%u\n", reading)] *)
Definition sprintf_u (reading : Z) : string :=
  (NilZero.string_of_uint (N.to_uint (Z.to_N reading)) ++ String "010"%char EmptyString)%string.

(** [u32_show(dev, attr, buf, opcode)]: the length returned, the text
    written to [buf], and the world.  The return value of [send_recv_cmd]
    is dropped; [junk] is what the [u32 reading] held before the call. *)
Definition u32_show (d : nat) (opcode : Z) (junk : Z) (w : world U)
  : Z * string * world U :=
  let '(_, out, w) := send_recv_cmd d 0x03 (u8 opcode) 0x00 (Some 4%nat) w in
  let reading :=
    match out with
    | Some bs => le_combine bs
    | None => u32 junk
    end in
  let text := sprintf_u reading in
  (0 + Z.of_nat (String.length text), text, w).

Definition total_uptime_show (d : nat) := u32_show d 0xD1.
Definition current_uptime_show (d : nat) := u32_show d 0xD2.
Definition ocp_mode_show (d : nat) := u32_show d 0xD8.
Definition fan_control_show (d : nat) := u32_show d 0xF0.

End Driver.

(** ** The per-rail channels *)

(** The label tables of the driver. *)
Definition corsairpsu_in_label : list string :=
  ["voltage supply"; "voltage 12v"; "voltage 5v"; "voltage 3.3v"]%string.

Definition corsairpsu_curr_label : list string :=
  ["current 12v"; "current 5v"; "current 3.3v"]%string.

Definition corsairpsu_power_label : list string :=
  ["power total"; "power 12v"; "power 5v"; "power 3.3v"]%string.

Inductive quantity : Type := Voltage | Current | Power.

Inductive rail : Type := Rail12V | Rail5V | Rail3V3.

(** The operand of the rail selection: 0, 1, 2 for 12V, 5V, 3.3V. *)
Definition rail_index (r : rail) : Z :=
  match r with
  | Rail12V => 0
  | Rail5V => 1
  | Rail3V3 => 2
  end.

(** The opcode of the reading on page 0x03. *)
Definition quantity_opcode (q : quantity) : Z :=
  match q with
  | Voltage => 0x8B
  | Current => 0x8C
  | Power => 0x96
  end.

Definition quantity_scale (q : quantity) : Z :=
  match q with
  | Voltage => 1000
  | Current => 1000
  | Power => 1000000
  end.

Definition quantity_labels (q : quantity) : list string :=
  match q with
  | Voltage => corsairpsu_in_label
  | Current => corsairpsu_curr_label
  | Power => corsairpsu_power_label
  end.

Definition quantity_name (q : quantity) : string :=
  match q with
  | Voltage => "voltage"
  | Current => "current"
  | Power => "power"
  end.

Definition rail_name (r : rail) : string :=
  match r with
  | Rail12V => "12v"
  | Rail5V => "5v"
  | Rail3V3 => "3.3v"
  end.

(** The channel number of a per-rail reading within its sensor type:
    voltages and powers come after the supply voltage and the total
    power, which are channel 0. *)
Definition rail_channel_number (q : quantity) (r : rail) : Z :=
  match q with
  | Voltage | Power => rail_index r + 1
  | Current => rail_index r
  end.

(** The sensor type, attribute and channel of a per-rail reading. *)
Definition rail_channel {HW : HwmonHeader} (q : quantity) (r : rail) : Z * Z * Z :=
  match q with
  | Voltage => (hwmon_in, hwmon_in_input, rail_channel_number q r)
  | Current => (hwmon_curr, hwmon_curr_input, rail_channel_number q r)
  | Power => (hwmon_power, hwmon_power_input, rail_channel_number q r)
  end.

(** ** The exchange as a sequence of atomic steps *)

(** Where a caller of [usb_send_recv_cmd] stands: before the
    [mutex_trylock], after it, after the outbound transfer, after the
    [memset], before the [mutex_unlock] with the status to return, and
    returned. *)
Inductive pc : Type :=
| PcEntry
| PcLocked
| PcSent
| PcCleared
| PcUnlock (ret : Z)
| PcReturn (ret : Z).

(** The caller is between its successful [mutex_trylock] and its
    [mutex_unlock]: its exchange is in flight. *)
Definition in_flight (p : pc) : bool :=
  match p with
  | PcLocked | PcSent | PcCleared | PcUnlock _ => true
  | PcEntry | PcReturn _ => false
  end.

Section Steps.

Context {U : Type} {USB : UsbDevice U}.

(** One step of a caller working on device [d]. *)
Definition thread_step (d : nat) (p : pc) (w : world U) : pc * world U :=
  match p with
  | PcEntry =>
      let '(locked, w) := mutex_trylock d w in
      if negb locked then (PcReturn USB_MUTEX_LOCKED_ERR, w) else (PcLocked, w)
  | PcLocked =>
      let '(ret, w) := usb_interrupt_msg_snd d w in
      if ret <? 0 then (PcUnlock ret, w) else (PcSent, w)
  | PcSent => (PcCleared, clear_buf d w)
  | PcCleared =>
      let '(ret, w) := usb_interrupt_msg_rcv d w in
      if ret <? 0 then (PcUnlock ret, w) else (PcUnlock 0, w)
  | PcUnlock ret => (PcReturn ret, mutex_unlock d w)
  | PcReturn ret => (PcReturn ret, w)
  end.

Fixpoint run_thread (n : nat) (d : nat) (p : pc) (w : world U) : pc * world U :=
  match n with
  | O => (p, w)
  | S n' => let '(p', w') := thread_step d p w in run_thread n' d p' w'
  end.

(** Several callers, each with the device it works on, sharing one world. *)
Record system := mk_system {
  threads : list (nat * pc);
  sworld : world U
}.

Fixpoint set_nth {A} (i : nat) (x : A) (l : list A) : list A :=
  match l, i with
  | [], _ => []
  | _ :: l', O => x :: l'
  | y :: l', S i' => y :: set_nth i' x l'
  end.

(** Caller [i] takes one step; nothing happens when there is no such
    caller. *)
Definition sys_step (i : nat) (s : system) : system :=
  match nth_error (threads s) i with
  | Some (d, p) =>
      let '(p', w') := thread_step d p (sworld s) in
      mk_system (set_nth i (d, p') (threads s)) w'
  | None => s
  end.

(** The callers step in the order of the schedule. *)
Definition run_schedule (sched : list nat) (s : system) : system :=
  fold_left (fun s i => sys_step i s) sched s.

(** One caller per entry of [ds], all about to begin, the mutex free. *)
Definition initial (ds : list nat) (w : world U) : system :=
  mk_system (map (fun d => (d, PcEntry)) ds) (set_mutex false w).

(** The number of exchanges in flight. *)
Definition flying (ts : list (nat * pc)) : nat :=
  List.length (filter (fun t => in_flight (snd t)) ts).

Definition b2n (b : bool) : nat := if b then 1%nat else 0%nat.

(** The mutex is held exactly when one exchange is in flight, and never
    more than one is. *)
Definition lock_accounts (s : system) : Prop :=
  flying (threads s) = b2n (usbdev_mutex (sworld s)).

End Steps.

(** ** A scripted device, for concrete runs *)

(** Each transfer consumes the next entry of the script: its status and,
    for an inbound transfer, the bytes delivered.  A device whose script
    is exhausted times out. *)
Definition script : Type := list (Z * list Z).

Definition script_snd (s : script) (frame : list Z) : Z * script :=
  match s with
  | [] => (- ETIMEDOUT, [])
  | (ret, _) :: s' => (ret, s')
  end.

Definition script_rcv (s : script) : Z * list Z * script :=
  match s with
  | [] => (- ETIMEDOUT, [], [])
  | (ret, bytes) :: s' => (ret, bytes, s')
  end.

#[export] Instance script_usb : UsbDevice script := {
  usb_snd := script_snd;
  usb_rcv := script_rcv
}.

(** The world after attachment: the mutex free, every buffer zeroed (it
    comes from [devm_kzalloc]), nothing traced. *)
Definition boot (scripts : nat -> script) : world script :=
  mk_world false (fun d => mk_data (scripts d) zeros64) [].

(** The same with the mutex held by some other caller. *)
Definition boot_contended (scripts : nat -> script) : world script :=
  set_mutex true (boot scripts).

Definition signed_char : Platform := {| char_signed := true |}.
Definition unsigned_char : Platform := {| char_signed := false |}.

(** One assignment of the header's constants. *)
Definition sample_hwmon : HwmonHeader := {|
  hwmon_chip := 0;
  hwmon_temp := 1;
  hwmon_in := 2;
  hwmon_curr := 3;
  hwmon_power := 4;
  hwmon_fan := 7;
  hwmon_temp_input := 1;
  hwmon_fan_input := 1;
  hwmon_in_input := 1;
  hwmon_curr_input := 1;
  hwmon_power_input := 9;
  hwmon_types_distinct := eq_refl
|}.

(** An outbound transfer that succeeds. *)
Definition out_ok : Z * list Z := (0, []).

(** An inbound transfer that succeeds with a response echoing [opcode]
    and carrying [payload]. *)
Definition in_ok (opcode : Z) (payload : list Z) : Z * list Z :=
  (0, 0 :: opcode :: payload).

(** A supply that answers the temperature request 0x8D at once. *)
Definition psu_temp1 : nat -> script :=
  fun _ => [out_ok; in_ok 0x8D [0xD6; 0x0A]].

(** A supply that answers every request with an error response (echoed
    opcode 0x00), the handshake apart. *)
Definition psu_persistent_error : nat -> script :=
  fun _ => [out_ok; in_ok 0x00 []; out_ok; in_ok 0x03 [82; 77]; out_ok; in_ok 0x00 []].

(** A supply that answers the request 0x8D with an error response first,
    answers the handshake with a response whose byte 1 is 0x55, and then
    answers the request. *)
Definition psu_odd_handshake : nat -> script :=
  fun _ => [out_ok; in_ok 0x00 []; out_ok; in_ok 0x55 []; out_ok; in_ok 0x8D [0xD6; 0x0A]].

(** A supply that accepts the selection of the 5V rail and reports a
    current. *)
Definition psu_rail_5v : nat -> script :=
  fun _ => [out_ok; in_ok 0x00 []; out_ok; in_ok 0x8C [0x10; 0xF0]].

(** A supply that does not answer. *)
Definition psu_silent : nat -> script := fun _ => [].

(** *** Concrete runs *)

(** The temperature request on a supply that answers at once. *)
Definition run_temp1 : Z * option (list Z) * world script :=
  send_recv_cmd (PLAT := unsigned_char) 0 0x03 0x8D 0x00 (Some 2%nat) (boot psu_temp1).

(** The same request on a supply that keeps answering with an error. *)
Definition run_persistent_error : Z * option (list Z) * world script :=
  send_recv_cmd (PLAT := unsigned_char) 0 0x03 0x8D 0x00 (Some 2%nat)
    (boot psu_persistent_error).

(** The same request on a supply whose handshake response has 0x55 as
    byte 1. *)
Definition run_odd_handshake : Z * option (list Z) * world script :=
  send_recv_cmd (PLAT := unsigned_char) 0 0x03 0x8D 0x00 (Some 2%nat)
    (boot psu_odd_handshake).

(** Two callers, one for device 0 and one for device 1, after the first
    has taken its first step. *)
Definition two_devices : @system script :=
  run_schedule [0%nat] (initial [0%nat; 1%nat] (boot psu_temp1)).

(** The rail selection for the 5V current on a supply whose mutex is held
    by another caller, and the read of that channel in the same world. *)
Definition select_5v_contended : Z * option (list Z) * world script :=
  send_recv_cmd (PLAT := unsigned_char) 0 0x02 0x00 (rail_index Rail5V) None
    (boot_contended psu_rail_5v).

Definition read_5v_current_contended : Z * option Z * world script :=
  corsairpsu_read (PLAT := unsigned_char) (HW := sample_hwmon) 0
    (@hwmon_curr sample_hwmon) (@hwmon_curr_input sample_hwmon)
    (rail_channel_number Current Rail5V) 0 (boot_contended psu_rail_5v).

(** ** Further observations of a trace *)

(** The frames that went out on the wire, in order. *)
Definition wire_of (e : event) : list (list Z) :=
  match e with
  | EvUsbOut _ f _ => [f]
  | _ => []
  end.

Definition wire (t : list event) : list (list Z) := flat_map wire_of t.

(** The 64 bytes of a command frame: page, opcode, operand, then zeros. *)
Definition encode_frame (f : Z * Z * Z) : list Z :=
  let '(a, o, p) := f in a :: o :: p :: repeat 0 61%nat.

(** ** What a read may do *)

(** The command frames found in [corsairpsu_read] and [send_recv_cmd]:
    the eight readings on page 0x03, the three rail selections, and the
    handshake. *)
Definition driver_frames : list (Z * Z * Z) :=
  [(0x03, 0x8D, 0x00); (0x03, 0x8E, 0x00); (0x03, 0x90, 0x00); (0x03, 0x88, 0x00);
   (0x03, 0x8B, 0x00); (0x03, 0x8C, 0x00); (0x03, 0x96, 0x00); (0x03, 0xEE, 0x00);
   (0x02, 0x00, 0x00); (0x02, 0x00, 0x01); (0x02, 0x00, 0x02);
   (0xfe, 0x03, 0x00)].

(** What holds of every call of [corsairpsu_read] on device [d] from the
    world [w], with return value [ret], stored value [val], final world
    [w'] and added events [t]. *)
Definition read_facts {U : Type} (d : nat) (w : world U)
  (ret : Z) (val : option Z) (w' : world U) (t : list event) : Prop :=
  trace w' = trace w ++ t
  /\ usbdev_mutex w' = usbdev_mutex w
  /\ (forall d', d' <> d -> devs w' d' = devs w d')
  /\ fold_left held_after t false = false
  /\ (t = [] -> w' = w /\ ret = - EOPNOTSUPP)
  /\ (t <> [] -> statuses t <> [])
  /\ (ret = - EINVAL <-> last (statuses t) 0 = USB_MUTEX_LOCKED_ERR)
  /\ Forall (fun f => In f driver_frames) (frames t)
  /\ (ret = 0 ->
      exists resp scale,
        last (responses t) [] = resp
        /\ length resp = 64%nat
        /\ In scale scales
        /\ val = Some (pmbus_linear11_to_long
                         (nth 2 resp 0 + 256 * nth 3 resp 0) scale)).

Definition read_contract {U : Type} (d : nat) (w : world U)
  (res : Z * option Z * world U) : Prop :=
  let '(ret, val, w') := res in exists t, read_facts d w ret val w' t.

(** A supply that answers the total-uptime request 0xD1 with 23160895
    seconds, the example of the command table. *)
Definition psu_uptime : nat -> script :=
  fun _ => [out_ok; in_ok 0xD1 [0x3F; 0x68; 0x61; 0x01]].

(** ** Labels and registered channels *)

Definition corsairpsu_chip_label : list string :=
  ["total uptime"; "uptime"]%string.

Definition corsairpsu_temp_label : list string :=
  ["temp1"; "temp2"]%string.

Definition corsairpsu_fan_label : list string :=
  ["fan rpm"]%string.

(** [table[channel]] for an [int channel].  The tables are C arrays and
    the index is not checked: [None] stands for an access outside the
    array, whose result C leaves undefined. *)
Definition label_at (table : list string) (channel : Z) : option string :=
  if channel <? 0 then None else nth_error table (Z.to_nat channel).

(** [corsairpsu_read_labels(dev, type, attr, channel, str)]: the return
    value and the string stored through [str], or [None] when the
    function reads outside a label table.  [attr] is not used. *)
Definition corsairpsu_read_labels {HW : HwmonHeader} (type attr channel : Z)
  : option (Z * option string) :=
  let stored table :=
    match label_at table channel with
    | Some s => Some (0, Some s)
    | None => None
    end in
  if type =? hwmon_chip then stored corsairpsu_chip_label
  else if type =? hwmon_temp then stored corsairpsu_temp_label
  else if type =? hwmon_fan then stored corsairpsu_fan_label
  else if type =? hwmon_in then stored corsairpsu_in_label
  else if type =? hwmon_curr then stored corsairpsu_curr_label
  else if type =? hwmon_power then stored corsairpsu_power_label
  else Some (- EOPNOTSUPP, None).

(** The two attribute bits the driver sets in a channel's configuration:
    [HWMON_x_INPUT] and [HWMON_x_LABEL]. *)
Inductive hwmon_flag : Type := INPUT | LABEL.

Definition flag_eqb (a b : hwmon_flag) : bool :=
  match a, b with
  | INPUT, INPUT | LABEL, LABEL => true
  | _, _ => false
  end.

(** One [HWMON_CHANNEL_INFO(type, config...)]: the sensor type, the
    attribute whose bit [HWMON_x_INPUT] is, and the configuration of each
    channel. *)
Record hwmon_channel_info : Type := mk_info {
  info_type : Z;
  info_input : Z;
  info_config : list (list hwmon_flag)
}.

(** [corsairpsu_info] *)
Definition corsairpsu_info {HW : HwmonHeader} : list hwmon_channel_info :=
  [ mk_info hwmon_temp hwmon_temp_input
      [[INPUT; LABEL]; [INPUT; LABEL]];
    mk_info hwmon_fan hwmon_fan_input
      [[INPUT; LABEL]];
    mk_info hwmon_in hwmon_in_input
      [[INPUT; LABEL]; [INPUT; LABEL]; [INPUT; LABEL]; [INPUT; LABEL]];
    mk_info hwmon_curr hwmon_curr_input
      [[INPUT; LABEL]; [INPUT; LABEL]; [INPUT; LABEL]];
    mk_info hwmon_power hwmon_power_input
      [[INPUT; LABEL]; [INPUT; LABEL]; [INPUT; LABEL]; [INPUT; LABEL]] ].

(** The channels of a configuration that have flag [f], numbered from
    [n]. *)
Fixpoint channels_from (n : Z) (f : hwmon_flag) (config : list (list hwmon_flag))
  : list Z :=
  match config with
  | [] => []
  | c :: rest =>
      (if existsb (flag_eqb f) c then [n] else []) ++ channels_from (n + 1) f rest
  end.

(** The attributes hwmon creates from [corsairpsu_info]: one for each
    flag set in the configuration of each channel.  It calls
    [corsairpsu_read] for those with [INPUT], with the type, the input
    attribute and the channel number, and [corsairpsu_read_labels] for
    those with [LABEL]. *)
Definition registered {HW : HwmonHeader} (f : hwmon_flag)
  : list (hwmon_channel_info * Z) :=
  flat_map (fun i => map (fun c => (i, c)) (channels_from 0 f (info_config i)))
           corsairpsu_info.

(** The table of commands in the comment above [send_recv_cmd_impl]:
    name, first byte of the frame (headed Length), opcode. *)
Definition command_table : list (string * (Z * Z)) :=
  [ ("name", (0xFE, 0x03));
    ("vendor", (0x03, 0x99));
    ("product", (0x03, 0x9A));
    ("temp1", (0x03, 0x8D));
    ("temp2", (0x03, 0x8E));
    ("fan rpm", (0x03, 0x90));
    ("fan control", (0x03, 0xF0));
    ("voltage supply", (0x03, 0x88));
    ("power total", (0x03, 0xEE));
    ("voltage 12v", (0x03, 0x8B));
    ("current 12v", (0x03, 0x8C));
    ("power 12v", (0x03, 0x96));
    ("voltage 5v", (0x03, 0x8B));
    ("current 5v", (0x03, 0x8C));
    ("power 5v", (0x03, 0x96));
    ("voltage 3.3v", (0x03, 0x8B));
    ("current 3.3v", (0x03, 0x8C));
    ("power 3.3v", (0x03, 0x96));
    ("total uptime", (0x03, 0xD1));
    ("uptime", (0x03, 0xD2));
    ("ocp mode", (0x03, 0xD8)) ]%string.

(** The row of the table for a name. *)
Fixpoint documented (table : list (string * (Z * Z))) (name : string)
  : option (Z * Z) :=
  match table with
  | [] => None
  | (n, row) :: rest => if String.eqb n name then Some row else documented rest name
  end.

(** ** Attaching a supply *)

Definition ENOMEM : Z := 12.

(** The pointer [devm_hwmon_device_register_with_info] returns: a device,
    or an error pointer that carries a negative errno. *)
Inductive hwmon_ptr : Type :=
| HwmonDevice
| HwmonError (err : Z).

(** [PTR_ERR_OR_ZERO(ptr)] *)
Definition PTR_ERR_OR_ZERO (p : hwmon_ptr) : Z :=
  match p with
  | HwmonDevice => 0
  | HwmonError err => err
  end.

(** What the kernel answers to the calls of one [corsairpsu_probe]: the
    status of [hid_parse] and of [hid_hw_start], whether each
    [devm_kzalloc] returned memory, the device
    [interface_to_usbdev(usbif)] and the pointer returned by the hwmon
    registration. *)
Record probe_env (U : Type) : Type := mk_probe_env {
  hid_parse_ret : Z;
  hid_hw_start_ret : Z;
  data_alloc : bool;
  buf_alloc : bool;
  interface_to_usbdev : U;
  hwmon_dev : hwmon_ptr
}.

Arguments mk_probe_env {U} _ _ _ _ _ _.
Arguments hid_parse_ret {U} _.
Arguments hid_hw_start_ret {U} _.
Arguments data_alloc {U} _.
Arguments buf_alloc {U} _.
Arguments interface_to_usbdev {U} _.
Arguments hwmon_dev {U} _.

(** The arrays [name], [vendor] and [product] as [printk] finds them:
    [None] for an array nothing was stored in, which still holds what the
    stack held. *)
Definition identification : Type :=
  (option (list Z) * option (list Z) * option (list Z))%type.

Section Probe.

Context {U : Type} {USB : UsbDevice U} {PLAT : Platform}.

(** [corsairpsu_probe(dev, id)]: the return value, the arguments of the
    [printk] when it is reached, and the world.  [d] is the place of the
    new [struct corsairpsu_data]; both allocations are zeroed.  The
    return values of the three [send_recv_cmd] are dropped. *)
Definition corsairpsu_probe (d : nat) (env : probe_env U) (w : world U)
  : Z * option identification * world U :=
  let ret := hid_parse_ret env in
  if negb (ret =? 0) then (ret, None, w) else
  let ret := hid_hw_start_ret env in
  if negb (ret =? 0) then (ret, None, w) else
  if negb (data_alloc env) then (- ENOMEM, None, w) else
  if negb (buf_alloc env) then (- ENOMEM, None, w) else
  let w := set_dev d (mk_data (interface_to_usbdev env) zeros64) w in
  let hwmon := hwmon_dev env in
  let '(_, name, w) := send_recv_cmd d 0xfe 0x03 0x00 (Some 31%nat) w in
  let '(_, vendor, w) := send_recv_cmd d 0x03 0x99 0x00 (Some 31%nat) w in
  let '(_, product, w) := send_recv_cmd d 0x03 0x9a 0x00 (Some 31%nat) w in
  (PTR_ERR_OR_ZERO hwmon, Some (name, vendor, product), w).

End Probe.

(** Whether every step before the hwmon registration succeeded. *)
Definition setup_ok {U} (env : probe_env U) : bool :=
  (hid_parse_ret env =? 0) && (hid_hw_start_ret env =? 0)
  && data_alloc env && buf_alloc env.

(** What [printk] may find in one of the three arrays: nothing stored,
    or 31 bytes. *)
Definition array_state (a : option (list Z)) : Prop :=
  a = None \/ exists bs, a = Some bs /\ length bs = 31%nat /\ Forall is_byte bs.

(** A supply that answers the three identification requests: RM650i,
    CORSAIR, RM650i. *)
Definition psu_identity : nat -> script :=
  fun _ => [out_ok; in_ok 0x03 [82; 77; 54; 53; 48; 105];
            out_ok; in_ok 0x99 [67; 79; 82; 83; 65; 73; 82];
            out_ok; in_ok 0x9a [82; 77; 54; 53; 48; 105]].

(** A probe where every kernel call succeeds. *)
Definition probe_all_ok (s : script) : probe_env script :=
  mk_probe_env 0 0 true true s HwmonDevice.

(** A supply that accepts the frame and delivers no byte in return. *)
Definition psu_mute : nat -> script :=
  fun _ => [out_ok; (0, [])].

(** The steps a caller of [usb_send_recv_cmd] has left at most before it
    has returned. *)
Definition steps_left (p : pc) : nat :=
  match p with
  | PcEntry => 5
  | PcLocked => 4
  | PcSent => 3
  | PcCleared => 2
  | PcUnlock _ => 1
  | PcReturn _ => 0
  end.

(* ================================================================== *)
(** * Part II: lemmas and theorems *)

(** ** Fixed-width integers *)

Lemma sint_id (w x : Z) :
  0 < w -> - 2 ^ (w - 1) <= x < 2 ^ (w - 1) -> sint w x = x.
Proof.
  intros Hw Hx. unfold sint.
  assert (H2 : 2 ^ w = 2 * 2 ^ (w - 1)).
  { replace w with (Z.succ (w - 1)) at 1 by lia.
    rewrite Z.pow_succ_r by lia. reflexivity. }
  rewrite Z.mod_small by lia. lia.
Qed.

Lemma s16_low (x : Z) : 0 <= x < 32768 -> s16 x = x.
Proof. intros H. apply sint_id; simpl; lia. Qed.

Lemma s16_high (x : Z) : 32768 <= x < 65536 -> s16 x = x - 65536.
Proof.
  intros H. unfold s16, sint. change (2 ^ (16 - 1)) with 32768.
  change (2 ^ 16) with 65536.
  replace (x + 32768) with (x - 32768 + 1 * 65536) by lia.
  rewrite Z.mod_add by lia. rewrite Z.mod_small by lia. lia.
Qed.

Lemma s32_id (x : Z) : - 2147483648 <= x < 2147483648 -> s32 x = x.
Proof. intros H. apply sint_id; simpl; lia. Qed.

Lemma s64_id (x : Z) :
  - 9223372036854775808 <= x < 9223372036854775808 -> s64 x = x.
Proof. intros H. apply sint_id; simpl; lia. Qed.

Lemma u8_range (x : Z) : 0 <= u8 x < 256.
Proof. unfold u8. apply Z.mod_pos_bound. reflexivity. Qed.

(** ** LINEAR11 *)

Lemma mantissa11_range (v : Z) : - 1024 <= mantissa11 v < 1024.
Proof.
  unfold mantissa11. cbv zeta.
  change (2 ^ 11) with 2048. change (2 ^ 10) with 1024.
  pose proof (Z.mod_pos_bound v 2048 eq_refl) as Hm.
  destruct (Z.ltb_spec (v mod 2048) 1024); lia.
Qed.

Lemma exponent5_range (v : Z) : - 16 <= exponent5 v < 16.
Proof.
  unfold exponent5. cbv zeta.
  change (2 ^ 5) with 32. change (2 ^ 4) with 16.
  pose proof (Z.mod_pos_bound (v / 2 ^ 11) 32 eq_refl) as Hm.
  destruct (Z.ltb_spec ((v / 2 ^ 11) mod 32) 16); lia.
Qed.

(** The [exponent] variable holds the sign-extended high 5 bits. *)
Lemma exponent_bits (v : Z) :
  0 <= v < 65536 -> s16 (Z.shiftr (s16 v) 11) = exponent5 v.
Proof.
  intros Hv. unfold exponent5. cbv zeta.
  change (2 ^ 5) with 32. change (2 ^ 4) with 16. change (2 ^ 11) with 2048.
  rewrite Z.shiftr_div_pow2 by lia. change (2 ^ 11) with 2048.
  assert (Hq : 0 <= v / 2048 < 32).
  { split; [apply Z.div_pos; lia | apply Z.div_lt_upper_bound; lia]. }
  rewrite (Z.mod_small (v / 2048) 32) by lia.
  destruct (Z.ltb_spec (v / 2048) 16) as [Hlt | Hge].
  - assert (v < 32768).
    { destruct (Z.lt_ge_cases v 32768) as [|Hc]; [assumption|].
      apply (Z.div_le_mono _ _ 2048) in Hc; [|lia].
      change (32768 / 2048) with 16 in Hc. lia. }
    rewrite (s16_low v) by lia. apply s16_low. lia.
  - assert (32768 <= v).
    { destruct (Z.lt_ge_cases v 32768) as [Hc|]; [|assumption].
      assert (v / 2048 < 16) by (apply Z.div_lt_upper_bound; lia). lia. }
    rewrite (s16_high v) by lia.
    replace (v - 65536) with (v + (- 32) * 2048) by lia.
    rewrite Z.div_add by lia.
    apply sint_id; simpl; lia.
Qed.

(** The [mantissa] variable holds the sign-extended low 11 bits. *)
Lemma mantissa_bits (v : Z) :
  0 <= v -> s32 (Z.shiftr (s16 (Z.shiftl (Z.land v 0x7ff) 5)) 5) = mantissa11 v.
Proof.
  intros Hv. unfold mantissa11. cbv zeta.
  change (2 ^ 11) with 2048. change (2 ^ 10) with 1024.
  change 0x7ff with (Z.ones 11). rewrite Z.land_ones by lia.
  change (2 ^ 11) with 2048.
  pose proof (Z.mod_pos_bound v 2048 eq_refl) as Hm.
  rewrite Z.shiftl_mul_pow2 by lia. rewrite Z.shiftr_div_pow2 by lia.
  change (2 ^ 5) with 32.
  destruct (Z.ltb_spec (v mod 2048) 1024) as [Hlt | Hge].
  - rewrite s16_low by lia. rewrite Z.div_mul by lia. apply s32_id. lia.
  - rewrite s16_high by lia.
    replace (v mod 2048 * 32 - 65536) with ((v mod 2048 - 2048) * 32) by lia.
    rewrite Z.div_mul by lia. apply s32_id. lia.
Qed.

Lemma pow2_le_15 (n : Z) : 0 <= n < 16 -> 1 <= 2 ^ n <= 32768.
Proof.
  intros H. split.
  - apply (Z.pow_le_mono_r 2 0 n); lia.
  - change 32768 with (2 ^ 15). apply Z.pow_le_mono_r; lia.
Qed.

(** With a product that fits an [int], the decoder computes the
    reference value. *)
Lemma decode_reference (v scale : Z) :
  0 <= v < 65536 ->
  0 <= scale <= 1000000 ->
  pmbus_linear11_to_long v scale = linear11_reference v scale.
Proof.
  intros Hv Hs. unfold pmbus_linear11_to_long, linear11_reference. cbv zeta.
  rewrite exponent_bits by assumption. rewrite mantissa_bits by lia.
  pose proof (mantissa11_range v) as Hm.
  pose proof (exponent5_range v) as He.
  set (y := mantissa11 v) in *. set (n := exponent5 v) in *.
  assert (Hp : - 1024000000 <= y * scale <= 1024000000) by nia.
  rewrite (s32_id (y * scale)) by lia.
  rewrite (s64_id (y * scale)) by lia.
  destruct (Z.leb_spec 0 n) as [Hn | Hn].
  - rewrite Z.shiftl_mul_pow2 by lia.
    pose proof (pow2_le_15 n ltac:(lia)) as H2.
    apply s64_id. nia.
  - rewrite Z.shiftr_div_pow2 by lia.
    assert (H2 : 1 <= 2 ^ (- n)) by (apply (Z.pow_le_mono_r 2 0 (- n)); lia).
    apply s64_id.
    assert (Hlo : - 1024000000 <= y * scale / 2 ^ (- n)).
    { apply Z.div_le_lower_bound; nia. }
    assert (Hhi : y * scale / 2 ^ (- n) <= 1024000000).
    { apply Z.div_le_upper_bound; nia. }
    lia.
Qed.

Lemma scales_range (scale : Z) : In scale scales -> 0 <= scale <= 1000000.
Proof. unfold scales. simpl. intros [H | [H | [H | []]]]; subst; lia. Qed.

(** Whatever the word, a scale of zero makes the decoder return zero. *)
Lemma decode_scale_0 (v : Z) : pmbus_linear11_to_long v 0 = 0.
Proof.
  unfold pmbus_linear11_to_long. cbv zeta. rewrite Z.mul_0_r.
  change (s64 (s32 0)) with 0.
  rewrite Z.shiftl_0_l, Z.shiftr_0_l. change (s64 0) with 0.
  destruct (0 <=? _); reflexivity.
Qed.

(** C1: for every 16-bit word [v] and every scale in {0, 1000, 1000000},
    [pmbus_linear11_to_long v scale] is the sign-extended 11-bit mantissa
    times the scale, shifted by the sign-extended 5-bit exponent: the
    product is formed first and is then shifted left by [N] when
    [0 <= N] and arithmetically right by [-N] otherwise.  In particular
    the word 0 decodes to 0, and a word with mantissa -1 and exponent 0
    decodes to [- scale]. *)
Theorem C1_linear11_decode (v scale : Z) :
  0 <= v < 65536 ->
  In scale scales ->
  pmbus_linear11_to_long v scale
    = (if 0 <=? exponent5 v
       then Z.shiftl (mantissa11 v * scale) (exponent5 v)
       else Z.shiftr (mantissa11 v * scale) (- exponent5 v))
  /\ pmbus_linear11_to_long v scale = linear11_reference v scale
  /\ pmbus_linear11_to_long 0x0000 scale = 0
  /\ (mantissa11 v = -1 -> exponent5 v = 0 ->
      pmbus_linear11_to_long v scale = - scale).
Proof.
  intros Hv Hs. pose proof (scales_range scale Hs) as Hr.
  pose proof (decode_reference v scale Hv Hr) as Hd.
  split; [exact Hd|]. split; [exact Hd|]. split.
  - rewrite decode_reference by lia. reflexivity.
  - intros Hm He. rewrite Hd. unfold linear11_reference. cbv zeta.
    rewrite Hm, He. change (0 <=? 0) with true. cbv iota.
    rewrite Z.shiftl_0_r. lia.
Qed.

(** The word 0x07ff: mantissa -1, exponent 0. *)
Lemma C1_linear11_decode_witness :
  0 <= 0x07ff < 65536
  /\ In 1000 scales
  /\ pmbus_linear11_to_long 0x07ff 1000 = - 1000.
Proof.
  assert (Hv : 0 <= 0x07ff < 65536) by lia.
  assert (Hs : In 1000 scales) by (simpl; auto).
  split; [exact Hv|]. split; [exact Hs|].
  destruct (C1_linear11_decode 0x07ff 1000 Hv Hs) as (_ & _ & _ & H).
  apply H; reflexivity.
Defined.

(** Shifting before scaling gives another value: the word 0xF801
    (mantissa 1, exponent -1) at scale 1000 decodes to 500, not to 0. *)
Lemma multiply_then_shift :
  pmbus_linear11_to_long 0xF801 1000 = 500
  /\ linear11_shift_first 0xF801 1000 = 0.
Proof. split; reflexivity. Qed.

(** C2: with [scale = 0] the decoder does not return the real value in
    whole units.  A fan reporting 800 RPM (word 0x0320: exponent 0,
    mantissa 800) decodes to 0; and so does every other word. *)
Theorem C2_scale_zero_loses_reading :
  linear11_whole_units 0x0320 = 800
  /\ pmbus_linear11_to_long 0x0320 0 = 0
  /\ forall v, pmbus_linear11_to_long v 0 = 0.
Proof.
  split; [reflexivity|]. split; [reflexivity|]. exact decode_scale_0.
Qed.

(** ** Traces *)

Lemma frames_app (s t : list event) : frames (s ++ t) = frames s ++ frames t.
Proof. apply flat_map_app. Qed.

Lemma statuses_app (s t : list event) : statuses (s ++ t) = statuses s ++ statuses t.
Proof. apply flat_map_app. Qed.

Lemma peeks_app (s t : list event) : peeks (s ++ t) = peeks s ++ peeks t.
Proof. apply flat_map_app. Qed.

Lemma responses_app (s t : list event) :
  responses (s ++ t) = responses s ++ responses t.
Proof. apply flat_map_app. Qed.

Lemma echoes_app (s t : list event) : echoes (s ++ t) = echoes s ++ echoes t.
Proof. unfold echoes. rewrite responses_app, map_app. reflexivity. Qed.

Lemma echoes_cons (e : event) (t : list event) :
  echoes (e :: t) = map (fun resp => nth 1 resp 0) (response_of e) ++ echoes t.
Proof. unfold echoes, responses. cbn [flat_map]. apply map_app. Qed.

Lemma attempts_app (s t : list event) : attempts (s ++ t) = (attempts s + attempts t)%nat.
Proof. unfold attempts. rewrite filter_app, length_app. reflexivity. Qed.

(** The lock state after a run of events. *)
Lemma under_lock_app (sel : event -> bool) (s t : list event) (held : bool) :
  under_lock sel held (s ++ t)
  = under_lock sel held s && under_lock sel (fold_left held_after s held) t.
Proof.
  revert held. induction s as [|e s IH]; intros held; simpl.
  - reflexivity.
  - rewrite IH. rewrite andb_assoc. reflexivity.
Qed.

Lemma outside_lock_app (sel : event -> bool) (s t : list event) (held : bool) :
  outside_lock sel held (s ++ t)
  = outside_lock sel held s && outside_lock sel (fold_left held_after s held) t.
Proof.
  revert held. induction s as [|e s IH]; intros held; simpl.
  - reflexivity.
  - rewrite IH. rewrite andb_assoc. reflexivity.
Qed.

Lemma frames_cons (e : event) (t : list event) : frames (e :: t) = frame_of e ++ frames t.
Proof. reflexivity. Qed.

Lemma statuses_cons (e : event) (t : list event) :
  statuses (e :: t) = status_of e ++ statuses t.
Proof. reflexivity. Qed.

Lemma peeks_cons (e : event) (t : list event) : peeks (e :: t) = peek_of e ++ peeks t.
Proof. reflexivity. Qed.

Lemma attempts_cons (e : event) (t : list event) :
  attempts (e :: t) = ((if is_trylock e then 1 else 0) + attempts t)%nat.
Proof. unfold attempts. cbn [filter]. destruct (is_trylock e); reflexivity. Qed.

Lemma copy_frames (d : nat) (result : option nat) : frames (copy_events d result) = [].
Proof. destruct result as [[|n]|]; reflexivity. Qed.

Lemma copy_statuses (d : nat) (result : option nat) : statuses (copy_events d result) = [].
Proof. destruct result as [[|n]|]; reflexivity. Qed.

Lemma copy_peeks (d : nat) (result : option nat) : peeks (copy_events d result) = [].
Proof. destruct result as [[|n]|]; reflexivity. Qed.

Lemma copy_echoes (d : nat) (result : option nat) : echoes (copy_events d result) = [].
Proof. destruct result as [[|n]|]; reflexivity. Qed.

Lemma copy_attempts (d : nat) (result : option nat) :
  attempts (copy_events d result) = 0%nat.
Proof. destruct result as [[|n]|]; reflexivity. Qed.

Lemma nth_byte (l : list Z) (i : nat) : Forall is_byte l -> is_byte (nth i l 0).
Proof.
  intros H. revert i. induction H as [|b l Hb Hl IH]; intros [|i]; simpl;
    try (unfold is_byte; lia); auto.
Qed.

Section ExchangeEvents.

Variable d : nat.
Variable r : Z.
Variable x : list event.
Hypothesis Hx : exchange_events d r x.

Lemma exchange_frames : frames x = [].
Proof. destruct Hx; reflexivity. Qed.

Lemma exchange_peeks : peeks x = [].
Proof. destruct Hx; reflexivity. Qed.

Lemma exchange_attempts : attempts x = 1%nat.
Proof. destruct Hx; reflexivity. Qed.

Lemma exchange_statuses : statuses x = [r].
Proof.
  destruct Hx as [ | f r0 H | f r1 r0 data H1 H | f r1 r2 resp H1 H2 Hb];
    unfold statuses; simpl.
  - reflexivity.
  - apply Z.ltb_lt in H. rewrite H. reflexivity.
  - apply Z.ltb_lt in H. rewrite H.
    apply Z.ltb_ge in H1. rewrite H1. reflexivity.
  - apply Z.ltb_ge in H1, H2. rewrite H1, H2. reflexivity.
Qed.

Lemma exchange_failed_echoes : r < 0 -> echoes x = [].
Proof.
  destruct Hx as [ | f r0 H | f r1 r0 data H1 H | f r1 r2 resp H1 H2 Hb]; intros Hr;
    unfold echoes, responses; cbn; try reflexivity.
  - apply Z.ltb_lt in H. rewrite H. reflexivity.
  - lia.
Qed.

Lemma exchange_done_echoes :
  r = 0 -> exists b, echoes x = [b] /\ is_byte b.
Proof.
  destruct Hx as [ | f r0 H | f r1 r0 data H1 H | f r1 r2 resp H1 H2 Hb]; intros Hr;
    try (unfold USB_MUTEX_LOCKED_ERR in *; lia).
  exists (nth 1 resp 0). unfold echoes, responses. cbn.
  apply Z.ltb_ge in H2. rewrite H2. split; [reflexivity|].
  apply nth_byte. exact Hb.
Qed.

Lemma exchange_status : r < 0 \/ r = 0.
Proof. destruct Hx; unfold USB_MUTEX_LOCKED_ERR; lia. Qed.

(** The caller does not hold the lock when the exchange is over. *)
Lemma exchange_releases : fold_left held_after x false = false.
Proof. destruct Hx; reflexivity. Qed.

(** Inside an exchange every access to the buffer is under the lock. *)
Lemma exchange_under_lock : under_lock is_buffer_access false x = true.
Proof. destruct Hx; reflexivity. Qed.

Lemma exchange_no_client_access (held : bool) :
  outside_lock is_client_access held x = true.
Proof. destruct Hx; destruct held; reflexivity. Qed.

End ExchangeEvents.

(** ** Transport *)

Section TransportFacts.

Context {U : Type} {USB : UsbDevice U}.

Lemma events_since_app (w w' : world U) (new : list event) :
  trace w' = trace w ++ new -> events_since w w' = new.
Proof.
  intros H. unfold events_since. rewrite H, skipn_app, skipn_all, Nat.sub_diag.
  reflexivity.
Qed.

Lemma Forall_take {A} (P : A -> Prop) (n : nat) (l : list A) :
  Forall P l -> Forall P (firstn n l).
Proof.
  intros H. revert n. induction H as [|a l Ha Hl IH]; intros [|n]; simpl;
    constructor; auto.
Qed.

Lemma Forall_drop {A} (P : A -> Prop) (n : nat) (l : list A) :
  Forall P l -> Forall P (skipn n l).
Proof.
  intros H. revert n. induction H as [|a l Ha Hl IH]; intros [|n]; simpl;
    try constructor; auto.
Qed.

Lemma overlay_bytes (bytes : list Z) : Forall is_byte (overlay bytes zeros64).
Proof.
  unfold overlay. apply Forall_take. apply Forall_app. split.
  - apply Forall_map. apply Forall_forall. intros b _. apply u8_range.
  - apply Forall_drop. unfold zeros64. apply Forall_forall.
    intros b Hb. apply repeat_spec in Hb. subst. unfold is_byte. lia.
Qed.

(** With the mutex held the exchange is refused at once: one failed
    [mutex_trylock] and nothing else. *)
Lemma usb_send_recv_cmd_busy (d : nat) (w : world U) :
  usbdev_mutex w = true ->
  usb_send_recv_cmd d w = (USB_MUTEX_LOCKED_ERR, emit (EvTryLock d false) w).
Proof.
  intros H. unfold usb_send_recv_cmd, mutex_trylock. rewrite H. reflexivity.
Qed.

(** What one exchange adds to the trace; the mutex is left as it was
    found; after a successful exchange the buffer holds bytes. *)
Lemma usb_send_recv_cmd_events (d : nat) (w : world U) :
  forall ret w', usb_send_recv_cmd d w = (ret, w') ->
  exists x,
    trace w' = trace w ++ x
    /\ exchange_events d ret x
    /\ usbdev_mutex w' = usbdev_mutex w
    /\ (0 <= ret -> echoes x = [nth 1 (buf (devs w' d)) 0])
    /\ hd_error x = Some (EvTryLock d (negb (usbdev_mutex w))).
Proof.
  intros ret w'. unfold usb_send_recv_cmd, mutex_trylock.
  destruct (usbdev_mutex w) eqn:Hm; cbn [negb].
  - intros H. inversion H; subst; clear H.
    exists [EvTryLock d false]. cbn. rewrite Hm.
    repeat split; try constructor. unfold USB_MUTEX_LOCKED_ERR. lia.
  - unfold usb_interrupt_msg_snd. cbn.
    destruct (usb_snd (usbdev (devs w d)) (buf (devs w d))) as [r1 u1].
    destruct (Z.ltb_spec r1 0) as [H1 | H1].
    + intros H. inversion H; subst; clear H.
      eexists. cbn. rewrite <- !app_assoc. cbn.
      repeat split; [constructor; assumption | lia].
    + unfold usb_interrupt_msg_rcv. cbn. rewrite Nat.eqb_refl. cbn.
      destruct (usb_rcv u1) as [[r2 bytes] u2].
      destruct (Z.ltb_spec r2 0) as [H2 | H2].
      * intros H. inversion H; subst; clear H.
        eexists. cbn. rewrite <- !app_assoc. cbn.
        repeat split; [constructor; assumption | lia].
      * intros H. inversion H; subst; clear H.
        eexists. cbn. rewrite <- !app_assoc. cbn.
        repeat split; [constructor; try assumption; apply overlay_bytes | ].
        intros _. rewrite Nat.eqb_refl. cbn.
        unfold echoes, responses. cbn.
        apply Z.ltb_ge in H2. rewrite H2. reflexivity.
Qed.

(** One call of [send_recv_cmd_impl]: the frame is built, then one
    exchange takes place. *)
Lemma send_recv_cmd_impl_events (d : nat) (a o p : Z) (w : world U) :
  forall ret w', send_recv_cmd_impl d a o p w = (ret, w') ->
  exists x,
    trace w' = trace w ++ EvFrame d a o p :: x
    /\ exchange_events d ret x
    /\ usbdev_mutex w' = usbdev_mutex w
    /\ (0 <= ret -> echoes x = [nth 1 (buf (devs w' d)) 0]).
Proof.
  intros ret w'. unfold send_recv_cmd_impl.
  destruct (usb_send_recv_cmd d (build_frame d a o p w)) as [r w1] eqn:E.
  apply usb_send_recv_cmd_events in E. destruct E as (x & Ht & Hx & Hm & Hb & _).
  cbn in Ht, Hm. rewrite <- app_assoc in Ht. cbn in Ht.
  destruct (Z.ltb_spec r 0) as [Hr | Hr]; intros H; inversion H; subst; clear H.
  - exists x. repeat split; auto.
  - destruct (exchange_status _ _ _ Hx) as [Hneg | H0]; [lia|]. subst r.
    exists x. repeat split; auto.
Qed.

End TransportFacts.

(** ** Protocol client *)

Section ClientFacts.

Context {U : Type} {USB : UsbDevice U} {PLAT : Platform}.

Lemma copy_out_events (d : nat) (result : option nat) (w : world U) :
  forall ret out w', copy_out d result w = (ret, out, w') ->
  ret = 0 /\ out = copied d result w
  /\ trace w' = trace w ++ copy_events d result
  /\ usbdev_mutex w' = usbdev_mutex w
  /\ devs w' = devs w.
Proof.
  intros ret out w'. unfold copy_out, copied, copy_events.
  destruct result as [n|]; [destruct (0 <? n)%nat|];
    intros H; inversion H; subst; clear H; cbn;
    rewrite ?app_nil_r; repeat split; reflexivity.
Qed.

(** Every run of [send_recv_cmd] is one of the six of [client_events]. *)
Lemma send_recv_cmd_events (d : nat) (a o p : Z) (result : option nat) (w : world U) :
  forall ret out w', send_recv_cmd d a o p result w = (ret, out, w') ->
  exists t,
    trace w' = trace w ++ t
    /\ client_events d a o p result ret t
    /\ usbdev_mutex w' = usbdev_mutex w
    /\ (ret < 0 -> out = None)
    /\ (ret = 0 -> out = copied d result w').
Proof.
  intros ret out w'. unfold send_recv_cmd.
  destruct (send_recv_cmd_impl d a o p w) as [r1 w1] eqn:E1.
  apply send_recv_cmd_impl_events in E1. destruct E1 as (x1 & Ht1 & Hx1 & Hm1 & Hb1).
  destruct (Z.ltb_spec r1 0) as [Hr1 | Hr1].
  { intros [= <- <- <-].
    exists (EvFrame d a o p :: x1). repeat split; auto.
    - constructor; assumption.
    - intros ->. lia. }
  destruct (exchange_status _ _ _ Hx1) as [Hneg | H0]; [lia|]. subst r1.
  pose proof (Hb1 Hr1) as Hbyte1.
  unfold echo_differs. cbn [fst snd].
  set (b1 := nth 1 (buf (devs w1 d)) 0) in *.
  destruct (Z.eqb_spec (char_value b1) o) as [He1 | He1]; cbn [negb].
  { destruct (copy_out d result (emit (EvPeek d b1) w1)) as [[r c] wc] eqn:Ec.
    apply copy_out_events in Ec. destruct Ec as (-> & -> & Htc & Hmc & Hdc).
    intros [= <- <- <-].
    exists (EvFrame d a o p :: x1 ++ EvPeek d b1 :: copy_events d result).
    repeat split.
    - rewrite Htc. cbn. rewrite Ht1. rewrite <- ?app_assoc. reflexivity.
    - apply CFirstDone; assumption.
    - rewrite Hmc. cbn. exact Hm1.
    - lia.
    - intros _. unfold copied. rewrite Hdc. reflexivity. }
  destruct (send_recv_cmd_impl d 254 3 0 (emit (EvPeek d b1) w1)) as [r2 w2] eqn:E2.
  apply send_recv_cmd_impl_events in E2. destruct E2 as (x2 & Ht2 & Hx2 & Hm2 & Hb2).
  cbn in Ht2, Hm2.
  destruct (Z.ltb_spec r2 0) as [Hr2 | Hr2].
  { intros [= <- <- <-].
    exists (EvFrame d a o p :: x1 ++ EvPeek d b1 :: EvFrame d 254 3 0 :: x2).
    repeat split.
    - rewrite Ht2, Ht1. rewrite <- ?app_assoc. reflexivity.
    - apply CHandshakeFailed; assumption.
    - congruence.
    - intros ->. lia. }
  destruct (exchange_status _ _ _ Hx2) as [Hneg | H0]; [lia|]. subst r2.
  destruct (send_recv_cmd_impl d a o p w2) as [r3 w3] eqn:E3.
  apply send_recv_cmd_impl_events in E3. destruct E3 as (x3 & Ht3 & Hx3 & Hm3 & Hb3).
  destruct (Z.ltb_spec r3 0) as [Hr3 | Hr3].
  { intros [= <- <- <-].
    exists (EvFrame d a o p :: x1 ++ EvPeek d b1 :: EvFrame d 254 3 0 :: x2
              ++ EvFrame d a o p :: x3).
    repeat split.
    - rewrite Ht3, Ht2, Ht1. rewrite <- ?app_assoc. reflexivity.
    - apply CRetryFailed; assumption.
    - congruence.
    - intros ->. lia. }
  destruct (exchange_status _ _ _ Hx3) as [Hneg | H0]; [lia|]. subst r3.
  pose proof (Hb3 Hr3) as Hbyte3.
  set (b3 := nth 1 (buf (devs w3 d)) 0) in *.
  destruct (Z.eqb_spec (char_value b3) o) as [He3 | He3]; cbn [negb].
  { destruct (copy_out d result (emit (EvPeek d b3) w3)) as [[r c] wc] eqn:Ec.
    apply copy_out_events in Ec. destruct Ec as (-> & -> & Htc & Hmc & Hdc).
    intros [= <- <- <-].
    exists (EvFrame d a o p :: x1 ++ EvPeek d b1 :: EvFrame d 254 3 0 :: x2
              ++ EvFrame d a o p :: x3 ++ EvPeek d b3 :: copy_events d result).
    repeat split.
    - rewrite Htc. cbn. rewrite Ht3, Ht2, Ht1. rewrite <- ?app_assoc. cbn.
      rewrite <- ?app_assoc. reflexivity.
    - apply CRetryDone; assumption.
    - rewrite Hmc. cbn. congruence.
    - lia.
    - intros _. unfold copied. rewrite Hdc. reflexivity. }
  intros [= <- <- <-].
  exists (EvFrame d a o p :: x1 ++ EvPeek d b1 :: EvFrame d 254 3 0 :: x2
            ++ EvFrame d a o p :: x3 ++ [EvPeek d b3]).
  repeat split.
  - cbn. rewrite Ht3, Ht2, Ht1. rewrite <- ?app_assoc. cbn.
    rewrite <- ?app_assoc. reflexivity.
  - apply CNoData; assumption.
  - cbn. congruence.
  - unfold ENODATA. lia.
Qed.

End ClientFacts.

(** ** The lock around the exchange *)

Lemma exchange_head (d : nat) (r : Z) (x : list event) :
  exchange_events d r x -> exists acquired t, x = EvTryLock d acquired :: t.
Proof. intros Hx. destruct Hx; eauto. Qed.

Lemma exchange_transport_under_lock (d : nat) (r : Z) (x : list event) :
  exchange_events d r x -> under_lock is_transport_access false x = true.
Proof. intros Hx. destruct Hx; reflexivity. Qed.

Section TransportTheorems.

Context {U : Type} {USB : UsbDevice U}.

(** C6: an exchange that finds the mutex free acquires it and leaves it
    free again on each of its three exits: after a failed outbound
    transfer, after a failed inbound transfer, and after success.  In
    each case the last thing the exchange does is the [mutex_unlock]. *)
Theorem C6_lock_released_on_every_exit (d : nat) (w : world U) :
  usbdev_mutex w = false ->
  let '(ret, w') := usb_send_recv_cmd d w in
  let new := events_since w w' in
  usbdev_mutex w' = false
  /\ fold_left held_after new false = false
  /\ ((exists f r,
         r < 0 /\ ret = r
         /\ new = [EvTryLock d true; EvUsbOut d f r; EvUnlock d])
      \/ (exists f r1 r data,
            0 <= r1 /\ r < 0 /\ ret = r
            /\ new = [EvTryLock d true; EvUsbOut d f r1; EvClear d;
                      EvUsbIn d r data; EvUnlock d])
      \/ (exists f r1 r2 resp,
            0 <= r1 /\ 0 <= r2 /\ ret = 0
            /\ new = [EvTryLock d true; EvUsbOut d f r1; EvClear d;
                      EvUsbIn d r2 resp; EvUnlock d])).
Proof.
  intros Hfree.
  destruct (usb_send_recv_cmd d w) as [ret w'] eqn:E.
  apply usb_send_recv_cmd_events in E. destruct E as (x & Ht & Hx & Hm & _ & Hhd).
  cbv zeta. rewrite (events_since_app _ _ _ Ht). rewrite Hfree in Hm, Hhd.
  split; [exact Hm|]. split; [exact (exchange_releases _ _ _ Hx)|].
  destruct Hx as [ | f r Hr | f r1 r data Hr1 Hr | f r1 r2 resp Hr1 Hr2 Hb].
  - discriminate Hhd.
  - left. exists f, r. auto.
  - right. left. exists f, r1, r, data. auto.
  - right. right. exists f, r1, r2, resp. auto.
Qed.

(** C7: an exchange that finds the mutex held returns the busy code from
    its first step, the failed [mutex_trylock]: nothing else is traced,
    no transfer takes place, and the devices and the mutex are as
    before. *)
Theorem C7_busy_without_transfer (d : nat) (w : world U) :
  usbdev_mutex w = true ->
  let '(ret, w') := usb_send_recv_cmd d w in
  ret = USB_MUTEX_LOCKED_ERR
  /\ events_since w w' = [EvTryLock d false]
  /\ filter is_transfer (events_since w w') = []
  /\ devs w' = devs w
  /\ usbdev_mutex w' = true
  /\ thread_step d PcEntry w = (PcReturn USB_MUTEX_LOCKED_ERR, w').
Proof.
  intros Hheld. rewrite (usb_send_recv_cmd_busy d w Hheld).
  assert (Hev : events_since w (emit (EvTryLock d false) w) = [EvTryLock d false]).
  { apply events_since_app. reflexivity. }
  rewrite Hev. repeat split; auto.
  unfold thread_step, mutex_trylock. rewrite Hheld. reflexivity.
Qed.

End TransportTheorems.

(** ** Reading the trace of a client run *)

Create Rewrite HintDb trace_obs.

#[local] Hint Rewrite
  frames_cons statuses_cons peeks_cons echoes_cons attempts_cons
  frames_app statuses_app peeks_app echoes_app attempts_app
  copy_frames copy_statuses copy_peeks copy_echoes copy_attempts
  : trace_obs.

(** Rewrites the observations of a trace made of exchanges, frames, peeks
    and copies into explicit lists. *)
Ltac observe :=
  autorewrite with trace_obs;
  repeat match goal with
         | H : exchange_events _ _ ?x |- _ =>
             progress (rewrite ?(exchange_frames _ _ _ H), ?(exchange_statuses _ _ _ H),
                         ?(exchange_peeks _ _ _ H), ?(exchange_attempts _ _ _ H))
         end;
  repeat match goal with
         | H : echoes ?x = _ |- _ => progress (rewrite ?H)
         end;
  cbn [frame_of status_of peek_of response_of is_trylock map app Nat.add length].

(** In a list of statuses whose entries before the last are 0, a negative
    entry is the last one. *)
Ltac last_status :=
  let pre := fresh "pre" in
  let Hs := fresh "Hs" in
  intros pre ? ? Hs ?;
  destruct pre as [|? [|? [|? [|? ?]]]]; cbn in Hs;
  inversion Hs; subst; try lia;
  try match goal with H : [] = _ ++ _ :: _ |- _ => destruct pre; discriminate H end;
  auto.

(** ** The state after an exchange *)

Lemma wire_app (s t : list event) : wire (s ++ t) = wire s ++ wire t.
Proof. apply flat_map_app. Qed.

Lemma wire_cons (e : event) (t : list event) : wire (e :: t) = wire_of e ++ wire t.
Proof. reflexivity. Qed.

Lemma responses_cons (e : event) (t : list event) :
  responses (e :: t) = response_of e ++ responses t.
Proof. reflexivity. Qed.

Lemma copy_silent (d : nat) (result : option nat) :
  responses (copy_events d result) = [] /\ wire (copy_events d result) = [].
Proof. destruct result as [[|n]|]; split; reflexivity. Qed.

Lemma overlay_length (bytes : list Z) : length (overlay bytes zeros64) = 64%nat.
Proof.
  unfold overlay, zeros64.
  rewrite length_firstn, length_app, length_map, length_skipn, repeat_length. lia.
Qed.

Lemma build_frame_bytes (a o p : Z) :
  store 2 p (store 1 o (store 0 a zeros64)) = encode_frame (a, o, p).
Proof. reflexivity. Qed.

Section StateFacts.

Context {U : Type} {USB : UsbDevice U}.

Lemma set_dev_same (d : nat) (x : corsairpsu_data U) (w : world U) :
  devs (set_dev d x w) d = x.
Proof. cbn. rewrite Nat.eqb_refl. reflexivity. Qed.

Lemma set_dev_other (d d' : nat) (x : corsairpsu_data U) (w : world U) :
  d' <> d -> devs (set_dev d x w) d' = devs w d'.
Proof. intros H. cbn. apply Nat.eqb_neq in H. rewrite H. reflexivity. Qed.

(** One exchange on device [d]: the other devices are untouched; what
    goes out is the buffer as it was found, unless the mutex was held;
    after success the buffer is the response, 64 bytes long. *)
Lemma usb_send_recv_cmd_state (d : nat) (w : world U) :
  forall ret w', usb_send_recv_cmd d w = (ret, w') ->
  exists x,
    trace w' = trace w ++ x
    /\ exchange_events d ret x
    /\ (forall d', d' <> d -> devs w' d' = devs w d')
    /\ (length (buf (devs w d)) = 64%nat -> length (buf (devs w' d)) = 64%nat)
    /\ (wire x = [buf (devs w d)]
        \/ (ret = USB_MUTEX_LOCKED_ERR /\ wire x = []))
    /\ (0 <= ret ->
        responses x = [buf (devs w' d)] /\ Forall is_byte (buf (devs w' d))).
Proof.
  intros ret w'. unfold usb_send_recv_cmd, mutex_trylock.
  destruct (usbdev_mutex w) eqn:Hm; cbn [negb].
  - intros [= <- <-]. exists [EvTryLock d false]. cbn [trace emit devs].
    split; [reflexivity|]. split; [constructor|].
    split; [reflexivity|]. split; [auto|].
    split; [right; split; reflexivity|].
    unfold USB_MUTEX_LOCKED_ERR. lia.
  - unfold usb_interrupt_msg_snd. cbn [devs emit set_mutex].
    destruct (usb_snd (usbdev (devs w d)) (buf (devs w d))) as [r1 u1].
    destruct (Z.ltb_spec r1 0) as [H1 | H1].
    + intros [= <- <-]. eexists. cbn [trace mutex_unlock emit set_mutex set_dev].
      rewrite <- !app_assoc. cbn [app].
      split; [reflexivity|]. split; [constructor; assumption|].
      split; [intros d' Hd; cbn; apply Nat.eqb_neq in Hd; rewrite Hd; reflexivity|].
      split; [cbn; rewrite Nat.eqb_refl; auto|].
      split; [left; reflexivity | lia].
    + unfold usb_interrupt_msg_rcv, clear_buf, set_buf.
      cbn [devs emit set_mutex set_dev usbdev buf trace]. rewrite !Nat.eqb_refl.
      cbn [usbdev buf].
      destruct (usb_rcv u1) as [[r2 bytes] u2].
      destruct (Z.ltb_spec r2 0) as [H2 | H2].
      * intros [= <- <-]. eexists.
        cbn [trace mutex_unlock emit set_mutex set_dev devs].
        rewrite <- !app_assoc. cbn [app].
        split; [reflexivity|]. split; [constructor; assumption|].
        split; [intros d' Hd; apply Nat.eqb_neq in Hd; rewrite Hd; reflexivity|].
        split; [rewrite Nat.eqb_refl; cbn; intros _; apply overlay_length|].
        split; [left; reflexivity | lia].
      * intros [= <- <-]. eexists.
        cbn [trace mutex_unlock emit set_mutex set_dev devs].
        rewrite <- !app_assoc. cbn [app].
        split; [reflexivity|].
        split; [constructor; try assumption; apply overlay_bytes|].
        split; [intros d' Hd; apply Nat.eqb_neq in Hd; rewrite Hd; reflexivity|].
        split; [rewrite Nat.eqb_refl; cbn; intros _; apply overlay_length|].
        split; [left; reflexivity |].
        intros _. rewrite Nat.eqb_refl. cbn [buf].
        split; [|apply overlay_bytes].
        unfold responses. cbn. apply Z.ltb_ge in H2. rewrite H2. reflexivity.
Qed.

(** One call of [send_recv_cmd_impl]. *)
Lemma send_recv_cmd_impl_state (d : nat) (a o p : Z) (w : world U) :
  forall ret w', send_recv_cmd_impl d a o p w = (ret, w') ->
  exists x,
    trace w' = trace w ++ EvFrame d a o p :: x
    /\ exchange_events d ret x
    /\ (forall d', d' <> d -> devs w' d' = devs w d')
    /\ length (buf (devs w' d)) = 64%nat
    /\ (wire x = [encode_frame (a, o, p)]
        \/ (ret = USB_MUTEX_LOCKED_ERR /\ wire x = []))
    /\ (0 <= ret ->
        responses x = [buf (devs w' d)] /\ Forall is_byte (buf (devs w' d))).
Proof.
  intros ret w'. unfold send_recv_cmd_impl.
  destruct (usb_send_recv_cmd d (build_frame d a o p w)) as [r w1] eqn:E.
  apply usb_send_recv_cmd_state in E.
  destruct E as (x & Ht & Hx & Hiso & Hlen & Hwire & Hresp).
  unfold build_frame, set_buf in *.
  cbn [trace emit set_dev devs] in *. rewrite Nat.eqb_refl in *.
  cbn [buf] in *. rewrite build_frame_bytes in *.
  rewrite <- app_assoc in Ht. cbn [app] in Ht.
  assert (Hiso' : forall d', d' <> d -> devs w1 d' = devs w d').
  { intros d' Hd. rewrite (Hiso d' Hd). apply Nat.eqb_neq in Hd. rewrite Hd.
    reflexivity. }
  specialize (Hlen eq_refl).
  destruct (Z.ltb_spec r 0) as [Hr | Hr]; intros [= <- <-].
  - exists x. repeat split; auto; lia.
  - destruct (exchange_status _ _ _ Hx) as [Hneg | H0]; [lia|]. subst r.
    exists x. repeat split; auto; apply Hresp; lia.
Qed.

End StateFacts.

#[local] Hint Rewrite
  wire_cons wire_app responses_cons responses_app
  : trace_obs.

(** Rewrites what went out and what came in over a trace made of
    exchanges and client events. *)
Ltac observe_io :=
  observe;
  repeat match goal with
         | H : wire ?x = _ |- _ => progress (rewrite ?H)
         | H : responses ?x = _ |- _ => progress (rewrite ?H)
         end;
  repeat match goal with
         | |- context [copy_events ?d ?r] =>
             progress (rewrite ?(proj1 (copy_silent d r)), ?(proj2 (copy_silent d r)))
         end;
  cbn [wire_of response_of app map removelast].

Section ClientState.

Context {U : Type} {USB : UsbDevice U} {PLAT : Platform}.

Lemma sent_not_busy (x : list event) (f : list Z) :
  wire x = [f] \/ (0 = USB_MUTEX_LOCKED_ERR /\ wire x = []) -> wire x = [f].
Proof. intros [H | [H _]]; [exact H | discriminate H]. Qed.

(** One call of [send_recv_cmd] on device [d]: the other devices are
    untouched, the buffer keeps its 64 bytes, every frame built goes out
    as built unless the mutex was held for its exchange, and after a
    return of 0 the buffer is the last response received, whose byte 1 is
    the opcode. *)
Lemma send_recv_cmd_state (d : nat) (a o p : Z) (result : option nat) (w : world U) :
  forall ret out w', send_recv_cmd d a o p result w = (ret, out, w') ->
  exists t,
    trace w' = trace w ++ t
    /\ (forall d', d' <> d -> devs w' d' = devs w d')
    /\ length (buf (devs w' d)) = 64%nat
    /\ (wire t = map encode_frame (frames t)
        \/ (ret = USB_MUTEX_LOCKED_ERR
            /\ wire t = map encode_frame (removelast (frames t))))
    /\ (ret = 0 ->
        exists pre,
          responses t = pre ++ [buf (devs w' d)]
          /\ Forall is_byte (buf (devs w' d))
          /\ char_value (nth 1 (buf (devs w' d)) 0) = o).
Proof.
  intros ret out w'. unfold send_recv_cmd.
  destruct (send_recv_cmd_impl d a o p w) as [r1 w1] eqn:E1.
  apply send_recv_cmd_impl_state in E1.
  destruct E1 as (x1 & Ht1 & Hx1 & Hi1 & Hl1 & Hw1 & Hr1).
  destruct (Z.ltb_spec r1 0) as [Hn1 | Hn1].
  { intros [= <- <- <-]. exists (EvFrame d a o p :: x1).
    split; [exact Ht1|]. split; [exact Hi1|]. split; [exact Hl1|].
    split; [|intros ->; lia].
    destruct Hw1 as [Hw1 | [Hb1 Hw1]]; [left | right; split; [exact Hb1|]];
      observe_io; reflexivity. }
  destruct (exchange_status _ _ _ Hx1) as [Hneg | H0]; [lia|]. subst r1.
  apply sent_not_busy in Hw1. destruct (Hr1 Hn1) as (Hresp1 & Hby1).
  unfold echo_differs. cbn [fst snd].
  set (b1 := nth 1 (buf (devs w1 d)) 0) in *.
  destruct (Z.eqb_spec (char_value b1) o) as [He1 | He1]; cbn [negb].
  { destruct (copy_out d result (emit (EvPeek d b1) w1)) as [[r c] wc] eqn:Ec.
    apply copy_out_events in Ec. destruct Ec as (-> & -> & Htc & Hmc & Hdc).
    intros [= <- <- <-].
    exists (EvFrame d a o p :: x1 ++ EvPeek d b1 :: copy_events d result).
    split; [rewrite Htc; cbn; rewrite Ht1; rewrite <- ?app_assoc; reflexivity|].
    rewrite Hdc. cbn [devs emit].
    split; [exact Hi1|]. split; [exact Hl1|].
    split; [left; observe_io; reflexivity|].
    intros _. exists []. observe_io. auto. }
  destruct (send_recv_cmd_impl d 254 3 0 (emit (EvPeek d b1) w1)) as [r2 w2] eqn:E2.
  apply send_recv_cmd_impl_state in E2.
  destruct E2 as (x2 & Ht2 & Hx2 & Hi2 & Hl2 & Hw2 & Hr2).
  cbn [trace emit devs] in Ht2, Hi2.
  assert (Hi12 : forall d', d' <> d -> devs w2 d' = devs w d').
  { intros d' Hd. rewrite (Hi2 d' Hd). apply Hi1. exact Hd. }
  destruct (Z.ltb_spec r2 0) as [Hn2 | Hn2].
  { intros [= <- <- <-].
    exists (EvFrame d a o p :: x1 ++ EvPeek d b1 :: EvFrame d 254 3 0 :: x2).
    split; [rewrite Ht2, Ht1; rewrite <- ?app_assoc; reflexivity|].
    split; [exact Hi12|]. split; [exact Hl2|].
    split; [|intros ->; lia].
    destruct Hw2 as [Hw2 | [Hb2 Hw2]]; [left | right; split; [exact Hb2|]];
      observe_io; reflexivity. }
  destruct (exchange_status _ _ _ Hx2) as [Hneg | H0]; [lia|]. subst r2.
  apply sent_not_busy in Hw2. destruct (Hr2 Hn2) as (Hresp2 & Hby2).
  destruct (send_recv_cmd_impl d a o p w2) as [r3 w3] eqn:E3.
  apply send_recv_cmd_impl_state in E3.
  destruct E3 as (x3 & Ht3 & Hx3 & Hi3 & Hl3 & Hw3 & Hr3).
  assert (Hi123 : forall d', d' <> d -> devs w3 d' = devs w d').
  { intros d' Hd. rewrite (Hi3 d' Hd). apply Hi12. exact Hd. }
  destruct (Z.ltb_spec r3 0) as [Hn3 | Hn3].
  { intros [= <- <- <-].
    exists (EvFrame d a o p :: x1 ++ EvPeek d b1 :: EvFrame d 254 3 0 :: x2
              ++ EvFrame d a o p :: x3).
    split; [rewrite Ht3, Ht2, Ht1; rewrite <- ?app_assoc; reflexivity|].
    split; [exact Hi123|]. split; [exact Hl3|].
    split; [|intros ->; lia].
    destruct Hw3 as [Hw3 | [Hb3 Hw3]]; [left | right; split; [exact Hb3|]];
      observe_io; reflexivity. }
  destruct (exchange_status _ _ _ Hx3) as [Hneg | H0]; [lia|]. subst r3.
  apply sent_not_busy in Hw3. destruct (Hr3 Hn3) as (Hresp3 & Hby3).
  set (b3 := nth 1 (buf (devs w3 d)) 0) in *.
  destruct (Z.eqb_spec (char_value b3) o) as [He3 | He3]; cbn [negb].
  { destruct (copy_out d result (emit (EvPeek d b3) w3)) as [[r c] wc] eqn:Ec.
    apply copy_out_events in Ec. destruct Ec as (-> & -> & Htc & Hmc & Hdc).
    intros [= <- <- <-].
    exists (EvFrame d a o p :: x1 ++ EvPeek d b1 :: EvFrame d 254 3 0 :: x2
              ++ EvFrame d a o p :: x3 ++ EvPeek d b3 :: copy_events d result).
    split; [rewrite Htc; cbn; rewrite Ht3, Ht2, Ht1; rewrite <- ?app_assoc; cbn;
            rewrite <- ?app_assoc; reflexivity|].
    rewrite Hdc. cbn [devs emit].
    split; [exact Hi123|]. split; [exact Hl3|].
    split; [left; observe_io; reflexivity|].
    intros _. exists [buf (devs w1 d); buf (devs w2 d)]. observe_io. auto. }
  intros [= <- <- <-].
  exists (EvFrame d a o p :: x1 ++ EvPeek d b1 :: EvFrame d 254 3 0 :: x2
            ++ EvFrame d a o p :: x3 ++ [EvPeek d b3]).
  split; [cbn; rewrite Ht3, Ht2, Ht1; rewrite <- ?app_assoc; cbn;
          rewrite <- ?app_assoc; reflexivity|].
  cbn [devs emit].
  split; [exact Hi123|]. split; [exact Hl3|].
  split; [left; observe_io; reflexivity|].
  unfold ENODATA. intros H; discriminate H.
Qed.

(** The world after a call that found the mutex held: the frame was
    built, the lock was refused. *)
Lemma send_recv_cmd_busy (d : nat) (a o p : Z) (result : option nat) (w : world U) :
  usbdev_mutex w = true ->
  send_recv_cmd d a o p result w
  = (USB_MUTEX_LOCKED_ERR, None, emit (EvTryLock d false) (build_frame d a o p w)).
Proof.
  intros H. unfold send_recv_cmd, send_recv_cmd_impl.
  rewrite usb_send_recv_cmd_busy by exact H. reflexivity.
Qed.

(** An exchange that finds the mutex free hands the buffer, as it found
    it, to the outbound transfer, and leaves the mutex free. *)
Lemma usb_send_recv_cmd_sent (d : nat) (w : world U) :
  usbdev_mutex w = false ->
  forall ret w', usb_send_recv_cmd d w = (ret, w') ->
  exists x,
    trace w' = trace w ++ x
    /\ exchange_events d ret x
    /\ wire x = [buf (devs w d)]
    /\ usbdev_mutex w' = false.
Proof.
  intros Hm ret w' E. pose proof E as E'.
  apply usb_send_recv_cmd_events in E. destruct E as (x & Ht & Hx & Hmu & _ & Hhd).
  apply usb_send_recv_cmd_state in E'. destruct E' as (x' & Ht' & _ & _ & _ & Hw & _).
  assert (x' = x) by (rewrite Ht in Ht'; apply app_inv_head in Ht'; auto). subst x'.
  exists x. split; [exact Ht|]. split; [exact Hx|]. split; [|congruence].
  destruct Hw as [Hw | [_ Hw]]; [exact Hw|]. exfalso.
  rewrite Hm in Hhd. destruct Hx; cbn in Hhd, Hw; discriminate.
Qed.

(** So does a call of [send_recv_cmd_impl], with the frame it built. *)
Lemma send_recv_cmd_impl_sent (d : nat) (a o p : Z) (w : world U) :
  usbdev_mutex w = false ->
  forall ret w', send_recv_cmd_impl d a o p w = (ret, w') ->
  exists x,
    trace w' = trace w ++ EvFrame d a o p :: x
    /\ exchange_events d ret x
    /\ wire x = [encode_frame (a, o, p)]
    /\ usbdev_mutex w' = false.
Proof.
  intros Hm ret w'. unfold send_recv_cmd_impl.
  destruct (usb_send_recv_cmd d (build_frame d a o p w)) as [r w1] eqn:E.
  apply usb_send_recv_cmd_sent in E; [|exact Hm].
  destruct E as (x & Ht & Hx & Hw & Hm1).
  unfold build_frame, set_buf in Ht, Hw.
  cbn [trace emit set_dev devs] in Ht, Hw. rewrite Nat.eqb_refl in Hw.
  cbn [buf] in Hw. rewrite build_frame_bytes in Hw.
  rewrite <- app_assoc in Ht. cbn [app] in Ht.
  destruct (Z.ltb_spec r 0) as [Hr | Hr]; intros [= <- <-].
  - exists x. auto.
  - destruct (exchange_status _ _ _ Hx) as [Hneg | H0]; [lia|]. subst r.
    exists x. auto.
Qed.

(** A call of [send_recv_cmd] that finds the mutex free: every frame it
    builds is handed to an outbound transfer, as built and in order. *)
Lemma send_recv_cmd_sent (d : nat) (a o p : Z) (result : option nat) (w : world U) :
  usbdev_mutex w = false ->
  forall ret out w', send_recv_cmd d a o p result w = (ret, out, w') ->
  wire (events_since w w') = map encode_frame (frames (events_since w w')).
Proof.
  intros Hm ret out w'. unfold send_recv_cmd.
  destruct (send_recv_cmd_impl d a o p w) as [r1 w1] eqn:E1.
  apply send_recv_cmd_impl_sent in E1; [|exact Hm].
  destruct E1 as (x1 & Ht1 & Hx1 & Hw1 & Hm1).
  destruct (r1 <? 0).
  { intros [= <- <- <-]. rewrite (events_since_app _ _ _ Ht1).
    observe_io. reflexivity. }
  unfold echo_differs. cbn [fst snd].
  set (b1 := nth 1 (buf (devs w1 d)) 0) in *.
  destruct (negb (char_value b1 =? o)).
  2:{ destruct (copy_out d result (emit (EvPeek d b1) w1)) as [[r c] wc] eqn:Ec.
      apply copy_out_events in Ec. destruct Ec as (_ & _ & Htc & _).
      cbn [trace emit] in Htc.
      intros [= <- <- <-].
      rewrite (events_since_app w wc
                 (EvFrame d a o p :: x1 ++ EvPeek d b1 :: copy_events d result))
        by (rewrite Htc, Ht1; rewrite <- ?app_assoc; reflexivity).
      observe_io. reflexivity. }
  destruct (send_recv_cmd_impl d 254 3 0 (emit (EvPeek d b1) w1)) as [r2 w2] eqn:E2.
  apply send_recv_cmd_impl_sent in E2; [|exact Hm1].
  destruct E2 as (x2 & Ht2 & Hx2 & Hw2 & Hm2).
  cbn [trace emit] in Ht2.
  destruct (r2 <? 0).
  { intros [= <- <- <-].
    rewrite (events_since_app w w2
               (EvFrame d a o p :: x1 ++ EvPeek d b1 :: EvFrame d 254 3 0 :: x2))
      by (rewrite Ht2, Ht1; rewrite <- ?app_assoc; reflexivity).
    observe_io. reflexivity. }
  destruct (send_recv_cmd_impl d a o p w2) as [r3 w3] eqn:E3.
  apply send_recv_cmd_impl_sent in E3; [|exact Hm2].
  destruct E3 as (x3 & Ht3 & Hx3 & Hw3 & Hm3).
  destruct (r3 <? 0).
  { intros [= <- <- <-].
    rewrite (events_since_app w w3
               (EvFrame d a o p :: x1 ++ EvPeek d b1 :: EvFrame d 254 3 0 :: x2
                  ++ EvFrame d a o p :: x3))
      by (rewrite Ht3, Ht2, Ht1; rewrite <- ?app_assoc; reflexivity).
    observe_io. reflexivity. }
  set (b3 := nth 1 (buf (devs w3 d)) 0) in *.
  destruct (negb (char_value b3 =? o)).
  { intros [= <- <- <-].
    rewrite (events_since_app w (emit (EvPeek d b3) w3)
               (EvFrame d a o p :: x1 ++ EvPeek d b1 :: EvFrame d 254 3 0 :: x2
                  ++ EvFrame d a o p :: x3 ++ [EvPeek d b3]))
      by (cbn [trace emit]; rewrite Ht3, Ht2, Ht1; rewrite <- ?app_assoc; cbn [app];
          rewrite <- ?app_assoc; reflexivity).
    observe_io. reflexivity. }
  destruct (copy_out d result (emit (EvPeek d b3) w3)) as [[r c] wc] eqn:Ec.
  apply copy_out_events in Ec. destruct Ec as (_ & _ & Htc & _).
  cbn [trace emit] in Htc.
  intros [= <- <- <-].
  rewrite (events_since_app w wc
             (EvFrame d a o p :: x1 ++ EvPeek d b1 :: EvFrame d 254 3 0 :: x2
                ++ EvFrame d a o p :: x3 ++ EvPeek d b3 :: copy_events d result))
    by (rewrite Htc, Ht3, Ht2, Ht1; rewrite <- ?app_assoc; cbn [app];
        rewrite <- ?app_assoc; reflexivity).
  observe_io. reflexivity.
Qed.

(** The events of a call that finds the mutex held. *)
Lemma send_recv_cmd_refused (d : nat) (a o p : Z) (result : option nat) (w : world U) :
  usbdev_mutex w = true ->
  fst (send_recv_cmd d a o p result w) = (USB_MUTEX_LOCKED_ERR, None)
  /\ events_since w (snd (send_recv_cmd d a o p result w))
     = [EvFrame d a o p; EvTryLock d false].
Proof.
  intros Hm. rewrite send_recv_cmd_busy by exact Hm. cbn [fst snd].
  split; [reflexivity|]. apply events_since_app.
  cbn. rewrite <- app_assoc. reflexivity.
Qed.

End ClientState.

Lemma last_app_nonempty {A} (l1 l2 : list A) (x : A) :
  l2 <> [] -> last (l1 ++ l2) x = last l2 x.
Proof.
  intros H. induction l1 as [|a l1 IH]; [reflexivity|].
  cbn [app]. destruct (l1 ++ l2) eqn:E.
  - apply app_eq_nil in E. destruct E as [_ E]. contradiction.
  - rewrite <- E in *. cbn [last]. rewrite E. rewrite <- E. exact IH.
Qed.

(** The [u16] stored through [&reading]: bytes 2 and 3 of the response,
    least significant first. *)
Lemma reading_bytes (resp : list Z) :
  le_combine (firstn 2 (skipn 2 resp)) = nth 2 resp 0 + 256 * nth 3 resp 0.
Proof.
  destruct resp as [|b0 [|b1 [|b2 [|b3 rest]]]];
    cbn [le_combine firstn skipn nth]; lia.
Qed.

(** ** What a call does, by its return value *)

Section ClientTheorems.

Context {U : Type} {USB : UsbDevice U} {PLAT : Platform}.

(** A byte that differs from the opcode also differs from it as a
    promoted [char], whatever the signedness. *)
Lemma char_value_differs (b o : Z) :
  is_byte b -> is_byte o -> b <> o -> char_value b <> o.
Proof.
  unfold is_byte, char_value. intros Hb Ho Hne.
  destruct (char_signed && (128 <=? b)); lia.
Qed.

Lemma echo_byte (d : nat) (x : list event) (b : Z) :
  exchange_events d 0 x -> echoes x = [b] -> is_byte b.
Proof.
  intros Hx He. destruct (exchange_done_echoes _ _ _ Hx eq_refl) as (b' & He' & Hb').
  congruence.
Qed.

(** C3: a call of [send_recv_cmd] attempts one exchange per frame it
    builds, three at most.  When it finds the mutex free every frame it
    builds is handed to an outbound transfer, as built (page, opcode,
    operand and 61 zero bytes) and in order; when it finds the mutex held
    it builds its command, is refused and sends nothing.  And
    - a negative status of any exchange is the last status of the call
      and is its return value, nothing being stored through [result]:
      transport errors are passed on unchanged and nothing is retried
      after them;
    - when the first response arrives with a byte 1 that differs from
      the requested opcode, the call goes on with the handshake
      (0xFE, 0x03, 0x00), once, and then at most once with the original
      command: either the handshake's exchange fails and its status is
      returned, what went out being the command and the handshake; or
      the original command goes out again and its exchange fails, its
      status being returned; or a third response arrives.  If byte 1 of
      that response still differs from the opcode, the call returns
      [- ENODATA]; if it is the opcode, the call returns 0 and the
      result is copied from that third response, not from the
      handshake's. *)
Theorem C3_one_handshake_one_retry
  (d : nat) (addr opcode opdata : Z) (result : option nat) (w : world U) :
  is_byte opcode ->
  let '(ret, out, w') := send_recv_cmd d addr opcode opdata result w in
  let new := events_since w w' in
  let orig := (addr, opcode, opdata) in
  let hs := (0xfe, 0x03, 0x00) in
  (usbdev_mutex w = false -> wire new = map encode_frame (frames new))
  /\ (usbdev_mutex w = true ->
      wire new = [] /\ frames new = [orig] /\ ret = USB_MUTEX_LOCKED_ERR)
  /\ (forall pre r post, statuses new = pre ++ r :: post -> r < 0 ->
      post = [] /\ ret = r /\ out = None)
  /\ attempts new = length (frames new)
  /\ (attempts new <= 3)%nat
  /\ (forall b rest, echoes new = b :: rest -> b <> opcode ->
      (exists r2, r2 < 0 /\ frames new = [orig; hs]
                  /\ wire new = [encode_frame orig; encode_frame hs]
                  /\ statuses new = [0; r2] /\ ret = r2)
      \/ (exists r3, r3 < 0 /\ frames new = [orig; hs; orig]
                     /\ wire new = [encode_frame orig; encode_frame hs;
                                    encode_frame orig]
                     /\ statuses new = [0; 0; r3] /\ ret = r3)
      \/ (exists bh b3, frames new = [orig; hs; orig]
                     /\ wire new = [encode_frame orig; encode_frame hs;
                                    encode_frame orig]
                     /\ statuses new = [0; 0; 0]
                     /\ echoes new = [b; bh; b3]
                     /\ (b3 <> opcode -> ret = - ENODATA /\ out = None)
                     /\ (char_value b3 = opcode ->
                         ret = 0 /\ out = copied d result w'
                         /\ last (responses new) [] = buf (devs w' d)))).
Proof.
  intros Ho.
  pose proof (send_recv_cmd_refused d addr opcode opdata result w) as Hheld.
  pose proof (send_recv_cmd_sent d addr opcode opdata result w) as Hfree.
  destruct (send_recv_cmd d addr opcode opdata result w) as [[ret out] w'] eqn:E.
  cbn [fst snd] in Hheld.
  specialize (fun Hm => Hfree Hm ret out w' eq_refl). cbn beta in Hfree.
  pose proof E as E'.
  apply send_recv_cmd_events in E. destruct E as (t & Ht & Hc & Hm & Hneg & Hzero).
  apply send_recv_cmd_state in E'. destruct E' as (t' & Ht' & _ & _ & _ & Hresp).
  assert (t' = t) by (rewrite Ht in Ht'; apply app_inv_head in Ht'; auto). subst t'.
  cbv zeta. rewrite (events_since_app _ _ _ Ht) in *.
  assert (Hlast : ret = 0 -> last (responses t) [] = buf (devs w' d)).
  { intros Hz. destruct (Hresp Hz) as (pre & -> & _). apply last_last. }
  clear Hresp.
  split; [exact Hfree|]. split.
  { intros Hh. destruct (Hheld Hh) as (Hr & ->). injection Hr as -> _.
    repeat split; reflexivity. }
  assert (Hsent : echoes t <> [] -> wire t = map encode_frame (frames t)).
  { intros He. destruct (usbdev_mutex w); [|exact (Hfree eq_refl)].
    destruct (Hheld eq_refl) as (_ & Hb). rewrite Hb in He.
    exfalso. apply He. reflexivity. }
  clear Hheld Hfree.
  remember (wire t) as sent eqn:Hw. remember (last (responses t) []) as resp eqn:Hl.
  destruct Hc as [r x1 Hx1 Hr
                 | x1 b1 Hx1 Hb1 He1
                 | x1 x2 b1 r Hx1 Hb1 He1 Hx2 Hr
                 | x1 x2 x3 b1 r Hx1 Hb1 He1 Hx2 Hx3 Hr
                 | x1 x2 x3 b1 b3 Hx1 Hb1 He1 Hx2 Hx3 Hb3 He3
                 | x1 x2 x3 b1 b3 Hx1 Hb1 He1 Hx2 Hx3 Hb3 He3].
  - pose proof (exchange_failed_echoes _ _ _ Hx1 Hr) as Hn1. observe.
    split; [last_status|]. split; [reflexivity|]. split; [cbn; lia|].
    intros b rest Hp. discriminate Hp.
  - pose proof (echo_byte _ _ _ Hx1 Hb1) as Hy1. observe.
    split; [last_status|]. split; [reflexivity|]. split; [cbn; lia|].
    intros b rest [= <- <-] Hne. exfalso.
    apply (char_value_differs b1 opcode Hy1 Ho Hne). exact He1.
  - pose proof (exchange_failed_echoes _ _ _ Hx2 Hr) as Hn2.
    revert Hsent. observe. intros Hsent.
    split; [last_status|]. split; [reflexivity|]. split; [cbn; lia|].
    intros b rest [= <- <-] Hne. left. exists r.
    rewrite Hsent by discriminate. repeat split; auto.
  - destruct (exchange_done_echoes _ _ _ Hx2 eq_refl) as (bh & Hbh & _).
    pose proof (exchange_failed_echoes _ _ _ Hx3 Hr) as Hn3.
    revert Hsent. observe. intros Hsent.
    split; [last_status|]. split; [reflexivity|]. split; [cbn; lia|].
    intros b rest [= <- <-] Hne. right. left. exists r.
    rewrite Hsent by discriminate. repeat split; auto.
  - destruct (exchange_done_echoes _ _ _ Hx2 eq_refl) as (bh & Hbh & _).
    revert Hsent. observe. intros Hsent.
    split; [last_status|]. split; [reflexivity|]. split; [cbn; lia|].
    intros b rest [= <- <-] Hne. right. right. exists bh, b3.
    rewrite Hsent by discriminate.
    repeat split; auto;
      try (intros; contradiction);
      try (apply Hneg; unfold ENODATA; lia).
  - destruct (exchange_done_echoes _ _ _ Hx2 eq_refl) as (bh & Hbh & _).
    pose proof (echo_byte _ _ _ Hx3 Hb3) as Hy3.
    revert Hsent. observe. intros Hsent.
    split; [last_status|]. split; [reflexivity|]. split; [cbn; lia|].
    intros b rest [= <- <-] Hne. right. right. exists bh, b3.
    rewrite Hsent by discriminate.
    repeat split; auto.
    all: exfalso; eapply (char_value_differs b3 opcode); eassumption.
Qed.

(** C10: when the handshake's exchange ends without a transport error
    (the second status of the call is 0), the original command is built
    and handed to an outbound transfer a second time: what goes out over
    the call is the command, the handshake and the command again, each
    as built.  Byte 1 of the handshake's response, [bh], is not
    constrained and is not among the bytes the call tests: the tests read
    byte 1 of the first and of the third response only. *)
Theorem C10_handshake_response_not_inspected
  (d : nat) (addr opcode opdata : Z) (result : option nat) (w : world U) :
  let run := send_recv_cmd d addr opcode opdata result w in
  let new := events_since w (snd run) in
  let orig := (addr, opcode, opdata) in
  let hs := (0xfe, 0x03, 0x00) in
  forall s1 rest, statuses new = s1 :: 0 :: rest ->
  frames new = [orig; hs; orig]
  /\ wire new = [encode_frame orig; encode_frame hs; encode_frame orig]
  /\ attempts new = 3%nat
  /\ (exists r3, rest = [r3])
  /\ (exists b1 bh tail, echoes new = b1 :: bh :: tail /\ peeks new = b1 :: tail)
  /\ (exists x1 b1 x2 t3,
        new = EvFrame d addr opcode opdata :: x1 ++ EvPeek d b1
                :: EvFrame d 0xfe 0x03 0x00 :: x2
                ++ EvFrame d addr opcode opdata :: t3
        /\ exchange_events d 0 x2 /\ peeks x2 = []).
Proof.
  cbv zeta.
  pose proof (send_recv_cmd_refused d addr opcode opdata result w) as Hheld.
  pose proof (send_recv_cmd_sent d addr opcode opdata result w) as Hfree.
  destruct (send_recv_cmd d addr opcode opdata result w) as [[ret out] w'] eqn:E.
  cbn [fst snd] in Hheld.
  specialize (fun Hm => Hfree Hm ret out w' eq_refl). cbn beta in Hfree.
  apply send_recv_cmd_events in E. destruct E as (t & Ht & Hc & Hm & Hneg & Hzero).
  cbn [snd]. rewrite (events_since_app _ _ _ Ht) in *.
  assert (Hsent : (2 <= length (statuses t))%nat ->
                  wire t = map encode_frame (frames t)).
  { intros Hs. destruct (usbdev_mutex w); [|exact (Hfree eq_refl)].
    destruct (Hheld eq_refl) as (_ & Hb). rewrite Hb in Hs. cbn in Hs. lia. }
  clear Hheld Hfree.
  remember (wire t) as sent eqn:Hw.
  destruct Hc as [r x1 Hx1 Hr
                 | x1 b1 Hx1 Hb1 He1
                 | x1 x2 b1 r Hx1 Hb1 He1 Hx2 Hr
                 | x1 x2 x3 b1 r Hx1 Hb1 He1 Hx2 Hx3 Hr
                 | x1 x2 x3 b1 b3 Hx1 Hb1 He1 Hx2 Hx3 Hb3 He3
                 | x1 x2 x3 b1 b3 Hx1 Hb1 He1 Hx2 Hx3 Hb3 He3];
    intros s1 rest.
  - observe. intros Hs. discriminate Hs.
  - observe. intros Hs. discriminate Hs.
  - observe. intros Hs. injection Hs as H1 H2 H3. lia.
  - destruct (exchange_done_echoes _ _ _ Hx2 eq_refl) as (bh & Hbh & _).
    pose proof (exchange_failed_echoes _ _ _ Hx3 Hr) as Hn3.
    revert Hsent. observe. intros Hsent [= <- <-].
    rewrite Hsent by (cbn; lia).
    repeat split; eauto.
    exists x1, b1, x2, x3. repeat split; auto. apply (exchange_peeks _ _ _ Hx2).
  - destruct (exchange_done_echoes _ _ _ Hx2 eq_refl) as (bh & Hbh & _).
    revert Hsent. observe. intros Hsent [= <- <-].
    rewrite Hsent by (cbn; lia).
    repeat split; eauto.
    exists x1, b1, x2, (x3 ++ [EvPeek d b3]). repeat split; auto.
    apply (exchange_peeks _ _ _ Hx2).
  - destruct (exchange_done_echoes _ _ _ Hx2 eq_refl) as (bh & Hbh & _).
    revert Hsent. observe. intros Hsent [= <- <-].
    rewrite Hsent by (cbn; lia).
    repeat split; eauto.
    exists x1, b1, x2, (x3 ++ EvPeek d b3 :: copy_events d result).
    repeat split; auto. apply (exchange_peeks _ _ _ Hx2).
Qed.

(** Rewrites the lock checks over a trace made of exchanges and client
    events. *)
Ltac scan_lock :=
  repeat (cbn [under_lock outside_lock held_after is_transport_access
                 is_client_access negb orb andb app fold_left];
          rewrite ?under_lock_app, ?outside_lock_app;
          repeat match goal with
                 | H : exchange_events _ _ ?x |- _ =>
                     progress (rewrite ?(exchange_releases _ _ _ H),
                                 ?(exchange_transport_under_lock _ _ _ H),
                                 ?(exchange_no_client_access _ _ _ H false))
                 end).

(** C5 as the code has it: in every call of [send_recv_cmd] the two
    transfers and the clearing of the buffer between them happen while
    the caller holds the lock, whereas building the command frame,
    testing byte 1 of the response and copying the result out happen
    while it does not: the frame is stored before the [mutex_trylock]. *)
Theorem C5_transfers_under_lock_client_outside
  (d : nat) (addr opcode opdata : Z) (result : option nat) (w : world U) :
  let '(ret, out, w') := send_recv_cmd d addr opcode opdata result w in
  let new := events_since w w' in
  under_lock is_transport_access false new = true
  /\ outside_lock is_client_access false new = true
  /\ (exists acquired t,
        new = EvFrame d addr opcode opdata :: EvTryLock d acquired :: t).
Proof.
  destruct (send_recv_cmd d addr opcode opdata result w) as [[ret out] w'] eqn:E.
  apply send_recv_cmd_events in E. destruct E as (t & Ht & Hc & Hm & Hneg & Hzero).
  cbv zeta. rewrite (events_since_app _ _ _ Ht).
  assert (Hhead : exists acquired t', t = EvFrame d addr opcode opdata
                                          :: EvTryLock d acquired :: t').
  { destruct Hc as [r x1 Hx1 Hr
                   | x1 b1 Hx1 Hb1 He1
                   | x1 x2 b1 r Hx1 Hb1 He1 Hx2 Hr
                   | x1 x2 x3 b1 r Hx1 Hb1 He1 Hx2 Hx3 Hr
                   | x1 x2 x3 b1 b3 Hx1 Hb1 He1 Hx2 Hx3 Hb3 He3
                   | x1 x2 x3 b1 b3 Hx1 Hb1 He1 Hx2 Hx3 Hb3 He3];
      destruct (exchange_head _ _ _ Hx1) as (acq & t1 & ->); cbn [app]; eauto. }
  split; [|split; [|exact Hhead]].
  - destruct Hc; scan_lock; destruct result as [[|n]|]; reflexivity.
  - destruct Hc; scan_lock; destruct result as [[|n]|]; reflexivity.
Qed.

End ClientTheorems.

(** ** The hwmon read callback *)

Lemma rail_channel_label (q : quantity) (r : rail) :
  nth (Z.to_nat (rail_channel_number q r)) (quantity_labels q) EmptyString
  = (quantity_name q ++ " " ++ rail_name r)%string.
Proof. destruct q, r; reflexivity. Qed.

Lemma distinct_NoDup (l : list Z) : distinct l = true -> NoDup l.
Proof.
  induction l as [|x l IH]; cbn [distinct]; intros H.
  - constructor.
  - apply andb_prop in H. destruct H as [Hx Hl]. constructor.
    + intros Hin. apply negb_true_iff in Hx.
      assert (Hex : existsb (Z.eqb x) l = true).
      { apply existsb_exists. exists x. split; [exact Hin | apply Z.eqb_refl]. }
      congruence.
    + apply IH. exact Hl.
Qed.

Lemma read_err_negative (ret : Z) :
  read_err ret = - EINVAL \/ read_err ret = - EOPNOTSUPP.
Proof. unfold read_err. destruct (ret =? USB_MUTEX_LOCKED_ERR); auto. Qed.

Section ReadFacts.

Context {U : Type} {USB : UsbDevice U} {PLAT : Platform} {HW : HwmonHeader}.

(** The sensor types the callback distinguishes, by position in the list
    of [hwmon_types_distinct]. *)
Lemma hwmon_types_apart (i j : nat) :
  let l := [hwmon_chip; hwmon_temp; hwmon_fan; hwmon_in; hwmon_curr; hwmon_power] in
  (i < 6)%nat -> (j < 6)%nat -> i <> j -> nth i l 0 <> nth j l 0.
Proof.
  intros l Hi Hj Hne Heq. apply Hne.
  apply (proj1 (NoDup_nth l 0) (distinct_NoDup l hwmon_types_distinct) i j); assumption.
Qed.

Ltac apart i j :=
  exfalso; apply (hwmon_types_apart i j); [cbn; lia | cbn; lia | lia | cbn; assumption].

(** For a per-rail channel the callback runs the block that selects the
    rail and then reads. *)
Lemma corsairpsu_read_rail (q : quantity) (r : rail) (d : nat) (junk : Z) (w : world U) :
  let '(type, attr, channel) := rail_channel q r in
  corsairpsu_read d type attr channel junk w
  = read_rail d (rail_index r) (quantity_opcode q) (quantity_scale q) junk w.
Proof.
  destruct q; cbn [rail_channel]; unfold corsairpsu_read.
  - destruct (Z.eqb_spec hwmon_in hwmon_chip) as [E|_]; [apart 3%nat 0%nat|].
    destruct (Z.eqb_spec hwmon_in hwmon_temp) as [E|_]; [apart 3%nat 1%nat|].
    destruct (Z.eqb_spec hwmon_in hwmon_fan) as [E|_]; [apart 3%nat 2%nat|].
    rewrite !Z.eqb_refl. destruct r; reflexivity.
  - destruct (Z.eqb_spec hwmon_curr hwmon_chip) as [E|_]; [apart 4%nat 0%nat|].
    destruct (Z.eqb_spec hwmon_curr hwmon_temp) as [E|_]; [apart 4%nat 1%nat|].
    destruct (Z.eqb_spec hwmon_curr hwmon_fan) as [E|_]; [apart 4%nat 2%nat|].
    destruct (Z.eqb_spec hwmon_curr hwmon_in) as [E|_]; [apart 4%nat 3%nat|].
    rewrite !Z.eqb_refl. destruct r; reflexivity.
  - destruct (Z.eqb_spec hwmon_power hwmon_chip) as [E|_]; [apart 5%nat 0%nat|].
    destruct (Z.eqb_spec hwmon_power hwmon_temp) as [E|_]; [apart 5%nat 1%nat|].
    destruct (Z.eqb_spec hwmon_power hwmon_fan) as [E|_]; [apart 5%nat 2%nat|].
    destruct (Z.eqb_spec hwmon_power hwmon_in) as [E|_]; [apart 5%nat 3%nat|].
    destruct (Z.eqb_spec hwmon_power hwmon_curr) as [E|_]; [apart 5%nat 4%nat|].
    rewrite !Z.eqb_refl. destruct r; reflexivity.
Qed.

(** The frames of a call of [send_recv_cmd]: its own frame first, then
    at most the handshake and its own frame again. *)
Lemma client_frames (d : nat) (a o p : Z) (result : option nat) (ret : Z)
  (t : list event) :
  client_events d a o p result ret t ->
  frames t = [(a, o, p)]
  \/ frames t = [(a, o, p); (0xfe, 0x03, 0x00)]
  \/ frames t = [(a, o, p); (0xfe, 0x03, 0x00); (a, o, p)].
Proof.
  intros Hc. destruct Hc; observe; auto.
Qed.

Lemma client_status (d : nat) (a o p : Z) (result : option nat) (ret : Z)
  (t : list event) :
  client_events d a o p result ret t -> ret < 0 \/ ret = 0.
Proof. intros Hc. destruct Hc; unfold ENODATA; lia. Qed.

(** The frames of the rail selection are not reading frames. *)
Lemma select_frames_not_reading (d : nat) (ri opc : Z) (ret : Z) (t : list event) :
  client_events d 0x02 0x00 ri None ret t ->
  ~ In (0x03, opc, 0x00) (frames t).
Proof.
  intros Hc Hin. destruct (client_frames _ _ _ _ _ _ _ Hc) as [F | [F | F]];
    rewrite F in Hin; cbn in Hin;
    repeat (destruct Hin as [Hin | Hin]; [discriminate Hin|]); exact Hin.
Qed.

Lemma encode_frame_inj (f g : Z * Z * Z) : encode_frame f = encode_frame g -> f = g.
Proof.
  destruct f as [[a o] p], g as [[a' o'] p']. cbn [encode_frame].
  intros [= -> -> ->]. reflexivity.
Qed.

Lemma hd_error_map {A B} (f : A -> B) (l : list A) (x : A) :
  hd_error l = Some x -> hd_error (map f l) = Some (f x).
Proof. destruct l as [|y l]; intros [= ->]. reflexivity. Qed.

(** One call of [send_recv_cmd], by the events it adds: what it builds,
    what it hands to the outbound transfers, and where its result comes
    from. *)
Lemma send_recv_cmd_summary (d : nat) (a o p : Z) (result : option nat) (w : world U) :
  forall ret out w', send_recv_cmd d a o p result w = (ret, out, w') ->
  trace w' = trace w ++ events_since w w'
  /\ client_events d a o p result ret (events_since w w')
  /\ usbdev_mutex w' = usbdev_mutex w
  /\ (usbdev_mutex w = false ->
      wire (events_since w w') = map encode_frame (frames (events_since w w')))
  /\ (usbdev_mutex w = true ->
      ret = USB_MUTEX_LOCKED_ERR /\ wire (events_since w w') = [])
  /\ (ret < 0 -> out = None)
  /\ (ret = 0 ->
      out = copied d result w'
      /\ last (responses (events_since w w')) [] = buf (devs w' d)
      /\ char_value (nth 1 (buf (devs w' d)) 0) = o).
Proof.
  intros ret out w' E.
  pose proof (send_recv_cmd_refused d a o p result w) as Hheld.
  pose proof (send_recv_cmd_sent d a o p result w) as Hfree.
  rewrite E in Hheld. cbn [fst snd] in Hheld.
  specialize (fun Hm => Hfree Hm ret out w' E). cbn beta in Hfree.
  pose proof E as E'.
  apply send_recv_cmd_events in E. destruct E as (t & Ht & Hc & Hm & Hneg & Hzero).
  apply send_recv_cmd_state in E'. destruct E' as (t' & Ht' & _ & _ & _ & Hresp).
  assert (t' = t) by (rewrite Ht in Ht'; apply app_inv_head in Ht'; auto). subst t'.
  rewrite (events_since_app _ _ _ Ht) in *.
  split; [exact Ht|]. split; [exact Hc|]. split; [exact Hm|].
  split; [exact Hfree|]. split.
  { intros Hh. destruct (Hheld Hh) as (Hr & ->). injection Hr as -> _.
    split; reflexivity. }
  split; [exact Hneg|].
  intros Hz. destruct (Hresp Hz) as (pre & Hlast & _ & He).
  split; [exact (Hzero Hz)|]. split; [rewrite Hlast; apply last_last | exact He].
Qed.

(** C8: the read of a per-rail channel (voltage, current or power on the
    12V, 5V or 3.3V rail) begins with the complete rail selection
    [send_recv_cmd(0x02, 0x00, rail)]: the first frame built is the
    selection and, the mutex being free, it is the first frame handed to
    an outbound transfer; with the mutex held nothing goes out and the
    read fails.  No frame of the selection is the reading frame.  When
    the selection fails the read ends there: it fails, stores no value,
    and the reading command (0x03, opcode, 0x00) is neither built nor
    sent.  When the selection returns 0 the reading call follows: it
    builds the reading command first, hands it to an outbound transfer,
    attempts between one and three exchanges, and the read returns 0
    exactly with a value decoded from bytes 2 and 3 of the last response
    of that call, whose byte 1 is the opcode.  So the reading command is
    built, and goes out, only after a selection that returned 0. *)
Theorem C8_rail_selected_before_reading
  (q : quantity) (r : rail) (d : nat) (junk : Z) (w : world U) :
  let '(type, attr, channel) := rail_channel q r in
  let select := (0x02, 0x00, rail_index r) in
  let reading := (0x03, quantity_opcode q, 0x00) in
  let '(rs, _, ws) := send_recv_cmd d 0x02 0x00 (rail_index r) None w in
  let '(ret, val, w') := corsairpsu_read d type attr channel junk w in
  let new := events_since w w' in
  let sel := events_since w ws in
  hd_error (frames new) = Some select
  /\ (exists t,
        new = sel ++ t
        /\ ~ In reading (frames sel)
        /\ (rs < 0 -> t = [] /\ ret < 0 /\ val = None)
        /\ (0 <= rs -> hd_error (frames t) = Some reading))
  /\ (In reading (frames new) -> rs = 0)
  /\ (usbdev_mutex w = false ->
      wire new = map encode_frame (frames new)
      /\ hd_error (wire new) = Some (encode_frame select))
  /\ (usbdev_mutex w = true -> wire new = [] /\ ret = - EINVAL /\ val = None)
  /\ (In (encode_frame reading) (wire new) -> rs = 0)
  /\ (0 <= rs ->
      exists t,
        new = sel ++ t
        /\ wire sel = map encode_frame (frames sel)
        /\ wire t = map encode_frame (frames t)
        /\ hd_error (wire t) = Some (encode_frame reading)
        /\ attempts t = length (frames t)
        /\ (1 <= attempts t <= 3)%nat
        /\ (ret < 0 \/ ret = 0)
        /\ (ret < 0 -> val = None)
        /\ (ret = 0 ->
            exists resp,
              last (responses t) [] = resp
              /\ char_value (nth 1 resp 0) = quantity_opcode q
              /\ val = Some (pmbus_linear11_to_long
                               (nth 2 resp 0 + 256 * nth 3 resp 0)
                               (quantity_scale q)))).
Proof.
  pose proof (corsairpsu_read_rail q r d junk w) as Hrail.
  destruct (rail_channel q r) as [[type attr] channel]. rewrite Hrail. clear Hrail.
  cbv zeta. unfold read_rail.
  destruct (send_recv_cmd d 2 0 (rail_index r) None w) as [[rs os] ws] eqn:Es.
  apply send_recv_cmd_summary in Es.
  destruct Es as (Hts & Hcs & Hms & Hfs & Hhs & _).
  set (sel := events_since w ws) in *.
  pose proof (select_frames_not_reading _ _ (quantity_opcode q) _ _ Hcs) as Hnot.
  assert (Hhd : hd_error (frames sel) = Some (2, 0, rail_index r)).
  { destruct (client_frames _ _ _ _ _ _ _ Hcs) as [F | [F | F]]; rewrite F; reflexivity. }
  assert (Hnotw : ~ In (encode_frame (3, quantity_opcode q, 0)) (wire sel)).
  { intros Hin. destruct (usbdev_mutex w) eqn:Hm.
    - destruct (Hhs eq_refl) as (_ & Hw). rewrite Hw in Hin. exact Hin.
    - rewrite (Hfs eq_refl) in Hin. apply in_map_iff in Hin.
      destruct Hin as (c & Hc & Hin). apply encode_frame_inj in Hc. subst c.
      exact (Hnot Hin). }
  destruct (Z.ltb_spec rs 0) as [Hneg | Hpos].
  - cbn [fst snd]. fold sel.
    assert (Hret : read_err rs < 0).
    { destruct (read_err_negative rs) as [-> | ->]; unfold EINVAL, EOPNOTSUPP; lia. }
    split; [exact Hhd|]. split.
    { exists []. rewrite app_nil_r. repeat split; auto; lia. }
    split; [intros Hin; contradiction|]. split.
    { intros Hm. split; [exact (Hfs Hm)|]. rewrite (Hfs Hm).
      apply hd_error_map. exact Hhd. }
    split.
    { intros Hm. destruct (Hhs Hm) as (-> & Hw). repeat split; auto. }
    split; [intros Hin; contradiction | intros H; lia].
  - destruct (client_status _ _ _ _ _ _ _ Hcs) as [H | H0]; [lia|]. subst rs.
    assert (Hm : usbdev_mutex w = false).
    { destruct (usbdev_mutex w); [|reflexivity].
      destruct (Hhs eq_refl) as (Hb & _). discriminate Hb. }
    assert (Hm' : usbdev_mutex ws = false) by congruence.
    unfold read_linear11.
    destruct (send_recv_cmd d 3 (quantity_opcode q) 0 (Some 2%nat) ws)
      as [[rr outr] wr] eqn:Er.
    apply send_recv_cmd_summary in Er.
    destruct Er as (Htr & Hcr & _ & Hfr & _ & Hnr & Hzr).
    set (t := events_since ws wr) in *.
    specialize (Hfs Hm). specialize (Hfr Hm').
    assert (Hnew : events_since w wr = sel ++ t).
    { apply events_since_app. rewrite Htr, Hts, app_assoc. reflexivity. }
    assert (Hrd : hd_error (frames t) = Some (3, quantity_opcode q, 0)).
    { destruct (client_frames _ _ _ _ _ _ _ Hcr) as [F | [F | F]]; rewrite F; reflexivity. }
    assert (Hatt : attempts t = length (frames t) /\ (1 <= attempts t <= 3)%nat).
    { clear - Hcr. destruct Hcr; observe; split; cbn; lia. }
    assert (Hwn : wire (sel ++ t) = map encode_frame (frames (sel ++ t))).
    { rewrite wire_app, frames_app, map_app, Hfs, Hfr. reflexivity. }
    assert (Hfirst : hd_error (wire (sel ++ t)) = Some (encode_frame (2, 0, rail_index r))).
    { rewrite Hwn. apply hd_error_map. rewrite frames_app.
      destruct (frames sel) as [|f fs]; [discriminate Hhd | exact Hhd]. }
    assert (Hout : (if rr <? 0 then (read_err rr, @None Z, wr)
                    else (0, Some (pmbus_linear11_to_long (reading_u16 junk outr)
                                     (quantity_scale q)), wr))
                   = (if rr <? 0 then read_err rr else 0,
                      if rr <? 0 then None
                      else Some (pmbus_linear11_to_long (reading_u16 junk outr)
                                   (quantity_scale q)), wr))
      by (destruct (rr <? 0); reflexivity).
    rewrite Hout. clear Hout. rewrite Hnew.
    assert (Hres :
      ((if rr <? 0 then read_err rr else 0) < 0 \/ (if rr <? 0 then read_err rr else 0) = 0)
      /\ ((if rr <? 0 then read_err rr else 0) < 0 ->
          (if rr <? 0 then None
           else Some (pmbus_linear11_to_long (reading_u16 junk outr) (quantity_scale q)))
          = None)
      /\ ((if rr <? 0 then read_err rr else 0) = 0 ->
          exists resp,
            last (responses t) [] = resp
            /\ char_value (nth 1 resp 0) = quantity_opcode q
            /\ (if rr <? 0 then None
                else Some (pmbus_linear11_to_long (reading_u16 junk outr)
                             (quantity_scale q)))
               = Some (pmbus_linear11_to_long (nth 2 resp 0 + 256 * nth 3 resp 0)
                         (quantity_scale q)))).
    { assert (Herr : read_err rr < 0).
      { destruct (read_err_negative rr) as [-> | ->]; unfold EINVAL, EOPNOTSUPP; lia. }
      destruct (Z.ltb_spec rr 0) as [Hn | Hp].
      - split; [left; exact Herr|]. split; [reflexivity | intros H; lia].
      - destruct (client_status _ _ _ _ _ _ _ Hcr) as [H | H0]; [lia|]. subst rr.
        split; [right; reflexivity|]. split; [intros H; lia|]. intros _.
        destruct (Hzr eq_refl) as (Ho & Hl & He).
        exists (buf (devs wr d)). split; [exact Hl|]. split; [exact He|].
        rewrite Ho. cbn [copied Nat.ltb Nat.leb reading_u16].
        rewrite reading_bytes. reflexivity. }
    destruct Hres as (Hsign & Hnone & Hval).
    split; [rewrite frames_app; destruct (frames sel); [discriminate Hhd | exact Hhd]|].
    split.
    { exists t. split; [reflexivity|]. split; [exact Hnot|].
      split; [intros H; lia | intros _; exact Hrd]. }
    split; [intros _; reflexivity|].
    split; [intros _; split; [exact Hwn | exact Hfirst]|].
    split; [intros Hh; congruence|].
    split; [intros _; reflexivity|].
    intros _. exists t. split; [reflexivity|]. split; [exact Hfs|].
    split; [exact Hfr|].
    split; [rewrite Hfr; apply hd_error_map; exact Hrd|].
    split; [exact (proj1 Hatt)|]. split; [exact (proj2 Hatt)|].
    split; [exact Hsign|]. split; [exact Hnone | exact Hval].
Qed.




(** What [u32_show] prints when its exchange fails: the number the
    [reading] variable happened to hold, with a positive length. *)
Lemma u32_show_after_failure (d : nat) (opcode junk : Z) (w : world U) :
  fst (fst (send_recv_cmd d 0x03 (u8 opcode) 0x00 (Some 4%nat) w)) < 0 ->
  let '(len, text, _) := u32_show d opcode junk w in
  text = sprintf_u (u32 junk) /\ 0 < len.
Proof.
  unfold u32_show.
  destruct (send_recv_cmd d 3 (u8 opcode) 0 (Some 4%nat) w) as [[ret out] w'] eqn:E.
  cbn [fst]. intros Hneg.
  apply send_recv_cmd_events in E. destruct E as (t & _ & _ & _ & Hnone & _).
  rewrite (Hnone Hneg). split; [reflexivity|].
  unfold sprintf_u.
  destruct (NilZero.string_of_uint (N.to_uint (Z.to_N (u32 junk)))) as [|c s'];
    cbn [String.append String.length]; lia.
Qed.

End ReadFacts.

(** C9: the custom attributes on a device whose mutex is held.  The
    exchange fails with the busy code and stores nothing, and each of
    [total_uptime_show], [current_uptime_show], [ocp_mode_show] and
    [fan_control_show] still reports a text of 11 characters: the decimal
    form of what its [reading] variable held before the call, here
    0xDEADBEEF. *)
Theorem C9_u32_show_drops_the_error (PLAT : Platform) :
  let w := boot_contended psu_silent in
  fst (send_recv_cmd 0 0x03 0xD1 0x00 (Some 4%nat) w) = (USB_MUTEX_LOCKED_ERR, None)
  /\ fst (total_uptime_show 0 0xDEADBEEF w) = (11, sprintf_u 3735928559)
  /\ fst (current_uptime_show 0 0xDEADBEEF w) = (11, sprintf_u 3735928559)
  /\ fst (ocp_mode_show 0 0xDEADBEEF w) = (11, sprintf_u 3735928559)
  /\ fst (fan_control_show 0 0xDEADBEEF w) = (11, sprintf_u 3735928559).
Proof. cbv zeta. repeat split; vm_compute; reflexivity. Qed.

(** ** Callers running side by side *)

Section Interleaving.

Context {U : Type} {USB : UsbDevice U}.

(** The steps of one caller, run without interruption, are the exchange. *)
Lemma run_thread_exchange (d : nat) (w : world U) :
  run_thread 5 d PcEntry w
  = let '(ret, w') := usb_send_recv_cmd d w in (PcReturn ret, w').
Proof.
  unfold usb_send_recv_cmd. cbn [run_thread thread_step].
  destruct (mutex_trylock d w) as [locked w1].
  destruct locked; cbn [negb thread_step]; [|reflexivity].
  destruct (usb_interrupt_msg_snd d w1) as [r1 w2].
  destruct (r1 <? 0); cbn [thread_step]; [reflexivity|].
  destruct (usb_interrupt_msg_rcv d (clear_buf d w2)) as [r2 w3].
  destruct (r2 <? 0); reflexivity.
Qed.

(** What one step does to the caller's hold on the mutex: the caller's
    exchange is in flight afterwards exactly when it was and did not
    unlock, or when it just took the free mutex. *)
Lemma thread_step_mutex (d : nat) (p : pc) (w : world U) :
  (in_flight p = true -> usbdev_mutex w = true) ->
  let '(p', w') := thread_step d p w in
  (b2n (in_flight p') + b2n (usbdev_mutex w)
   = b2n (in_flight p) + b2n (usbdev_mutex w'))%nat.
Proof.
  intros Hheld. destruct p; cbn [thread_step].
  - unfold mutex_trylock. destruct (usbdev_mutex w) eqn:Hm; cbn; rewrite ?Hm; reflexivity.
  - unfold usb_interrupt_msg_snd.
    destruct (usb_snd (usbdev (devs w d)) (buf (devs w d))) as [r u'].
    destruct (r <? 0); cbn; reflexivity.
  - cbn. reflexivity.
  - unfold usb_interrupt_msg_rcv. destruct (usb_rcv (usbdev (devs w d))) as [[r bs] u'].
    destruct (r <? 0); cbn; reflexivity.
  - cbn. rewrite (Hheld eq_refl). reflexivity.
  - cbn. reflexivity.
Qed.

Lemma flying_set_nth (l : list (nat * pc)) (i d : nat) (p p' : pc) :
  nth_error l i = Some (d, p) ->
  (flying (set_nth i (d, p') l) + b2n (in_flight p)
   = flying l + b2n (in_flight p'))%nat.
Proof.
  revert i. induction l as [|[d0 p0] l IH]; intros [|i] H; cbn in H; try discriminate.
  - injection H as -> ->. unfold flying. cbn [set_nth filter snd].
    destruct (in_flight p), (in_flight p'); cbn; lia.
  - specialize (IH i H). unfold flying in *. cbn [set_nth filter snd].
    destruct (in_flight p0); cbn [length]; lia.
Qed.

Lemma flying_one (l : list (nat * pc)) (i d : nat) (p : pc) :
  nth_error l i = Some (d, p) -> in_flight p = true -> (1 <= flying l)%nat.
Proof.
  revert i. induction l as [|[d0 p0] l IH]; intros [|i] H F; cbn in H; try discriminate;
    unfold flying in *; cbn [filter snd].
  - injection H as -> ->. rewrite F. cbn. lia.
  - specialize (IH i H F). destruct (in_flight p0); cbn; lia.
Qed.

Lemma initial_accounts (ds : list nat) (w : world U) : lock_accounts (initial ds w).
Proof.
  unfold lock_accounts, initial, flying. cbn.
  induction ds as [|d ds IH]; cbn; auto.
Qed.

Lemma sys_step_accounts (i : nat) (s : system) :
  lock_accounts s -> lock_accounts (sys_step i s).
Proof.
  unfold lock_accounts, sys_step. intros Hinv.
  destruct (nth_error (threads s) i) as [[d p]|] eqn:Hi; [|exact Hinv].
  assert (Hheld : in_flight p = true -> usbdev_mutex (sworld s) = true).
  { intros F. pose proof (flying_one _ i d p Hi F) as H1. rewrite Hinv in H1.
    destruct (usbdev_mutex (sworld s)); [reflexivity | cbn in H1; lia]. }
  pose proof (thread_step_mutex d p (sworld s) Hheld) as Hstep.
  destruct (thread_step d p (sworld s)) as [p' w']. cbn [threads sworld].
  pose proof (flying_set_nth (threads s) i d p p' Hi) as Hfly.
  lia.
Qed.

Lemma run_schedule_accounts (sched : list nat) (s : system) :
  lock_accounts s -> lock_accounts (run_schedule sched s).
Proof.
  revert s. induction sched as [|i sched IH]; intros s Hinv; cbn.
  - exact Hinv.
  - apply IH. apply sys_step_accounts. exact Hinv.
Qed.

Lemma flying_two (l : list (nat * pc)) (i j : nat) (di dj : nat) (pi pj : pc) :
  nth_error l i = Some (di, pi) -> nth_error l j = Some (dj, pj) ->
  in_flight pi = true -> in_flight pj = true -> i <> j ->
  (2 <= flying l)%nat.
Proof.
  revert i j. induction l as [|[d0 p0] l IH]; intros i j Hi Hj Fi Fj Hne.
  - destruct i; discriminate Hi.
  - destruct i as [|i], j as [|j]; cbn in Hi, Hj.
    + contradiction.
    + injection Hi as -> ->. pose proof (flying_one l j dj pj Hj Fj) as H1.
      unfold flying in *. cbn [filter snd]. rewrite Fi. cbn [length]. lia.
    + injection Hj as -> ->. pose proof (flying_one l i di pi Hi Fi) as H1.
      unfold flying in *. cbn [filter snd]. rewrite Fj. cbn [length]. lia.
    + assert (Hne' : i <> j) by lia. specialize (IH i j Hi Hj Fi Fj Hne').
      unfold flying in *. cbn [filter snd].
      destruct (in_flight p0); cbn [length]; lia.
Qed.

(** C4 as the code has it: the lock is the one mutex of the module,
    shared by the callers of all devices.  However the callers'
    steps are scheduled, at most one exchange is in flight over all
    devices together; and while one is in flight, a caller that begins an
    exchange, on the same device or on another, gets the busy code at
    its [mutex_trylock]. *)
Theorem C4_one_mutex_for_all_devices (ds : list nat) (w0 : world U) (sched : list nat) :
  let s := run_schedule sched (initial ds w0) in
  (flying (threads s) <= 1)%nat
  /\ (forall i j di dj pi pj,
        nth_error (threads s) i = Some (di, pi) ->
        nth_error (threads s) j = Some (dj, pj) ->
        in_flight pi = true -> in_flight pj = true -> i = j)
  /\ (forall i j di dj pi,
        nth_error (threads s) i = Some (di, pi) -> in_flight pi = true ->
        nth_error (threads s) j = Some (dj, PcEntry) ->
        fst (thread_step dj PcEntry (sworld s)) = PcReturn USB_MUTEX_LOCKED_ERR
        /\ fst (usb_send_recv_cmd dj (sworld s)) = USB_MUTEX_LOCKED_ERR).
Proof.
  cbv zeta.
  pose proof (run_schedule_accounts sched _ (initial_accounts ds w0)) as Hinv.
  set (s := run_schedule sched (initial ds w0)) in *.
  unfold lock_accounts in Hinv.
  split; [|split].
  - rewrite Hinv. destruct (usbdev_mutex (sworld s)); cbn; lia.
  - intros i j di dj pi pj Hi Hj Fi Fj.
    destruct (Nat.eq_dec i j) as [|Hne]; [assumption|]. exfalso.
    pose proof (flying_two _ i j di dj pi pj Hi Hj Fi Fj Hne) as H2.
    rewrite Hinv in H2. destruct (usbdev_mutex (sworld s)); cbn in H2; lia.
  - intros i j di dj pi Hi Fi Hj.
    pose proof (flying_one _ i di pi Hi Fi) as H1.
    rewrite Hinv in H1.
    destruct (usbdev_mutex (sworld s)) eqn:Hm; cbn in H1; [|lia].
    rewrite (usb_send_recv_cmd_busy dj _ Hm).
    unfold thread_step, mutex_trylock. rewrite Hm. split; reflexivity.
Qed.

End Interleaving.

(** ** Concrete runs *)

(** A supply that keeps answering with an error response: one
    handshake, one second attempt, then [- ENODATA]; the command, the
    handshake and the command again went out. *)
Lemma C3_one_handshake_one_retry_witness :
  is_byte 0x8D
  /\ (let ret := fst (fst run_persistent_error) in
      let out := snd (fst run_persistent_error) in
      let w' := snd run_persistent_error in
      let new := events_since (boot psu_persistent_error) w' in
      let orig := (0x03, 0x8D, 0x00) in
      let hs := (0xfe, 0x03, 0x00) in
      (usbdev_mutex (boot psu_persistent_error) = false ->
       wire new = map encode_frame (frames new))
      /\ (usbdev_mutex (boot psu_persistent_error) = true ->
          wire new = [] /\ frames new = [orig] /\ ret = USB_MUTEX_LOCKED_ERR)
      /\ (forall pre r post, statuses new = pre ++ r :: post -> r < 0 ->
          post = [] /\ ret = r /\ out = None)
      /\ attempts new = length (frames new)
      /\ (attempts new <= 3)%nat
      /\ (forall b rest, echoes new = b :: rest -> b <> 0x8D ->
          (exists r2, r2 < 0 /\ frames new = [orig; hs]
                      /\ wire new = [encode_frame orig; encode_frame hs]
                      /\ statuses new = [0; r2] /\ ret = r2)
          \/ (exists r3, r3 < 0 /\ frames new = [orig; hs; orig]
                         /\ wire new = [encode_frame orig; encode_frame hs;
                                        encode_frame orig]
                         /\ statuses new = [0; 0; r3] /\ ret = r3)
          \/ (exists bh b3, frames new = [orig; hs; orig]
                         /\ wire new = [encode_frame orig; encode_frame hs;
                                        encode_frame orig]
                         /\ statuses new = [0; 0; 0]
                         /\ echoes new = [b; bh; b3]
                         /\ (b3 <> 0x8D -> ret = - ENODATA /\ out = None)
                         /\ (char_value (PLAT := unsigned_char) b3 = 0x8D ->
                             ret = 0 /\ out = copied 0 (Some 2%nat) w'
                             /\ last (responses new) [] = buf (devs w' 0%nat)))))
  /\ fst (fst run_persistent_error) = - ENODATA
  /\ frames (events_since (boot psu_persistent_error) (snd run_persistent_error))
     = [(0x03, 0x8D, 0x00); (0xfe, 0x03, 0x00); (0x03, 0x8D, 0x00)]
  /\ wire (events_since (boot psu_persistent_error) (snd run_persistent_error))
     = [encode_frame (0x03, 0x8D, 0x00); encode_frame (0xfe, 0x03, 0x00);
        encode_frame (0x03, 0x8D, 0x00)].
Proof.
  assert (H : is_byte 0x8D) by (unfold is_byte; lia).
  split; [exact H|]. split; [|repeat split; vm_compute; reflexivity].
  pose proof (C3_one_handshake_one_retry (PLAT := unsigned_char) 0%nat 0x03 0x8D 0x00
                (Some 2%nat) (boot psu_persistent_error) H) as T.
  unfold run_persistent_error.
  destruct (send_recv_cmd 0 3 141 0 (Some 2%nat) (boot psu_persistent_error))
    as [[ret out] w'].
  exact T.
Defined.

(** A handshake response whose byte 1 is 0x55, not 0x03: the request
    goes out again all the same, and succeeds. *)
Lemma C10_handshake_response_not_inspected_witness :
  statuses (events_since (boot psu_odd_handshake)
              (snd (send_recv_cmd (PLAT := unsigned_char) 0 0x03 0x8D 0x00 (Some 2%nat)
                      (boot psu_odd_handshake)))) = 0 :: 0 :: [0]
  /\ frames (events_since (boot psu_odd_handshake)
              (snd (send_recv_cmd (PLAT := unsigned_char) 0 0x03 0x8D 0x00 (Some 2%nat)
                      (boot psu_odd_handshake))))
     = [(0x03, 0x8D, 0x00); (0xfe, 0x03, 0x00); (0x03, 0x8D, 0x00)]
  /\ wire (events_since (boot psu_odd_handshake)
              (snd (send_recv_cmd (PLAT := unsigned_char) 0 0x03 0x8D 0x00 (Some 2%nat)
                      (boot psu_odd_handshake))))
     = [encode_frame (0x03, 0x8D, 0x00); encode_frame (0xfe, 0x03, 0x00);
        encode_frame (0x03, 0x8D, 0x00)]
  /\ attempts (events_since (boot psu_odd_handshake)
              (snd (send_recv_cmd (PLAT := unsigned_char) 0 0x03 0x8D 0x00 (Some 2%nat)
                      (boot psu_odd_handshake)))) = 3%nat
  /\ echoes (events_since (boot psu_odd_handshake) (snd run_odd_handshake))
     = [0x00; 0x55; 0x8D]
  /\ fst run_odd_handshake = (0, Some [0xD6; 0x0A]).
Proof.
  assert (Hs : statuses (events_since (boot psu_odd_handshake)
              (snd (send_recv_cmd (PLAT := unsigned_char) 0 0x03 0x8D 0x00 (Some 2%nat)
                      (boot psu_odd_handshake)))) = 0 :: 0 :: [0])
    by (vm_compute; reflexivity).
  destruct (C10_handshake_response_not_inspected (PLAT := unsigned_char) 0%nat
              0x03 0x8D 0x00 (Some 2%nat) (boot psu_odd_handshake) 0 [0] Hs)
    as (F & S & A & _).
  split; [exact Hs|]. split; [exact F|]. split; [exact S|]. split; [exact A|].
  split; vm_compute; reflexivity.
Defined.

(** A supply that does not answer: the outbound transfer times out and
    the mutex is free again afterwards. *)
Lemma C6_lock_released_on_every_exit_witness :
  usbdev_mutex (boot psu_silent) = false
  /\ fst (usb_send_recv_cmd 0 (boot psu_silent)) = - ETIMEDOUT
  /\ usbdev_mutex (snd (usb_send_recv_cmd 0 (boot psu_silent))) = false
  /\ fold_left held_after
       (events_since (boot psu_silent) (snd (usb_send_recv_cmd 0 (boot psu_silent))))
       false = false.
Proof.
  split; [reflexivity|]. split; [vm_compute; reflexivity|].
  pose proof (C6_lock_released_on_every_exit 0%nat (boot psu_silent) eq_refl) as T.
  destruct (usb_send_recv_cmd 0 (boot psu_silent)) as [ret w'].
  cbn [snd]. destruct T as (A & B & _). split; assumption.
Defined.

(** The mutex held by another caller: the busy code, one failed
    [mutex_trylock], the devices untouched. *)
Lemma C7_busy_without_transfer_witness :
  usbdev_mutex (boot_contended psu_temp1) = true
  /\ fst (usb_send_recv_cmd 0 (boot_contended psu_temp1)) = USB_MUTEX_LOCKED_ERR
  /\ events_since (boot_contended psu_temp1)
       (snd (usb_send_recv_cmd 0 (boot_contended psu_temp1))) = [EvTryLock 0 false]
  /\ devs (snd (usb_send_recv_cmd 0 (boot_contended psu_temp1)))
     = devs (boot_contended psu_temp1).
Proof.
  split; [reflexivity|].
  pose proof (C7_busy_without_transfer 0%nat (boot_contended psu_temp1) eq_refl) as T.
  destruct (usb_send_recv_cmd 0 (boot_contended psu_temp1)) as [ret w'].
  cbn [fst snd]. destruct T as (A & B & _ & D & _). repeat split; assumption.
Defined.

(** C4 as stated fails: with an exchange in flight on device 0, the
    caller for device 1, which would otherwise complete its exchange
    with status 0, is refused with the busy code. *)
Lemma C4_counterexample :
  threads two_devices = [(0%nat, PcLocked); (1%nat, PcEntry)]
  /\ in_flight PcLocked = true
  /\ fst (usb_send_recv_cmd 1 (sworld two_devices)) = USB_MUTEX_LOCKED_ERR
  /\ fst (run_thread 5 1 PcEntry (sworld two_devices)) = PcReturn USB_MUTEX_LOCKED_ERR
  /\ fst (usb_send_recv_cmd 1 (sworld (initial [0%nat; 1%nat] (boot psu_temp1)))) = 0.
Proof. repeat split; vm_compute; reflexivity. Qed.

(** The same two callers, through the theorem. *)
Lemma C4_one_mutex_for_all_devices_witness :
  nth_error (threads two_devices) 0 = Some (0%nat, PcLocked)
  /\ in_flight PcLocked = true
  /\ nth_error (threads two_devices) 1 = Some (1%nat, PcEntry)
  /\ fst (thread_step 1 PcEntry (sworld two_devices)) = PcReturn USB_MUTEX_LOCKED_ERR
  /\ fst (usb_send_recv_cmd 1 (sworld two_devices)) = USB_MUTEX_LOCKED_ERR.
Proof.
  assert (H0 : nth_error (threads two_devices) 0 = Some (0%nat, PcLocked))
    by (vm_compute; reflexivity).
  assert (H1 : nth_error (threads two_devices) 1 = Some (1%nat, PcEntry))
    by (vm_compute; reflexivity).
  split; [exact H0|]. split; [reflexivity|]. split; [exact H1|].
  destruct (C4_one_mutex_for_all_devices [0%nat; 1%nat] (boot psu_temp1) [0%nat])
    as (_ & _ & T).
  exact (T 0%nat 1%nat 0%nat 1%nat PcLocked H0 eq_refl H1).
Defined.

(** C5 as stated fails: in the plain successful run the command frame is
    stored into the buffer before the lock is requested, and byte 1 of
    the response is tested and the result copied out after the lock has
    been released. *)
Lemma C5_counterexample :
  fst run_temp1 = (0, Some [0xD6; 0x0A])
  /\ under_lock is_buffer_access false
       (events_since (boot psu_temp1) (snd run_temp1)) = false
  /\ firstn 2 (events_since (boot psu_temp1) (snd run_temp1))
     = [EvFrame 0 0x03 0x8D 0x00; EvTryLock 0 true]
  /\ skipn 5 (events_since (boot psu_temp1) (snd run_temp1))
     = [EvUnlock 0; EvPeek 0 0x8D; EvCopy 0 2].
Proof. repeat split; vm_compute; reflexivity. Qed.

(** The 5V current with the mutex held by another caller: the selection
    fails, the read fails with [- EINVAL], the reading frame is never
    built and nothing goes out.  With the mutex free, the selection of
    rail 1 goes out first, then the reading command 0x8C. *)
Lemma C8_rail_selected_before_reading_witness :
  fst (fst select_5v_contended) = USB_MUTEX_LOCKED_ERR
  /\ fst read_5v_current_contended = (- EINVAL, None)
  /\ ~ In (0x03, 0x8C, 0x00)
        (frames (events_since (boot_contended psu_rail_5v)
                   (snd read_5v_current_contended)))
  /\ wire (events_since (boot psu_rail_5v)
             (snd (corsairpsu_read (PLAT := unsigned_char) (HW := sample_hwmon) 0
                     (@hwmon_curr sample_hwmon) (@hwmon_curr_input sample_hwmon)
                     (rail_channel_number Current Rail5V) 0 (boot psu_rail_5v))))
     = [encode_frame (0x02, 0x00, 0x01); encode_frame (0x03, 0x8C, 0x00)]
  /\ fst (corsairpsu_read (PLAT := unsigned_char) (HW := sample_hwmon) 0
            (@hwmon_curr sample_hwmon) (@hwmon_curr_input sample_hwmon)
            (rail_channel_number Current Rail5V) 0 (boot psu_rail_5v))
     = (0, Some 4000).
Proof.
  split; [vm_compute; reflexivity|]. split; [vm_compute; reflexivity|].
  split; [|split; vm_compute; reflexivity].
  pose proof (C8_rail_selected_before_reading (PLAT := unsigned_char)
                (HW := sample_hwmon) Current Rail5V 0%nat 0
                (boot_contended psu_rail_5v)) as T.
  cbn [rail_channel quantity_opcode] in T.
  unfold read_5v_current_contended.
  assert (Hs : fst (fst select_5v_contended) < 0) by (vm_compute; reflexivity).
  unfold select_5v_contended in Hs.
  destruct (send_recv_cmd 0 2 0 (rail_index Rail5V) None (boot_contended psu_rail_5v))
    as [[rs os] ws].
  destruct (corsairpsu_read 0 hwmon_curr hwmon_curr_input
              (rail_channel_number Current Rail5V) 0 (boot_contended psu_rail_5v))
    as [[ret val] w'].
  cbn [fst snd] in *. destruct T as (_ & _ & T & _). intros Hin.
  specialize (T Hin). lia.
Defined.

(** Where plain [char] is signed, byte 1 of a response that echoes an
    opcode of 0x80 or more is negative once promoted and never equals the
    opcode: the well-formed answer to the temperature request is taken
    for an error response, and the call ends with [- ENODATA] after the
    handshake and the second attempt. *)
Lemma signed_char_high_opcode :
  fst (send_recv_cmd (PLAT := unsigned_char) 0 0x03 0x8D 0x00 (Some 2%nat)
         (boot psu_temp1)) = (0, Some [0xD6; 0x0A])
  /\ fst (send_recv_cmd (PLAT := signed_char) 0 0x03 0x8D 0x00 (Some 2%nat)
            (boot (fun _ => psu_temp1 0%nat ++ psu_temp1 0%nat ++ psu_temp1 0%nat)))
     = (- ENODATA, None).
Proof. split; vm_compute; reflexivity. Qed.

(** ** More about LINEAR11 *)

(** The decoder computes the reference value as long as the [int]
    product cannot wrap. *)
Lemma decode_reference_window (v scale : Z) :
  0 <= v < 65536 ->
  - 2097152 < scale <= 2097152 ->
  pmbus_linear11_to_long v scale = linear11_reference v scale.
Proof.
  intros Hv Hs. unfold pmbus_linear11_to_long, linear11_reference. cbv zeta.
  rewrite exponent_bits by assumption. rewrite mantissa_bits by lia.
  pose proof (mantissa11_range v) as Hm.
  pose proof (exponent5_range v) as He.
  set (y := mantissa11 v) in *. set (n := exponent5 v) in *.
  assert (Hp : - 2147483648 <= y * scale < 2147483648) by nia.
  rewrite (s32_id (y * scale)) by lia.
  rewrite (s64_id (y * scale)) by lia.
  destruct (Z.leb_spec 0 n) as [Hn | Hn].
  - rewrite Z.shiftl_mul_pow2 by lia.
    pose proof (pow2_le_15 n ltac:(lia)) as H2.
    apply s64_id. nia.
  - rewrite Z.shiftr_div_pow2 by lia.
    assert (H2 : 1 <= 2 ^ (- n)) by (apply (Z.pow_le_mono_r 2 0 (- n)); lia).
    apply s64_id.
    assert (Hlo : - 2147483648 <= y * scale / 2 ^ (- n)).
    { apply Z.div_le_lower_bound; nia. }
    assert (Hhi : y * scale / 2 ^ (- n) <= 2147483648).
    { apply Z.div_le_upper_bound; nia. }
    lia.
Qed.

(** X1: the decoder is exact for every 16-bit word and every scale in
    the window (-2^21, 2^21], where the [int] product of mantissa and
    scale cannot wrap.  The window is tight: one past either end, the
    word 0x0400 (mantissa -1024, exponent 0) decodes to a value of the
    wrong sign. *)
Theorem X1_decode_exact_window :
  (forall v scale,
     0 <= v < 65536 -> - 2097152 < scale <= 2097152 ->
     pmbus_linear11_to_long v scale
     = if 0 <=? exponent5 v
       then mantissa11 v * scale * 2 ^ exponent5 v
       else mantissa11 v * scale / 2 ^ (- exponent5 v))
  /\ mantissa11 0x0400 = - 1024
  /\ exponent5 0x0400 = 0
  /\ pmbus_linear11_to_long 0x0400 2097153 = 2147482624
  /\ pmbus_linear11_to_long 0x0400 (- 2097152) = - 2147483648.
Proof.
  split; [|repeat split; reflexivity].
  intros v scale Hv Hs. rewrite decode_reference_window by assumption.
  unfold linear11_reference. cbv zeta.
  pose proof (exponent5_range v) as He.
  destruct (Z.leb_spec 0 (exponent5 v)).
  - apply Z.shiftl_mul_pow2. lia.
  - apply Z.shiftr_div_pow2. lia.
Qed.

(** The 5V rail at 11.0 mV per count: the word 0xF00B (mantissa 11,
    exponent -2) at scale 1000. *)
Lemma X1_decode_exact_window_witness :
  0 <= 0xF00B < 65536
  /\ - 2097152 < 1000 <= 2097152
  /\ pmbus_linear11_to_long 0xF00B 1000 = 11 * 1000 / 2 ^ 2.
Proof.
  assert (Hv : 0 <= 0xF00B < 65536) by lia.
  assert (Hs : - 2097152 < 1000 <= 2097152) by lia.
  split; [exact Hv|]. split; [exact Hs|].
  exact (proj1 X1_decode_exact_window 0xF00B 1000 Hv Hs).
Defined.

(** X2: how the decoder rounds.  With a non-negative exponent the result
    is the exact product.  With a negative exponent [N] the result [x] is
    the product divided by [2^-N] and rounded towards minus infinity:
    [x * 2^-N <= Y * scale < (x + 1) * 2^-N].  So a reading with a
    negative mantissa never decodes to 0 at a positive scale, and a
    reading with a non-negative mantissa never decodes to a negative
    value. *)
Theorem X2_decode_rounds_down (v scale : Z) :
  0 <= v < 65536 ->
  0 <= scale <= 2097152 ->
  let x := pmbus_linear11_to_long v scale in
  let y := mantissa11 v in
  let n := exponent5 v in
  (0 <= n -> x = y * scale * 2 ^ n)
  /\ (n < 0 -> x * 2 ^ (- n) <= y * scale < (x + 1) * 2 ^ (- n))
  /\ (y < 0 -> 0 < scale -> x < 0)
  /\ (0 <= y -> 0 <= x).
Proof.
  intros Hv Hs. cbv zeta.
  rewrite decode_reference_window by (try assumption; lia).
  unfold linear11_reference. cbv zeta.
  pose proof (mantissa11_range v) as Hm.
  pose proof (exponent5_range v) as He.
  set (y := mantissa11 v) in *. set (n := exponent5 v) in *.
  destruct (Z.leb_spec 0 n) as [Hn | Hn].
  - rewrite Z.shiftl_mul_pow2 by lia.
    pose proof (pow2_le_15 n ltac:(lia)) as H2.
    repeat split; try lia; intros; nia.
  - rewrite Z.shiftr_div_pow2 by lia.
    assert (H2 : 0 < 2 ^ (- n)) by (apply Z.pow_pos_nonneg; lia).
    pose proof (Z.div_mod (y * scale) (2 ^ (- n)) ltac:(lia)) as Hdm.
    pose proof (Z.mod_pos_bound (y * scale) (2 ^ (- n)) H2) as Hmod.
    set (q := y * scale / 2 ^ (- n)) in *.
    set (m := (y * scale) mod 2 ^ (- n)) in *.
    set (p := 2 ^ (- n)) in *.
    repeat split; try lia; intros; nia.
Qed.

(** The word 0xF801 (mantissa 1, exponent -1) at scale 1. *)
Lemma X2_decode_rounds_down_witness :
  0 <= 0xF801 < 65536
  /\ 0 <= 1 <= 2097152
  /\ pmbus_linear11_to_long 0xF801 1 * 2 ^ 1 <= 1 * 1
     < (pmbus_linear11_to_long 0xF801 1 + 1) * 2 ^ 1.
Proof.
  assert (Hv : 0 <= 0xF801 < 65536) by lia.
  assert (Hs : 0 <= 1 <= 2097152) by lia.
  split; [exact Hv|]. split; [exact Hs|].
  destruct (X2_decode_rounds_down 0xF801 1 Hv Hs) as (_ & H & _).
  apply H. reflexivity.
Defined.


(** ** What a call of [send_recv_cmd] hands back and sends out *)

Lemma encode_frame_length (f : Z * Z * Z) : length (encode_frame f) = 64%nat.
Proof. destruct f as [[a o] p]. reflexivity. Qed.

Lemma take_bytes (n : nat) (l : list Z) :
  Forall is_byte l -> Forall is_byte (firstn n (skipn 2 l)).
Proof. intros H. apply Forall_take. apply Forall_drop. exact H. Qed.

Section ClientResults.

Context {U : Type} {USB : UsbDevice U} {PLAT : Platform}.

(** X3: [send_recv_cmd] returns 0 or a negative value.  When it returns
    a negative value nothing is stored through [result].  When it returns
    0, what is stored is taken from the last response received, a buffer
    of 64 bytes whose byte 1 equals the opcode as the driver compares
    them: [result_size] bytes starting at byte 2.  For a size of at most
    62 these are exactly [result_size] bytes, each in [0, 256). *)
Theorem X3_result_from_validated_response
  (d : nat) (addr opcode opdata : Z) (result : option nat) (w : world U) :
  let run := send_recv_cmd d addr opcode opdata result w in
  let ret := fst (fst run) in
  let out := snd (fst run) in
  let new := events_since w (snd run) in
  (ret < 0 \/ ret = 0)
  /\ (ret < 0 -> out = None)
  /\ (ret = 0 ->
      exists resp,
        last (responses new) [] = resp
        /\ length resp = 64%nat
        /\ Forall is_byte resp
        /\ char_value (nth 1 resp 0) = opcode
        /\ out = match result with
                 | Some n => if (0 <? n)%nat then Some (firstn n (skipn 2 resp)) else None
                 | None => None
                 end
        /\ (forall n, result = Some n -> (0 < n <= 62)%nat ->
            exists bs, out = Some bs /\ length bs = n /\ Forall is_byte bs)).
Proof.
  cbv zeta.
  destruct (send_recv_cmd d addr opcode opdata result w) as [[ret out] w'] eqn:E.
  pose proof E as E'.
  apply send_recv_cmd_events in E. destruct E as (t & Ht & Hc & _ & Hneg & Hzero).
  apply send_recv_cmd_state in E'.
  destruct E' as (t' & Ht' & _ & Hlen & _ & Hresp).
  assert (t' = t) by (rewrite Ht in Ht'; apply app_inv_head in Ht'; auto). subst t'.
  cbn [fst snd]. rewrite (events_since_app _ _ _ Ht).
  split; [exact (client_status _ _ _ _ _ _ _ Hc)|]. split; [exact Hneg|].
  intros H0. destruct (Hresp H0) as (pre & Hr & Hb & He).
  exists (buf (devs w' d)).
  split; [rewrite Hr; apply last_last|].
  split; [exact Hlen|]. split; [exact Hb|]. split; [exact He|].
  split; [rewrite (Hzero H0); reflexivity|].
  intros n -> Hn. rewrite (Hzero H0). unfold copied.
  assert (Hpos : (0 <? n)%nat = true) by (apply Nat.ltb_lt; lia).
  rewrite Hpos. eexists. split; [reflexivity|]. split.
  - rewrite length_firstn, length_skipn, Hlen. lia.
  - apply take_bytes. exact Hb.
Qed.

(** X4: every frame [send_recv_cmd] puts on the wire is 64 bytes long and
    is a frame the call built, as built: page, opcode, operand and 61
    zero bytes.  The frames go out in the order they were built; the only
    frame that can be built and not sent is the last one, when its
    exchange found the mutex held, and then the call returns the busy
    code.  The frames built are the caller's and the handshake's. *)
Theorem X4_frames_on_the_wire
  (d : nat) (addr opcode opdata : Z) (result : option nat) (w : world U) :
  let run := send_recv_cmd d addr opcode opdata result w in
  let ret := fst (fst run) in
  let new := events_since w (snd run) in
  Forall (fun f => length f = 64%nat) (wire new)
  /\ (wire new = map encode_frame (frames new)
      \/ (ret = USB_MUTEX_LOCKED_ERR
          /\ wire new = map encode_frame (removelast (frames new))))
  /\ Forall (fun f => f = (addr, opcode, opdata) \/ f = (0xfe, 0x03, 0x00))
            (frames new).
Proof.
  cbv zeta.
  destruct (send_recv_cmd d addr opcode opdata result w) as [[ret out] w'] eqn:E.
  pose proof E as E'.
  apply send_recv_cmd_events in E. destruct E as (t & Ht & Hc & _).
  apply send_recv_cmd_state in E'.
  destruct E' as (t' & Ht' & _ & _ & Hwire & _).
  assert (t' = t) by (rewrite Ht in Ht'; apply app_inv_head in Ht'; auto). subst t'.
  cbn [fst snd]. rewrite (events_since_app _ _ _ Ht).
  split; [|split; [exact Hwire|]].
  - destruct Hwire as [-> | [_ ->]]; apply Forall_map; apply Forall_forall;
      intros f _; apply encode_frame_length.
  - destruct (client_frames _ _ _ _ _ _ _ Hc) as [F | [F | F]]; rewrite F;
      repeat (apply Forall_cons; [auto|]); apply Forall_nil.
Qed.

End ClientResults.

(** ** What every read does *)

Lemma read_err_busy (ret : Z) :
  read_err ret = - EINVAL <-> ret = USB_MUTEX_LOCKED_ERR.
Proof.
  unfold read_err. destruct (Z.eqb_spec ret USB_MUTEX_LOCKED_ERR) as [E | E].
  - tauto.
  - unfold EINVAL, EOPNOTSUPP. split; [lia | contradiction].
Qed.

Section ClientRuns.

Context {U : Type} {USB : UsbDevice U} {PLAT : Platform}.

(** A call of [send_recv_cmd] ends with the lock released. *)
Lemma client_releases (d : nat) (a o p : Z) (result : option nat) (ret : Z)
  (t : list event) :
  client_events d a o p result ret t -> fold_left held_after t false = false.
Proof.
  intros Hc. destruct Hc;
    repeat (cbn [fold_left held_after app];
            rewrite ?fold_left_app;
            repeat match goal with
                   | H : exchange_events _ _ ?x |- _ =>
                       progress (rewrite ?(exchange_releases _ _ _ H))
                   end);
    try reflexivity; destruct result as [[|n]|]; reflexivity.
Qed.

(** The call returns the busy code exactly when its last exchange was
    refused with it; and it attempts at least one exchange. *)
Lemma client_last_status (d : nat) (a o p : Z) (result : option nat) (ret : Z)
  (t : list event) :
  client_events d a o p result ret t ->
  (ret = USB_MUTEX_LOCKED_ERR <-> last (statuses t) 0 = USB_MUTEX_LOCKED_ERR)
  /\ statuses t <> [].
Proof.
  intros Hc. destruct Hc; observe; cbn [last statuses flat_map app];
    (split; [|discriminate]);
    unfold ENODATA, USB_MUTEX_LOCKED_ERR; split; intros; lia.
Qed.

Lemma unsupported_contract (d : nat) (w : world U) :
  read_contract d w (- EOPNOTSUPP, None, w).
Proof.
  exists []. unfold read_facts. rewrite app_nil_r.
  repeat split; auto; try contradiction; cbn; unfold EOPNOTSUPP, EINVAL,
    USB_MUTEX_LOCKED_ERR; try lia; try discriminate.
Qed.

(** A reading block: at least one exchange is attempted. *)
Lemma read_linear11_run (d : nat) (opcode scale junk : Z) (w : world U) :
  In (0x03, opcode, 0x00) driver_frames -> In scale scales ->
  let '(ret, val, w') := read_linear11 d opcode scale junk w in
  exists t, statuses t <> [] /\ read_facts d w ret val w' t.
Proof.
  intros Hop Hsc. unfold read_linear11, read_facts.
  destruct (send_recv_cmd d 3 opcode 0 (Some 2%nat) w) as [[ret out] w'] eqn:E.
  pose proof E as E'.
  apply send_recv_cmd_events in E. destruct E as (t & Ht & Hc & Hm & Hneg & Hzero).
  apply send_recv_cmd_state in E'.
  destruct E' as (t' & Ht' & Hiso & Hlen & _ & Hresp).
  assert (t' = t) by (rewrite Ht in Ht'; apply app_inv_head in Ht'; auto). subst t'.
  destruct (client_last_status _ _ _ _ _ _ _ Hc) as (Hbusy & Hst).
  assert (Hne : t <> []) by (intros ->; apply Hst; reflexivity).
  assert (Hfr : Forall (fun f => In f driver_frames) (frames t)).
  { destruct (client_frames _ _ _ _ _ _ _ Hc) as [F | [F | F]]; rewrite F;
      repeat (apply Forall_cons; [first [exact Hop | cbn; tauto]|]); apply Forall_nil. }
  destruct (Z.ltb_spec ret 0) as [Hr | Hr]; exists t; (split; [exact Hst|]).
  - split; [exact Ht|]. split; [exact Hm|]. split; [exact Hiso|].
    split; [exact (client_releases _ _ _ _ _ _ _ Hc)|].
    split; [intros; contradiction|]. split; [intros _; exact Hst|].
    split; [rewrite read_err_busy; exact Hbusy|]. split; [exact Hfr|].
    intros H0. destruct (read_err_negative ret) as [H | H]; rewrite H in H0;
      unfold EINVAL, EOPNOTSUPP in H0; lia.
  - destruct (client_status _ _ _ _ _ _ _ Hc) as [H | H0]; [lia|]. subst ret.
    split; [exact Ht|]. split; [exact Hm|]. split; [exact Hiso|].
    split; [exact (client_releases _ _ _ _ _ _ _ Hc)|].
    split; [intros; contradiction|]. split; [intros _; exact Hst|].
    split.
    { destruct Hbusy as [Hb1 Hb2]. unfold EINVAL, USB_MUTEX_LOCKED_ERR in *.
      split; intros H; [lia | specialize (Hb2 H); lia]. }
    split; [exact Hfr|]. intros _.
    destruct (Hresp eq_refl) as (pre & Hr' & Hby & _).
    exists (buf (devs w' d)), scale.
    split; [rewrite Hr'; apply last_last|]. split; [exact Hlen|].
    split; [exact Hsc|].
    rewrite (Hzero eq_refl). unfold copied, reading_u16. cbn [Nat.ltb Nat.leb].
    rewrite reading_bytes. reflexivity.
Qed.

Lemma read_linear11_contract (d : nat) (opcode scale junk : Z) (w : world U) :
  In (0x03, opcode, 0x00) driver_frames -> In scale scales ->
  read_contract d w (read_linear11 d opcode scale junk w).
Proof.
  intros Hop Hsc. pose proof (read_linear11_run d opcode scale junk w Hop Hsc) as H.
  unfold read_contract. destruct (read_linear11 d opcode scale junk w) as [[ret val] w'].
  destruct H as (t & _ & H). exists t. exact H.
Qed.

(** A reading block behind a rail selection. *)
Lemma read_rail_contract (d : nat) (ri opcode scale junk : Z) (w : world U) :
  In (0x02, 0x00, ri) driver_frames ->
  In (0x03, opcode, 0x00) driver_frames -> In scale scales ->
  read_contract d w (read_rail d ri opcode scale junk w).
Proof.
  intros Hri Hop Hsc. unfold read_rail.
  destruct (send_recv_cmd d 2 0 ri None w) as [[rs outs] ws] eqn:E.
  pose proof E as E'.
  apply send_recv_cmd_events in E. destruct E as (ts & Hts & Hcs & Hms & _).
  apply send_recv_cmd_state in E'.
  destruct E' as (t' & Ht' & Hisos & _).
  assert (t' = ts) by (rewrite Hts in Ht'; apply app_inv_head in Ht'; auto). subst t'.
  destruct (client_last_status _ _ _ _ _ _ _ Hcs) as (Hbusy & Hst).
  assert (Hne : ts <> []) by (intros ->; apply Hst; reflexivity).
  assert (Hfr : Forall (fun f => In f driver_frames) (frames ts)).
  { destruct (client_frames _ _ _ _ _ _ _ Hcs) as [F | [F | F]]; rewrite F;
      repeat (apply Forall_cons; [first [exact Hri | cbn; tauto]|]); apply Forall_nil. }
  destruct (Z.ltb_spec rs 0) as [Hr | Hr].
  - exists ts. unfold read_facts.
    split; [exact Hts|]. split; [exact Hms|]. split; [exact Hisos|].
    split; [exact (client_releases _ _ _ _ _ _ _ Hcs)|].
    split; [intros; contradiction|]. split; [intros _; exact Hst|].
    split; [rewrite read_err_busy; exact Hbusy|]. split; [exact Hfr|].
    intros H0. destruct (read_err_negative rs) as [H | H]; rewrite H in H0;
      unfold EINVAL, EOPNOTSUPP in H0; lia.
  - pose proof (read_linear11_run d opcode scale junk ws Hop Hsc) as Hrd.
    unfold read_contract.
    destruct (read_linear11 d opcode scale junk ws) as [[ret val] w'].
    destruct Hrd as (tr & Hstr & Htr & Hmr & Hir & Hrel & Hnil & _ & Hbr & Hfrr & Hval).
    exists (ts ++ tr). unfold read_facts.
    split; [rewrite Htr, Hts, app_assoc; reflexivity|].
    split; [congruence|].
    split; [intros d' Hd; rewrite (Hir d' Hd); apply Hisos; exact Hd|].
    split; [rewrite fold_left_app, (client_releases _ _ _ _ _ _ _ Hcs); exact Hrel|].
    split; [intros H; apply app_eq_nil in H; destruct H; contradiction|].
    split; [intros _; rewrite statuses_app; intros H; apply app_eq_nil in H;
            destruct H; contradiction|].
    split; [rewrite statuses_app, (last_app_nonempty _ _ _ Hstr); exact Hbr|].
    split; [rewrite frames_app; apply Forall_app; split; assumption|].
    intros H0. destruct (Hval H0) as (resp & sc & Hl & Hlen & Hin & Hv).
    exists resp, sc. split; [|auto].
    rewrite responses_app. rewrite last_app_nonempty; [exact Hl|].
    intros Hnil'. rewrite Hnil' in Hl. cbn in Hl. subst resp. discriminate Hlen.
Qed.

End ClientRuns.

Section ReadContract.

Context {U : Type} {USB : UsbDevice U} {PLAT : Platform} {HW : HwmonHeader}.

(** Every call of the callback keeps the contract. *)
Lemma corsairpsu_read_contract (d : nat) (type attr channel junk : Z) (w : world U) :
  read_contract d w (corsairpsu_read d type attr channel junk w).
Proof.
  unfold corsairpsu_read. cbv zeta.
  repeat match goal with
         | |- read_contract _ _ (if ?c then _ else _) => destruct c
         end;
    match goal with
    | |- read_contract _ _ (read_linear11 _ _ _ _ _) =>
        apply read_linear11_contract; cbn; tauto
    | |- read_contract _ _ (read_rail _ _ _ _ _ _) =>
        apply read_rail_contract; cbn; tauto
    | |- _ => apply unsupported_contract
    end.
Qed.

End ReadContract.

(** ** The entry points *)

Lemma le_combine_range (bs : list Z) :
  Forall is_byte bs -> 0 <= le_combine bs < 256 ^ Z.of_nat (length bs).
Proof.
  induction 1 as [|b bs Hb Hbs IH]; [cbn; lia|].
  cbn [le_combine length]. rewrite Nat2Z.inj_succ, Z.pow_succ_r by lia.
  unfold is_byte in Hb. nia.
Qed.

Section EntryPoints.

Context {U : Type} {USB : UsbDevice U} {PLAT : Platform} {HW : HwmonHeader}.

(** One call of [u32_show]. *)
Lemma u32_show_run (d : nat) (opcode junk : Z) (w : world U) :
  let '(ret, out, ws) := send_recv_cmd d 0x03 (u8 opcode) 0x00 (Some 4%nat) w in
  let '(len, text, w') := u32_show d opcode junk w in
  w' = ws
  /\ len = Z.of_nat (String.length text)
  /\ 0 < len
  /\ (ret < 0 -> text = sprintf_u (u32 junk))
  /\ (ret = 0 -> text = sprintf_u (le_combine (firstn 4 (skipn 2 (buf (devs ws d)))))).
Proof.
  unfold u32_show.
  destruct (send_recv_cmd d 3 (u8 opcode) 0 (Some 4%nat) w) as [[ret out] ws] eqn:E.
  apply send_recv_cmd_events in E. destruct E as (t & _ & _ & _ & Hneg & Hzero).
  split; [reflexivity|]. split; [reflexivity|]. split.
  - unfold sprintf_u.
    match goal with
    | |- context [NilZero.string_of_uint ?x] =>
        destruct (NilZero.string_of_uint x) as [|c s']
    end; cbn [String.append String.length]; lia.
  - split; intros H.
    + rewrite (Hneg H). reflexivity.
    + rewrite (Hzero H). reflexivity.
Qed.

(** X5: a read or a custom attribute of device [d] leaves the buffer and
    the USB state of every other attached device as they were. *)
Theorem X5_other_devices_untouched
  (d : nat) (type attr channel opcode junk : Z) (w : world U) (d' : nat) :
  d' <> d ->
  devs (snd (corsairpsu_read d type attr channel junk w)) d' = devs w d'
  /\ devs (snd (u32_show d opcode junk w)) d' = devs w d'.
Proof.
  intros Hd. split.
  - pose proof (corsairpsu_read_contract d type attr channel junk w) as H.
    unfold read_contract in H.
    destruct (corsairpsu_read d type attr channel junk w) as [[ret val] w'].
    destruct H as (t & _ & _ & Hiso & _). cbn [snd]. apply Hiso. exact Hd.
  - pose proof (u32_show_run d opcode junk w) as H.
    destruct (send_recv_cmd d 3 (u8 opcode) 0 (Some 4%nat) w) as [[ret out] ws] eqn:E.
    destruct (u32_show d opcode junk w) as [[len text] w'].
    destruct H as (-> & _). cbn [snd].
    apply send_recv_cmd_state in E. destruct E as (t & _ & Hiso & _).
    apply Hiso. exact Hd.
Qed.

(** X6: a read or a custom attribute leaves the mutex as it found it,
    and the caller does not hold the lock when the call returns: every
    [mutex_trylock] that succeeded during the call has been followed by
    its [mutex_unlock]. *)
Theorem X6_entry_points_release_the_lock
  (d : nat) (type attr channel opcode junk : Z) (w : world U) :
  let read := corsairpsu_read d type attr channel junk w in
  let show := u32_show d opcode junk w in
  usbdev_mutex (snd read) = usbdev_mutex w
  /\ fold_left held_after (events_since w (snd read)) false = false
  /\ usbdev_mutex (snd show) = usbdev_mutex w
  /\ fold_left held_after (events_since w (snd show)) false = false.
Proof.
  cbv zeta.
  pose proof (corsairpsu_read_contract d type attr channel junk w) as H.
  unfold read_contract in H.
  destruct (corsairpsu_read d type attr channel junk w) as [[ret val] w'].
  destruct H as (t & Ht & Hm & _ & Hrel & _). cbn [snd].
  rewrite (events_since_app _ _ _ Ht).
  split; [exact Hm|]. split; [exact Hrel|].
  pose proof (u32_show_run d opcode junk w) as H.
  destruct (send_recv_cmd d 3 (u8 opcode) 0 (Some 4%nat) w) as [[rs out] ws] eqn:E.
  destruct (u32_show d opcode junk w) as [[len text] w''].
  destruct H as (-> & _). cbn [snd].
  apply send_recv_cmd_events in E. destruct E as (ts & Hts & Hc & Hms & _).
  rewrite (events_since_app _ _ _ Hts).
  split; [exact Hms | exact (client_releases _ _ _ _ _ _ _ Hc)].
Qed.


(** X8: a value that [corsairpsu_read] stores is decoded from the last
    response received during the call: it is the LINEAR11 decoding, at
    one of the scales 0, 1000 and 1000000, of the 16-bit word whose low
    byte is byte 2 and whose high byte is byte 3 of that 64-byte
    response. *)
Theorem X8_value_from_last_response
  (d : nat) (type attr channel junk : Z) (w : world U) :
  let run := corsairpsu_read d type attr channel junk w in
  let new := events_since w (snd run) in
  fst (fst run) = 0 ->
  exists resp scale,
    last (responses new) [] = resp
    /\ length resp = 64%nat
    /\ In scale scales
    /\ snd (fst run)
       = Some (pmbus_linear11_to_long (nth 2 resp 0 + 256 * nth 3 resp 0) scale).
Proof.
  cbv zeta.
  pose proof (corsairpsu_read_contract d type attr channel junk w) as H.
  unfold read_contract in H.
  destruct (corsairpsu_read d type attr channel junk w) as [[ret val] w'].
  destruct H as (t & Ht & _ & _ & _ & _ & _ & _ & _ & Hv). cbn [fst snd].
  rewrite (events_since_app _ _ _ Ht). exact Hv.
Qed.

(** X9: every command frame [corsairpsu_read] builds is one of twelve:
    a reading on page 0x03 with opcode 0x8D, 0x8E, 0x90, 0x88, 0x8B,
    0x8C, 0x96 or 0xEE and operand 0, a rail selection (0x02, 0x00, r)
    with r in 0..2, or the handshake (0xFE, 0x03, 0x00).  A call that
    adds no event to the trace returns [- EOPNOTSUPP] and leaves the
    world as it was; a call that adds one has attempted an exchange. *)
Theorem X9_read_builds_known_frames
  (d : nat) (type attr channel junk : Z) (w : world U) :
  let run := corsairpsu_read d type attr channel junk w in
  let new := events_since w (snd run) in
  Forall (fun f => In f driver_frames) (frames new)
  /\ (new = [] -> snd run = w /\ fst (fst run) = - EOPNOTSUPP)
  /\ (new <> [] -> statuses new <> []).
Proof.
  cbv zeta.
  pose proof (corsairpsu_read_contract d type attr channel junk w) as H.
  unfold read_contract in H.
  destruct (corsairpsu_read d type attr channel junk w) as [[ret val] w'].
  destruct H as (t & Ht & _ & _ & _ & Hnil & Hst & _ & Hfr & _). cbn [fst snd].
  rewrite (events_since_app _ _ _ Ht).
  split; [exact Hfr|]. split; [exact Hnil | exact Hst].
Qed.

End EntryPoints.

(** Two supplies: a temperature read and the uptime attribute of supply
    0 leave supply 1 as it was. *)
Lemma X5_other_devices_untouched_witness :
  1%nat <> 0%nat
  /\ devs (snd (corsairpsu_read (PLAT := unsigned_char) (HW := sample_hwmon) 0
                  (@hwmon_temp sample_hwmon) (@hwmon_temp_input sample_hwmon) 0 0
                  (boot psu_temp1))) 1 = devs (boot psu_temp1) 1
  /\ devs (snd (u32_show (PLAT := unsigned_char) 0 0xD1 0 (boot psu_temp1))) 1
     = devs (boot psu_temp1) 1.
Proof.
  assert (N : 1%nat <> 0%nat) by discriminate.
  split; [exact N|].
  exact (X5_other_devices_untouched (PLAT := unsigned_char) (HW := sample_hwmon) 0%nat
           (@hwmon_temp sample_hwmon) (@hwmon_temp_input sample_hwmon) 0 0xD1 0
           (boot psu_temp1) 1%nat N).
Defined.

(** The first temperature on a supply that answers 0x0AD6: mantissa 726,
    exponent 1, 1452 millidegrees. *)
Lemma X8_value_from_last_response_witness :
  fst (fst (corsairpsu_read (PLAT := unsigned_char) (HW := sample_hwmon) 0
              (@hwmon_temp sample_hwmon) (@hwmon_temp_input sample_hwmon) 0 0
              (boot psu_temp1))) = 0
  /\ snd (fst (corsairpsu_read (PLAT := unsigned_char) (HW := sample_hwmon) 0
                 (@hwmon_temp sample_hwmon) (@hwmon_temp_input sample_hwmon) 0 0
                 (boot psu_temp1))) = Some 1452000
  /\ exists resp scale,
       last (responses (events_since (boot psu_temp1)
               (snd (corsairpsu_read (PLAT := unsigned_char) (HW := sample_hwmon) 0
                       (@hwmon_temp sample_hwmon) (@hwmon_temp_input sample_hwmon) 0 0
                       (boot psu_temp1))))) [] = resp
       /\ length resp = 64%nat
       /\ In scale scales
       /\ snd (fst (corsairpsu_read (PLAT := unsigned_char) (HW := sample_hwmon) 0
                      (@hwmon_temp sample_hwmon) (@hwmon_temp_input sample_hwmon) 0 0
                      (boot psu_temp1)))
          = Some (pmbus_linear11_to_long (nth 2 resp 0 + 256 * nth 3 resp 0) scale).
Proof.
  assert (Hz : fst (fst (corsairpsu_read (PLAT := unsigned_char) (HW := sample_hwmon) 0
              (@hwmon_temp sample_hwmon) (@hwmon_temp_input sample_hwmon) 0 0
              (boot psu_temp1))) = 0) by (vm_compute; reflexivity).
  split; [exact Hz|]. split; [vm_compute; reflexivity|].
  exact (X8_value_from_last_response (PLAT := unsigned_char) (HW := sample_hwmon) 0%nat
           (@hwmon_temp sample_hwmon) (@hwmon_temp_input sample_hwmon) 0 0
           (boot psu_temp1) Hz).
Defined.

(** ** Where plain char is signed *)

Section SignedChar.

Context {U : Type} {USB : UsbDevice U} {PLAT : Platform} {HW : HwmonHeader}.

(** A [char] that holds a byte is below 128 once promoted: it equals no
    opcode of 0x80 or more. *)
Lemma char_value_signed (b o : Z) :
  char_signed = true -> is_byte b -> 128 <= o -> char_value b <> o.
Proof.
  unfold char_value, is_byte. intros -> Hb Ho. cbn [andb].
  destruct (Z.leb_spec 128 b); lia.
Qed.

Lemma send_recv_cmd_signed (d : nat) (a o p : Z) (result : option nat) (w : world U) :
  char_signed = true -> 128 <= o ->
  forall ret out w', send_recv_cmd d a o p result w = (ret, out, w') ->
  ret < 0 /\ out = None.
Proof.
  intros Hs Ho ret out w' E. pose proof E as E'.
  apply send_recv_cmd_events in E. destruct E as (t & _ & Hc & _ & Hneg & _).
  apply send_recv_cmd_state in E'. destruct E' as (t' & _ & _ & _ & _ & Hz).
  destruct (client_status _ _ _ _ _ _ _ Hc) as [Hlt | ->].
  - split; [exact Hlt | exact (Hneg Hlt)].
  - destruct (Hz eq_refl) as (pre & _ & Hb & He).
    exfalso. exact (char_value_signed _ _ Hs (nth_byte _ 1 Hb) Ho He).
Qed.

Lemma read_err_below (ret : Z) : read_err ret < 0.
Proof.
  destruct (read_err_negative ret) as [-> | ->]; unfold EINVAL, EOPNOTSUPP; lia.
Qed.

Lemma read_linear11_signed (d : nat) (opcode scale junk : Z) (w : world U) :
  char_signed = true -> 128 <= opcode ->
  let run := read_linear11 d opcode scale junk w in
  fst (fst run) < 0 /\ snd (fst run) = None.
Proof.
  intros Hs Ho. cbv zeta. unfold read_linear11.
  destruct (send_recv_cmd d 3 opcode 0 (Some 2%nat) w) as [[ret out] w'] eqn:E.
  destruct (send_recv_cmd_signed _ _ _ _ _ _ Hs Ho _ _ _ E) as (Hlt & _).
  apply Z.ltb_lt in Hlt. rewrite Hlt. cbn [fst snd].
  split; [apply read_err_below | reflexivity].
Qed.

Lemma read_rail_signed (d : nat) (ri opcode scale junk : Z) (w : world U) :
  char_signed = true -> 128 <= opcode ->
  let run := read_rail d ri opcode scale junk w in
  fst (fst run) < 0 /\ snd (fst run) = None.
Proof.
  intros Hs Ho. cbv zeta. unfold read_rail.
  destruct (send_recv_cmd d 2 0 ri None w) as [[ret out] w'].
  destruct (ret <? 0).
  - cbn [fst snd]. split; [apply read_err_below | reflexivity].
  - apply read_linear11_signed; assumption.
Qed.

Lemma u32_show_signed (d : nat) (opcode junk : Z) (w : world U) :
  char_signed = true -> 128 <= u8 opcode ->
  snd (fst (u32_show d opcode junk w)) = sprintf_u (u32 junk).
Proof.
  intros Hs Ho. unfold u32_show.
  destruct (send_recv_cmd d 3 (u8 opcode) 0 (Some 4%nat) w) as [[ret out] w'] eqn:E.
  destruct (send_recv_cmd_signed _ _ _ _ _ _ Hs Ho _ _ _ E) as (_ & ->).
  reflexivity.
Qed.

(** X10: where plain [char] is signed the driver reads nothing.  Byte 1
    of a response is compared with the opcode as a [char], which is
    negative for 0x80 and more, and every opcode the driver reads with is
    0x88 or more: whatever the supply answers, [corsairpsu_read] returns
    a negative value and stores none, and the four custom attributes
    print what the [u32 reading] held before the call. *)
Theorem X10_signed_char_reads_nothing
  (d : nat) (type attr channel junk : Z) (w : world U) :
  char_signed = true ->
  fst (fst (corsairpsu_read d type attr channel junk w)) < 0
  /\ snd (fst (corsairpsu_read d type attr channel junk w)) = None
  /\ snd (fst (total_uptime_show d junk w)) = sprintf_u (u32 junk)
  /\ snd (fst (current_uptime_show d junk w)) = sprintf_u (u32 junk)
  /\ snd (fst (ocp_mode_show d junk w)) = sprintf_u (u32 junk)
  /\ snd (fst (fan_control_show d junk w)) = sprintf_u (u32 junk).
Proof.
  intros Hs.
  assert (Hread : fst (fst (corsairpsu_read d type attr channel junk w)) < 0
                  /\ snd (fst (corsairpsu_read d type attr channel junk w)) = None).
  { unfold corsairpsu_read. cbv zeta.
    repeat match goal with
           | |- context [fst (fst (if ?c then _ else _))] => destruct c
           end;
      match goal with
      | |- context [read_linear11 _ ?o _ _ _] =>
          apply (read_linear11_signed d o); [exact Hs | lia]
      | |- context [read_rail _ _ ?o _ _ _] =>
          apply (read_rail_signed d _ o); [exact Hs | lia]
      | |- _ => cbn [fst snd]; unfold EOPNOTSUPP; split; [lia | reflexivity]
      end. }
  destruct Hread as (H1 & H2). split; [exact H1|]. split; [exact H2|].
  unfold total_uptime_show, current_uptime_show, ocp_mode_show, fan_control_show.
  repeat split; apply u32_show_signed; try exact Hs; vm_compute; discriminate.
Qed.

End SignedChar.

(** A supply that answers the temperature request well, three times over:
    with a signed [char] the read fails all the same. *)
Lemma X10_signed_char_reads_nothing_witness :
  @char_signed signed_char = true
  /\ fst (fst (corsairpsu_read (PLAT := signed_char) (HW := sample_hwmon) 0
                 (@hwmon_temp sample_hwmon) (@hwmon_temp_input sample_hwmon) 0 0
                 (boot (fun _ => psu_temp1 0%nat ++ psu_temp1 0%nat ++ psu_temp1 0%nat))))
     < 0
  /\ fst (fst (corsairpsu_read (PLAT := unsigned_char) (HW := sample_hwmon) 0
                 (@hwmon_temp sample_hwmon) (@hwmon_temp_input sample_hwmon) 0 0
                 (boot (fun _ => psu_temp1 0%nat ++ psu_temp1 0%nat ++ psu_temp1 0%nat))))
     = 0.
Proof.
  split; [reflexivity|]. split; [|vm_compute; reflexivity].
  exact (proj1 (X10_signed_char_reads_nothing (PLAT := signed_char) (HW := sample_hwmon)
                  0%nat (@hwmon_temp sample_hwmon) (@hwmon_temp_input sample_hwmon) 0 0
                  (boot (fun _ => psu_temp1 0%nat ++ psu_temp1 0%nat ++ psu_temp1 0%nat))
                  eq_refl)).
Defined.

(** ** A call that finds the mutex held *)

Section BusyCalls.

Context {U : Type} {USB : UsbDevice U} {PLAT : Platform} {HW : HwmonHeader}.

Lemma refused_world (d : nat) (a o p : Z) (w : world U) :
  let w' := emit (EvTryLock d false) (build_frame d a o p w) in
  events_since w w' = [EvFrame d a o p; EvTryLock d false]
  /\ buf (devs w' d) = encode_frame (a, o, p)
  /\ usbdev (devs w' d) = usbdev (devs w d).
Proof.
  cbv zeta. split; [|split].
  - apply events_since_app. cbn. rewrite <- app_assoc. reflexivity.
  - cbn. rewrite Nat.eqb_refl. reflexivity.
  - cbn. rewrite Nat.eqb_refl. reflexivity.
Qed.

Lemma read_linear11_busy (d : nat) (opcode scale junk : Z) (w : world U) :
  usbdev_mutex w = true ->
  read_linear11 d opcode scale junk w
  = (- EINVAL, None, emit (EvTryLock d false) (build_frame d 0x03 opcode 0x00 w)).
Proof.
  intros H. unfold read_linear11. rewrite send_recv_cmd_busy by exact H. reflexivity.
Qed.

Lemma read_rail_busy (d : nat) (ri opcode scale junk : Z) (w : world U) :
  usbdev_mutex w = true ->
  read_rail d ri opcode scale junk w
  = (- EINVAL, None, emit (EvTryLock d false) (build_frame d 0x02 0x00 ri w)).
Proof.
  intros H. unfold read_rail. rewrite send_recv_cmd_busy by exact H. reflexivity.
Qed.

Lemma corsairpsu_read_busy (d : nat) (type attr channel junk : Z) (w : world U) :
  usbdev_mutex w = true ->
  corsairpsu_read d type attr channel junk w = (- EOPNOTSUPP, None, w)
  \/ exists a o p,
       In (a, o, p) driver_frames
       /\ corsairpsu_read d type attr channel junk w
          = (- EINVAL, None, emit (EvTryLock d false) (build_frame d a o p w)).
Proof.
  intros H. unfold corsairpsu_read. cbv zeta.
  repeat match goal with
         | |- (if ?c then _ else _) = _ \/ _ => destruct c
         end;
    match goal with
    | |- read_linear11 _ ?o _ _ _ = _ \/ _ =>
        right; exists 0x03, o, 0x00; split;
        [cbn; tauto | apply read_linear11_busy; exact H]
    | |- read_rail _ ?r _ _ _ _ = _ \/ _ =>
        right; exists 0x02, 0x00, r; split;
        [cbn; tauto | apply read_rail_busy; exact H]
    | |- _ => left; reflexivity
    end.
Qed.

(** X11: a call that finds the mutex held makes no transfer, yet it has
    already written to the buffer of its device.  [corsairpsu_read] then
    either rejects the channel without an event, or returns [- EINVAL]
    having built one frame and been refused the lock: the buffer of the
    device holds that frame, whatever it held before, and the USB device
    is as it was.  [u32_show] does the same with its frame and prints
    what the [u32 reading] held before the call. *)
Theorem X11_refused_call_overwrites_buffer
  (d : nat) (type attr channel opcode junk : Z) (w : world U) :
  usbdev_mutex w = true ->
  let read := corsairpsu_read d type attr channel junk w in
  let show := u32_show d opcode junk w in
  ((snd read = w /\ fst (fst read) = - EOPNOTSUPP)
   \/ exists a o p,
        In (a, o, p) driver_frames
        /\ fst read = (- EINVAL, None)
        /\ events_since w (snd read) = [EvFrame d a o p; EvTryLock d false]
        /\ buf (devs (snd read) d) = encode_frame (a, o, p)
        /\ usbdev (devs (snd read) d) = usbdev (devs w d))
  /\ events_since w (snd show) = [EvFrame d 0x03 (u8 opcode) 0x00; EvTryLock d false]
  /\ buf (devs (snd show) d) = encode_frame (0x03, u8 opcode, 0x00)
  /\ usbdev (devs (snd show) d) = usbdev (devs w d)
  /\ snd (fst show) = sprintf_u (u32 junk).
Proof.
  intros H. cbv zeta. split.
  - destruct (corsairpsu_read_busy d type attr channel junk w H)
      as [-> | (a & o & p & Hin & ->)].
    + left. split; reflexivity.
    + right. exists a, o, p. cbn [fst snd].
      split; [exact Hin|]. split; [reflexivity|]. apply refused_world.
  - unfold u32_show. rewrite send_recv_cmd_busy by exact H. cbn [fst snd].
    destruct (refused_world d 0x03 (u8 opcode) 0x00 w) as (A & B & C).
    split; [exact A|]. split; [exact B|]. split; [exact C | reflexivity].
Qed.

End BusyCalls.

(** The 5V current read while another caller holds the mutex: the rail
    selection is refused, and its frame is left in the buffer. *)
Lemma X11_refused_call_overwrites_buffer_witness :
  usbdev_mutex (boot_contended psu_rail_5v) = true
  /\ fst (corsairpsu_read (PLAT := unsigned_char) (HW := sample_hwmon) 0
            (@hwmon_curr sample_hwmon) (@hwmon_curr_input sample_hwmon) 1 0
            (boot_contended psu_rail_5v)) = (- EINVAL, None)
  /\ buf (devs (snd (corsairpsu_read (PLAT := unsigned_char) (HW := sample_hwmon) 0
                       (@hwmon_curr sample_hwmon) (@hwmon_curr_input sample_hwmon) 1 0
                       (boot_contended psu_rail_5v))) 0)
     = encode_frame (0x02, 0x00, 0x01)
  /\ buf (devs (snd (u32_show (PLAT := unsigned_char) 0 0xD1 0
                       (boot_contended psu_rail_5v))) 0)
     = encode_frame (0x03, u8 0xD1, 0x00).
Proof.
  split; [reflexivity|].
  split; [vm_compute; reflexivity|]. split; [vm_compute; reflexivity|].
  exact (proj1 (proj2 (proj2
           (X11_refused_call_overwrites_buffer (PLAT := unsigned_char) (HW := sample_hwmon)
              0%nat (@hwmon_curr sample_hwmon) (@hwmon_curr_input sample_hwmon) 1 0xD1 0
              (boot_contended psu_rail_5v) eq_refl)))).
Defined.

(** ** The custom attributes on success *)

Lemma u32_bytes (resp : list Z) :
  Forall is_byte resp ->
  let n := nth 2 resp 0 + 256 * nth 3 resp 0 + 65536 * nth 4 resp 0
           + 16777216 * nth 5 resp 0 in
  (6 <= length resp)%nat ->
  le_combine (firstn 4 (skipn 2 resp)) = n /\ 0 <= n < 4294967296.
Proof.
  intros Hb n Hl. subst n.
  destruct resp as [|b0 [|b1 [|b2 [|b3 [|b4 [|b5 rest]]]]]]; cbn [length] in Hl; try lia.
  repeat match goal with
         | H : Forall _ (_ :: _) |- _ => inversion H; subst; clear H
         end.
  unfold is_byte in *. cbn [le_combine firstn skipn nth]. lia.
Qed.

Section ShowResults.

Context {U : Type} {USB : UsbDevice U} {PLAT : Platform}.

(** X12: when its exchange succeeds, a custom attribute prints the
    unsigned 32-bit number held little-endian in bytes 2 to 5 of the last
    response received, in decimal and followed by a newline; the frame
    it sent first carries the opcode cut down to 8 bits; the length it
    returns is that of the text. *)
Theorem X12_u32_show_prints_the_response
  (d : nat) (opcode junk : Z) (w : world U) :
  let run := send_recv_cmd d 0x03 (u8 opcode) 0x00 (Some 4%nat) w in
  let show := u32_show d opcode junk w in
  let new := events_since w (snd show) in
  fst (fst run) = 0 ->
  exists resp n,
    last (responses new) [] = resp
    /\ n = nth 2 resp 0 + 256 * nth 3 resp 0 + 65536 * nth 4 resp 0
           + 16777216 * nth 5 resp 0
    /\ 0 <= n < 4294967296
    /\ snd (fst show) = sprintf_u n
    /\ fst (fst show) = Z.of_nat (String.length (sprintf_u n))
    /\ hd_error (frames new) = Some (0x03, u8 opcode, 0x00).
Proof.
  cbv zeta. pose proof (u32_show_run d opcode junk w) as H.
  destruct (send_recv_cmd d 3 (u8 opcode) 0 (Some 4%nat) w) as [[ret out] ws] eqn:E.
  destruct (u32_show d opcode junk w) as [[len text] w'].
  destruct H as (-> & Hlen & _ & _ & Htext). cbn [fst snd]. intros ->.
  pose proof E as E'.
  apply send_recv_cmd_events in E. destruct E as (t & Ht & Hc & _).
  apply send_recv_cmd_state in E'.
  destruct E' as (t' & Ht' & _ & Hl & _ & Hz).
  assert (t' = t) by (rewrite Ht in Ht'; apply app_inv_head in Ht'; auto). subst t'.
  destruct (Hz eq_refl) as (pre & Hresp & Hb & _).
  rewrite (events_since_app _ _ _ Ht).
  destruct (u32_bytes _ Hb ltac:(lia)) as (Hn & Hr).
  eexists _, _. split; [rewrite Hresp; apply last_last|].
  split; [reflexivity|]. split; [exact Hr|].
  rewrite (Htext eq_refl), Hn in *.
  split; [reflexivity|]. split; [exact Hlen|].
  destruct (client_frames _ _ _ _ _ _ _ Hc) as [F | [F | F]]; rewrite F; reflexivity.
Qed.

End ShowResults.

(** The total uptime of a supply that answers 23160895 seconds. *)
Lemma X12_u32_show_prints_the_response_witness :
  fst (fst (send_recv_cmd (PLAT := unsigned_char) 0 0x03 (u8 0xD1) 0x00 (Some 4%nat)
              (boot psu_uptime))) = 0
  /\ fst (u32_show (PLAT := unsigned_char) 0 0xD1 0 (boot psu_uptime))
     = (9, "23160895" ++ String "010"%char EmptyString)%string
  /\ exists resp n,
       last (responses (events_since (boot psu_uptime)
               (snd (u32_show (PLAT := unsigned_char) 0 0xD1 0 (boot psu_uptime))))) []
       = resp
       /\ n = nth 2 resp 0 + 256 * nth 3 resp 0 + 65536 * nth 4 resp 0
              + 16777216 * nth 5 resp 0
       /\ 0 <= n < 4294967296
       /\ snd (fst (u32_show (PLAT := unsigned_char) 0 0xD1 0 (boot psu_uptime)))
          = sprintf_u n
       /\ fst (fst (u32_show (PLAT := unsigned_char) 0 0xD1 0 (boot psu_uptime)))
          = Z.of_nat (String.length (sprintf_u n))
       /\ hd_error (frames (events_since (boot psu_uptime)
               (snd (u32_show (PLAT := unsigned_char) 0 0xD1 0 (boot psu_uptime)))))
          = Some (0x03, u8 0xD1, 0x00).
Proof.
  assert (Hz : fst (fst (send_recv_cmd (PLAT := unsigned_char) 0 0x03 (u8 0xD1) 0x00
                           (Some 4%nat) (boot psu_uptime))) = 0)
    by (vm_compute; reflexivity).
  split; [exact Hz|]. split; [vm_compute; reflexivity|].
  exact (X12_u32_show_prints_the_response (PLAT := unsigned_char) 0%nat 0xD1 0
           (boot psu_uptime) Hz).
Defined.

(** ** Registered channels, labels and the command table *)

Section Channels.

Context {U : Type} {USB : UsbDevice U} {PLAT : Platform} {HW : HwmonHeader}.

Lemma hwmon_type_differs (i j : nat) :
  let l := [hwmon_chip; hwmon_temp; hwmon_fan; hwmon_in; hwmon_curr; hwmon_power] in
  (i < 6)%nat -> (j < 6)%nat -> i <> j -> (nth i l 0 =? nth j l 0) = false.
Proof.
  intros l Hi Hj Hne. apply Z.eqb_neq.
  intros Heq. apply Hne.
  apply (proj1 (NoDup_nth l 0) (distinct_NoDup l hwmon_types_distinct) i j); assumption.
Qed.

(** Settles the tests of [type] in the two callbacks. *)
Ltac type_index t :=
  lazymatch t with
  | hwmon_chip => constr:(0%nat)
  | hwmon_temp => constr:(1%nat)
  | hwmon_fan => constr:(2%nat)
  | hwmon_in => constr:(3%nat)
  | hwmon_curr => constr:(4%nat)
  | hwmon_power => constr:(5%nat)
  end.

Ltac settle_types :=
  repeat match goal with
         | |- context [Z.eqb ?a ?a] => rewrite (Z.eqb_refl a)
         | |- context [Z.eqb ?a ?b] =>
             let i := type_index a in
             let j := type_index b in
             let l := constr:([hwmon_chip; hwmon_temp; hwmon_fan; hwmon_in;
                               hwmon_curr; hwmon_power]) in
             change (Z.eqb a b) with (Z.eqb (nth i l 0) (nth j l 0));
             rewrite (hwmon_type_differs i j) by lia
         end.

(** The block the read callback runs for a channel of each registered
    type, and the chip branch. *)
Lemma corsairpsu_read_temp (d : nat) (channel junk : Z) (w : world U) :
  corsairpsu_read d hwmon_temp hwmon_temp_input channel junk w
  = if channel =? 0 then read_linear11 d 0x8D 1000 junk w
    else if channel =? 1 then read_linear11 d 0x8E 1000 junk w
    else (- EOPNOTSUPP, None, w).
Proof. unfold corsairpsu_read. settle_types. reflexivity. Qed.

Lemma corsairpsu_read_fan (d : nat) (channel junk : Z) (w : world U) :
  corsairpsu_read d hwmon_fan hwmon_fan_input channel junk w
  = if channel =? 0 then read_linear11 d 0x90 0 junk w
    else (- EOPNOTSUPP, None, w).
Proof. unfold corsairpsu_read. settle_types. reflexivity. Qed.

Lemma corsairpsu_read_in (d : nat) (channel junk : Z) (w : world U) :
  corsairpsu_read d hwmon_in hwmon_in_input channel junk w
  = if channel =? 0 then read_linear11 d 0x88 1000 junk w
    else if channel =? 1 then read_rail d 0x00 0x8B 1000 junk w
    else if channel =? 2 then read_rail d 0x01 0x8B 1000 junk w
    else if channel =? 3 then read_rail d 0x02 0x8B 1000 junk w
    else (- EOPNOTSUPP, None, w).
Proof. unfold corsairpsu_read. settle_types. reflexivity. Qed.

Lemma corsairpsu_read_curr (d : nat) (channel junk : Z) (w : world U) :
  corsairpsu_read d hwmon_curr hwmon_curr_input channel junk w
  = if channel =? 0 then read_rail d 0x00 0x8C 1000 junk w
    else if channel =? 1 then read_rail d 0x01 0x8C 1000 junk w
    else if channel =? 2 then read_rail d 0x02 0x8C 1000 junk w
    else (- EOPNOTSUPP, None, w).
Proof. unfold corsairpsu_read. settle_types. reflexivity. Qed.

Lemma corsairpsu_read_power (d : nat) (channel junk : Z) (w : world U) :
  corsairpsu_read d hwmon_power hwmon_power_input channel junk w
  = if channel =? 0 then read_linear11 d 0xEE 1000000 junk w
    else if channel =? 1 then read_rail d 0x00 0x96 1000000 junk w
    else if channel =? 2 then read_rail d 0x01 0x96 1000000 junk w
    else if channel =? 3 then read_rail d 0x02 0x96 1000000 junk w
    else (- EOPNOTSUPP, None, w).
Proof. unfold corsairpsu_read. settle_types. reflexivity. Qed.

Lemma corsairpsu_read_chip (d : nat) (channel junk : Z) (w : world U) :
  corsairpsu_read d hwmon_chip hwmon_chip channel junk w
  = if channel =? 0 then read_linear11 d 0x8D 1000 junk w
    else (- EOPNOTSUPP, None, w).
Proof. unfold corsairpsu_read. settle_types. reflexivity. Qed.

(** The channels of [corsairpsu_info]: each has both flags. *)
Lemma registered_channels (f : hwmon_flag) :
  registered f
  = [ (mk_info hwmon_temp hwmon_temp_input [[INPUT; LABEL]; [INPUT; LABEL]], 0);
      (mk_info hwmon_temp hwmon_temp_input [[INPUT; LABEL]; [INPUT; LABEL]], 1);
      (mk_info hwmon_fan hwmon_fan_input [[INPUT; LABEL]], 0);
      (mk_info hwmon_in hwmon_in_input
         [[INPUT; LABEL]; [INPUT; LABEL]; [INPUT; LABEL]; [INPUT; LABEL]], 0);
      (mk_info hwmon_in hwmon_in_input
         [[INPUT; LABEL]; [INPUT; LABEL]; [INPUT; LABEL]; [INPUT; LABEL]], 1);
      (mk_info hwmon_in hwmon_in_input
         [[INPUT; LABEL]; [INPUT; LABEL]; [INPUT; LABEL]; [INPUT; LABEL]], 2);
      (mk_info hwmon_in hwmon_in_input
         [[INPUT; LABEL]; [INPUT; LABEL]; [INPUT; LABEL]; [INPUT; LABEL]], 3);
      (mk_info hwmon_curr hwmon_curr_input
         [[INPUT; LABEL]; [INPUT; LABEL]; [INPUT; LABEL]], 0);
      (mk_info hwmon_curr hwmon_curr_input
         [[INPUT; LABEL]; [INPUT; LABEL]; [INPUT; LABEL]], 1);
      (mk_info hwmon_curr hwmon_curr_input
         [[INPUT; LABEL]; [INPUT; LABEL]; [INPUT; LABEL]], 2);
      (mk_info hwmon_power hwmon_power_input
         [[INPUT; LABEL]; [INPUT; LABEL]; [INPUT; LABEL]; [INPUT; LABEL]], 0);
      (mk_info hwmon_power hwmon_power_input
         [[INPUT; LABEL]; [INPUT; LABEL]; [INPUT; LABEL]; [INPUT; LABEL]], 1);
      (mk_info hwmon_power hwmon_power_input
         [[INPUT; LABEL]; [INPUT; LABEL]; [INPUT; LABEL]; [INPUT; LABEL]], 2);
      (mk_info hwmon_power hwmon_power_input
         [[INPUT; LABEL]; [INPUT; LABEL]; [INPUT; LABEL]; [INPUT; LABEL]], 3) ].
Proof. destruct f; reflexivity. Qed.

(** The first frame of a call is the command's; so is the last when the
    call returns 0. *)
Lemma client_frames_ends (d : nat) (a o p : Z) (result : option nat) (ret : Z)
  (t : list event) :
  client_events d a o p result ret t ->
  hd_error (frames t) = Some (a, o, p)
  /\ (ret = 0 -> last (frames t) (0, 0, 0) = (a, o, p)).
Proof.
  intros Hc. split.
  - destruct (client_frames _ _ _ _ _ _ _ Hc) as [F | [F | F]]; rewrite F; reflexivity.
  - intros Hz. destruct Hc; observe; try reflexivity; lia.
Qed.

Lemma read_linear11_frames (d : nat) (opcode scale junk : Z) (w : world U) :
  let run := read_linear11 d opcode scale junk w in
  let fs := frames (events_since w (snd run)) in
  hd_error fs = Some (0x03, opcode, 0x00)
  /\ (fst (fst run) = 0 -> last fs (0, 0, 0) = (0x03, opcode, 0x00)).
Proof.
  cbv zeta. unfold read_linear11.
  destruct (send_recv_cmd d 3 opcode 0 (Some 2%nat) w) as [[ret out] w'] eqn:E.
  apply send_recv_cmd_events in E. destruct E as (t & Ht & Hc & _).
  destruct (client_frames_ends _ _ _ _ _ _ _ Hc) as (Hhd & Hlast).
  destruct (client_status _ _ _ _ _ _ _ Hc) as [Hneg | Hz].
  - apply Z.ltb_lt in Hneg. rewrite Hneg. cbn [fst snd].
    rewrite (events_since_app _ _ _ Ht). split; [exact Hhd|].
    intros H. pose proof (read_err_below ret). lia.
  - subst ret. change (0 <? 0) with false. cbv iota. cbn [fst snd].
    rewrite (events_since_app _ _ _ Ht).
    split; [exact Hhd | intros _; exact (Hlast eq_refl)].
Qed.

Lemma read_rail_frames (d : nat) (ri opcode scale junk : Z) (w : world U) :
  let run := read_rail d ri opcode scale junk w in
  let fs := frames (events_since w (snd run)) in
  hd_error fs = Some (0x02, 0x00, ri)
  /\ (fst (fst run) = 0 -> last fs (0, 0, 0) = (0x03, opcode, 0x00)).
Proof.
  cbv zeta. unfold read_rail.
  destruct (send_recv_cmd d 2 0 ri None w) as [[rs outs] ws] eqn:E.
  apply send_recv_cmd_events in E. destruct E as (ts & Hts & Hcs & _).
  destruct (client_frames_ends _ _ _ _ _ _ _ Hcs) as (Hhd & _).
  destruct (client_status _ _ _ _ _ _ _ Hcs) as [Hneg | Hz].
  - apply Z.ltb_lt in Hneg. rewrite Hneg. cbn [fst snd].
    rewrite (events_since_app _ _ _ Hts). split; [exact Hhd|].
    intros H. pose proof (read_err_below rs). lia.
  - subst rs. change (0 <? 0) with false. cbv iota.
    pose proof (read_linear11_frames d opcode scale junk ws) as Hr. cbv zeta in Hr.
    destruct (read_linear11 d opcode scale junk ws) as [[ret val] w'] eqn:Er.
    cbn [fst snd] in *.
    assert (Ht : exists t, trace w' = trace ws ++ t).
    { unfold read_linear11 in Er.
      destruct (send_recv_cmd d 3 opcode 0 (Some 2%nat) ws) as [[r o'] wr] eqn:E.
      apply send_recv_cmd_events in E. destruct E as (t & Ht & _).
      exists t. destruct (r <? 0); inversion Er; subst; exact Ht. }
    destruct Ht as (t & Ht).
    rewrite (events_since_app _ _ _ Ht) in Hr. destruct Hr as (Hhr & Hlr).
    assert (Hnew : events_since w w' = ts ++ t).
    { apply events_since_app. rewrite Ht, Hts, app_assoc. reflexivity. }
    rewrite Hnew, frames_app.
    destruct (frames ts) as [|f fs]; [discriminate Hhd|].
    split; [exact Hhd|]. intros Hz.
    rewrite last_app_nonempty; [exact (Hlr Hz)|].
    intros Hnil. rewrite Hnil in Hhr. discriminate Hhr.
Qed.

Lemma label_at_outside (table : list string) (channel : Z) :
  (forall k, (k < length table)%nat -> channel <> Z.of_nat k) ->
  label_at table channel = None.
Proof.
  intros H. unfold label_at. destruct (Z.ltb_spec channel 0) as [Hn | Hp]; [reflexivity|].
  apply nth_error_None.
  destruct (Nat.lt_ge_cases (Z.to_nat channel) (length table)) as [Hlt | Hge];
    [|exact Hge].
  exfalso. apply (H _ Hlt). lia.
Qed.

(** X13: every channel [corsairpsu_info] registers is served by both
    callbacks, and nothing else of a registered type is.  For a
    registered channel [corsairpsu_read] builds a frame, so it does not
    reject the channel, and [corsairpsu_read_labels] returns 0 with a
    label.  For any other channel number of a registered type
    [corsairpsu_read] returns [- EOPNOTSUPP] without an event, whereas
    [corsairpsu_read_labels], which does not check the index, reads
    outside its table.  No channel of type chip is registered, and a
    type that is none of the six gets [- EOPNOTSUPP] from both. *)
Theorem X13_registered_channels_are_served
  (d : nat) (attr junk : Z) (w : world U) :
  Forall (fun c =>
            frames (events_since w
                      (snd (corsairpsu_read d (info_type (fst c)) (info_input (fst c))
                              (snd c) junk w))) <> [])
         (registered INPUT)
  /\ Forall (fun c =>
               exists s, corsairpsu_read_labels (info_type (fst c)) attr (snd c)
                         = Some (0, Some s))
            (registered LABEL)
  /\ (forall i channel,
        In i corsairpsu_info -> ~ In (i, channel) (registered INPUT) ->
        corsairpsu_read d (info_type i) (info_input i) channel junk w
        = (- EOPNOTSUPP, None, w))
  /\ (forall i channel,
        In i corsairpsu_info -> ~ In (i, channel) (registered LABEL) ->
        corsairpsu_read_labels (info_type i) attr channel = None)
  /\ ~ In hwmon_chip (map info_type corsairpsu_info)
  /\ (forall type channel,
        ~ In type [hwmon_chip; hwmon_temp; hwmon_fan; hwmon_in; hwmon_curr; hwmon_power] ->
        corsairpsu_read d type attr channel junk w = (- EOPNOTSUPP, None, w)
        /\ corsairpsu_read_labels type attr channel = Some (- EOPNOTSUPP, None)).
Proof.
  split; [|split; [|split; [|split; [|split]]]].
  - rewrite registered_channels.
    repeat (apply Forall_cons; [|]); try apply Forall_nil;
      cbn [fst snd info_type info_input];
      rewrite ?corsairpsu_read_temp, ?corsairpsu_read_fan, ?corsairpsu_read_in,
        ?corsairpsu_read_curr, ?corsairpsu_read_power;
      cbn [Z.eqb Pos.eqb];
      match goal with
      | |- context [read_linear11 d ?o ?s junk w] =>
          destruct (read_linear11_frames d o s junk w) as (H & _)
      | |- context [read_rail d ?r ?o ?s junk w] =>
          destruct (read_rail_frames d r o s junk w) as (H & _)
      end; intros Hnil; rewrite Hnil in H; discriminate H.
  - rewrite registered_channels.
    repeat (apply Forall_cons; [|]); try apply Forall_nil;
      cbn [fst snd info_type]; unfold corsairpsu_read_labels; settle_types;
      eexists; reflexivity.
  - intros i channel Hi Hn. rewrite registered_channels in Hn.
    cbn [corsairpsu_info In] in Hi.
    repeat (destruct Hi as [<- | Hi]); try contradiction;
      cbn [info_type info_input];
      rewrite ?corsairpsu_read_temp, ?corsairpsu_read_fan, ?corsairpsu_read_in,
        ?corsairpsu_read_curr, ?corsairpsu_read_power;
      repeat match goal with
             | |- (if channel =? ?k then _ else _) = _ =>
                 destruct (Z.eqb_spec channel k) as [-> | _];
                 [exfalso; apply Hn; cbn [In]; tauto|]
             end; reflexivity.
  - intros i channel Hi Hn. rewrite registered_channels in Hn.
    cbn [corsairpsu_info In] in Hi.
    repeat (destruct Hi as [<- | Hi]); try contradiction;
      cbn [info_type]; unfold corsairpsu_read_labels; settle_types;
      rewrite label_at_outside; try reflexivity;
      intros k Hk Hc; cbn [length corsairpsu_temp_label corsairpsu_fan_label
                            corsairpsu_in_label corsairpsu_curr_label
                            corsairpsu_power_label] in Hk;
      apply Hn; subst channel;
      do 4 (destruct k as [|k]; [first [exfalso; lia | cbn; tauto]|]);
      exfalso; lia.
  - cbn [corsairpsu_info map info_type In].
    intros Hin.
    repeat (destruct Hin as [Hin | Hin]);
      try contradiction;
      revert Hin; apply Z.eqb_neq; settle_types; reflexivity.
  - intros type channel Hn.
    assert (Hne : forall t, In t [hwmon_chip; hwmon_temp; hwmon_fan; hwmon_in;
                                  hwmon_curr; hwmon_power] -> (type =? t) = false).
    { intros t Ht. apply Z.eqb_neq. intros ->. exact (Hn Ht). }
    unfold corsairpsu_read, corsairpsu_read_labels.
    rewrite !Hne by (cbn [In]; tauto). split; reflexivity.
Qed.

(** X14: the labels agree with the table of commands in the source.
    For every registered channel the label [corsairpsu_read_labels]
    gives is a name of the table, and a read of the channel that returns
    0 has built last the frame (first byte, opcode, 0) of that row.  The
    chip branch, which is not registered, does not agree: under the
    label of the total uptime, whose row has opcode 0xD1, it runs the
    read of the first temperature. *)
Theorem X14_labels_agree_with_command_table
  (d : nat) (attr junk : Z) (w : world U) :
  Forall (fun c =>
            let run := corsairpsu_read d (info_type (fst c)) (info_input (fst c))
                         (snd c) junk w in
            exists s a o,
              corsairpsu_read_labels (info_type (fst c)) attr (snd c) = Some (0, Some s)
              /\ documented command_table s = Some (a, o)
              /\ (fst (fst run) = 0 ->
                  last (frames (events_since w (snd run))) (0, 0, 0) = (a, o, 0x00)))
         (registered INPUT)
  /\ corsairpsu_read_labels hwmon_chip attr 0 = Some (0, Some "total uptime"%string)
  /\ documented command_table "total uptime" = Some (0x03, 0xD1)
  /\ corsairpsu_read d hwmon_chip hwmon_chip 0 junk w
     = corsairpsu_read d hwmon_temp hwmon_temp_input 0 junk w
  /\ corsairpsu_read d hwmon_temp hwmon_temp_input 0 junk w
     = read_linear11 d 0x8D 1000 junk w.
Proof.
  split; [|split; [|split; [|split]]].
  - rewrite registered_channels.
    repeat (apply Forall_cons; [|]); try apply Forall_nil;
      cbn [fst snd info_type info_input]; cbv zeta;
      rewrite ?corsairpsu_read_temp, ?corsairpsu_read_fan, ?corsairpsu_read_in,
        ?corsairpsu_read_curr, ?corsairpsu_read_power;
      cbn [Z.eqb Pos.eqb];
      eexists _, _, _;
      (split; [unfold corsairpsu_read_labels; settle_types; reflexivity|]);
      (split; [cbv; reflexivity|]);
      match goal with
      | |- context [read_linear11 d ?o ?s junk w] =>
          exact (proj2 (read_linear11_frames d o s junk w))
      | |- context [read_rail d ?r ?o ?s junk w] =>
          exact (proj2 (read_rail_frames d r o s junk w))
      end.
  - unfold corsairpsu_read_labels. settle_types. reflexivity.
  - reflexivity.
  - rewrite corsairpsu_read_chip, corsairpsu_read_temp. reflexivity.
  - rewrite corsairpsu_read_temp. reflexivity.
Qed.

End Channels.

(** ** Attaching a supply *)

Section ProbeFacts.

Context {U : Type} {USB : UsbDevice U} {PLAT : Platform}.

Lemma client_attempts (d : nat) (a o p : Z) (result : option nat) (ret : Z)
  (t : list event) :
  client_events d a o p result ret t ->
  attempts t = length (frames t) /\ (1 <= attempts t <= 3)%nat.
Proof. intros Hc. destruct Hc; observe; split; cbn; lia. Qed.

(** One call of [send_recv_cmd] with a result of 31 bytes, as the probe
    makes them. *)
Lemma identification_call (d : nat) (a o : Z) (w : world U) :
  forall ret out w', send_recv_cmd d a o 0x00 (Some 31%nat) w = (ret, out, w') ->
  exists t,
    trace w' = trace w ++ t
    /\ usbdev_mutex w' = usbdev_mutex w
    /\ (forall d', d' <> d -> devs w' d' = devs w d')
    /\ fold_left held_after t false = false
    /\ hd_error (frames t) = Some (a, o, 0x00)
    /\ Forall (fun f => f = (a, o, 0x00) \/ f = (0xfe, 0x03, 0x00)) (frames t)
    /\ attempts t = length (frames t)
    /\ (1 <= attempts t <= 3)%nat
    /\ array_state out
    /\ (ret < 0 -> out = None).
Proof.
  intros ret out w' E. pose proof E as E'.
  apply send_recv_cmd_events in E. destruct E as (t & Ht & Hc & Hm & Hneg & Hzero).
  apply send_recv_cmd_state in E'. destruct E' as (t' & _ & Hiso & Hlen & _ & Hz).
  exists t. split; [exact Ht|]. split; [exact Hm|]. split; [exact Hiso|].
  split; [exact (client_releases _ _ _ _ _ _ _ Hc)|].
  split; [exact (proj1 (client_frames_ends _ _ _ _ _ _ _ Hc))|].
  split.
  { destruct (client_frames _ _ _ _ _ _ _ Hc) as [F | [F | F]]; rewrite F;
      repeat (apply Forall_cons; [auto|]); apply Forall_nil. }
  destruct (client_attempts _ _ _ _ _ _ _ Hc) as (Ha & Hb).
  split; [exact Ha|]. split; [exact Hb|]. split; [|exact Hneg].
  destruct (client_status _ _ _ _ _ _ _ Hc) as [Hlt | ->].
  - left. exact (Hneg Hlt).
  - right. destruct (Hz eq_refl) as (pre & _ & Hbytes & _).
    rewrite (Hzero eq_refl). cbn [copied Nat.ltb Nat.leb].
    eexists. split; [reflexivity|]. split.
    + rewrite length_firstn, length_skipn, Hlen. lia.
    + apply take_bytes. exact Hbytes.
Qed.

(** X15: [corsairpsu_probe] talks to the supply only after every setup
    step has succeeded.  When [hid_parse], [hid_hw_start] or an
    allocation fails it returns a non-zero value and leaves the world as
    it was.  Otherwise the new device starts with a zeroed buffer, and
    the probe makes three calls, for the name, the vendor and the
    product, in which it attempts between three and nine exchanges and
    builds no other frame than these three; it leaves the mutex as found
    with the lock released and the other devices untouched; each array
    it prints holds 31 bytes or nothing; and it returns
    [PTR_ERR_OR_ZERO(hwmon_dev)], whatever the three calls returned. *)
Theorem X15_probe_identifies_after_setup
  (d : nat) (env : probe_env U) (w : world U) :
  let run := corsairpsu_probe d env w in
  let new := events_since w (snd run) in
  (setup_ok env = false ->
   snd run = w /\ fst (fst run) <> 0 /\ snd (fst run) = None)
  /\ (setup_ok env = true ->
      fst (fst run) = PTR_ERR_OR_ZERO (hwmon_dev env)
      /\ (exists name vendor product,
            snd (fst run) = Some (name, vendor, product)
            /\ array_state name /\ array_state vendor /\ array_state product)
      /\ hd_error (frames new) = Some (0xfe, 0x03, 0x00)
      /\ Forall (fun f => In f [(0xfe, 0x03, 0x00); (0x03, 0x99, 0x00); (0x03, 0x9a, 0x00)])
                (frames new)
      /\ In (0x03, 0x99, 0x00) (frames new)
      /\ In (0x03, 0x9a, 0x00) (frames new)
      /\ attempts new = length (frames new)
      /\ (3 <= attempts new <= 9)%nat)
  /\ usbdev_mutex (snd run) = usbdev_mutex w
  /\ fold_left held_after new false = false
  /\ (forall d', d' <> d -> devs (snd run) d' = devs w d').
Proof.
  cbv zeta. unfold corsairpsu_probe, setup_ok. cbv zeta.
  assert (Hnil : events_since w w = []).
  { apply events_since_app. rewrite app_nil_r. reflexivity. }
  destruct (Z.eqb_spec (hid_parse_ret env) 0) as [Hp | Hp]; cbn [negb andb];
    [|cbn [fst snd]; rewrite Hnil; cbn [fold_left];
      repeat split; auto; discriminate].
  destruct (Z.eqb_spec (hid_hw_start_ret env) 0) as [Hs | Hs]; cbn [negb andb];
    [|cbn [fst snd]; rewrite Hnil; cbn [fold_left];
      repeat split; auto; discriminate].
  destruct (data_alloc env); cbn [negb andb];
    [|cbn [fst snd]; rewrite Hnil; cbn [fold_left];
      repeat split; auto; try discriminate; unfold ENOMEM; lia].
  destruct (buf_alloc env); cbn [negb andb];
    [|cbn [fst snd]; rewrite Hnil; cbn [fold_left];
      repeat split; auto; try discriminate; unfold ENOMEM; lia].
  set (w0 := set_dev d (mk_data (interface_to_usbdev env) zeros64) w).
  destruct (send_recv_cmd d 254 3 0 (Some 31%nat) w0) as [[r1 name] w1] eqn:E1.
  destruct (send_recv_cmd d 3 153 0 (Some 31%nat) w1) as [[r2 vendor] w2] eqn:E2.
  destruct (send_recv_cmd d 3 154 0 (Some 31%nat) w2) as [[r3 product] w3] eqn:E3.
  apply identification_call in E1, E2, E3.
  destruct E1 as (t1 & Ht1 & Hm1 & Hi1 & Hr1 & Hh1 & Hf1 & Ha1 & Hb1 & Hn1 & _).
  destruct E2 as (t2 & Ht2 & Hm2 & Hi2 & Hr2 & Hh2 & Hf2 & Ha2 & Hb2 & Hn2 & _).
  destruct E3 as (t3 & Ht3 & Hm3 & Hi3 & Hr3 & Hh3 & Hf3 & Ha3 & Hb3 & Hn3 & _).
  assert (Hnew : events_since w w3 = t1 ++ t2 ++ t3).
  { apply events_since_app. rewrite Ht3, Ht2, Ht1. subst w0. cbn [set_dev trace].
    rewrite <- !app_assoc. reflexivity. }
  cbn [fst snd]. rewrite Hnew.
  split; [discriminate|]. split; [intros _|split; [|split]].
  - split; [reflexivity|]. split; [exists name, vendor, product; auto|].
    rewrite !frames_app, !attempts_app, !length_app.
    destruct (frames t1) as [|f1 l1] eqn:F1; [discriminate Hh1|].
    destruct (frames t2) as [|f2 l2] eqn:F2; [discriminate Hh2|].
    destruct (frames t3) as [|f3 l3] eqn:F3; [discriminate Hh3|].
    injection Hh1 as ->. injection Hh2 as ->. injection Hh3 as ->.
    split; [reflexivity|]. split.
    { repeat (apply Forall_app; split);
        [eapply Forall_impl; [|exact Hf1] | eapply Forall_impl; [|exact Hf2]
        | eapply Forall_impl; [|exact Hf3]];
        intros f [-> | ->]; cbn [In]; tauto. }
    split; [apply in_or_app; right; apply in_or_app; left; left; reflexivity|].
    split; [apply in_or_app; right; apply in_or_app; right; left; reflexivity|].
    split; lia.
  - rewrite Hm3, Hm2, Hm1. reflexivity.
  - rewrite !fold_left_app, Hr1, Hr2, Hr3. reflexivity.
  - intros d' Hd. rewrite (Hi3 d' Hd), (Hi2 d' Hd), (Hi1 d' Hd).
    subst w0. apply set_dev_other. exact Hd.
Qed.

(** X16: a supply attached while the mutex is held is not identified,
    and the probe succeeds all the same.  The three calls are refused
    the lock, nothing goes out and nothing comes in, the three arrays
    handed to [printk] are the ones nothing was stored in, and the value
    returned is still [PTR_ERR_OR_ZERO(hwmon_dev)]: 0 when the hwmon
    device was registered. *)
Theorem X16_probe_under_contention
  (d : nat) (env : probe_env U) (w : world U) :
  let run := corsairpsu_probe d env w in
  let new := events_since w (snd run) in
  setup_ok env = true ->
  usbdev_mutex w = true ->
  fst run = (PTR_ERR_OR_ZERO (hwmon_dev env), Some (None, None, None))
  /\ new = [EvFrame d 0xfe 0x03 0x00; EvTryLock d false;
            EvFrame d 0x03 0x99 0x00; EvTryLock d false;
            EvFrame d 0x03 0x9a 0x00; EvTryLock d false]
  /\ wire new = [] /\ responses new = []
  /\ usbdev (devs (snd run) d) = interface_to_usbdev env
  /\ buf (devs (snd run) d) = encode_frame (0x03, 0x9a, 0x00).
Proof.
  cbv zeta. unfold setup_ok, corsairpsu_probe. cbv zeta. intros Hok Hm.
  apply andb_prop in Hok. destruct Hok as (Hok & ->).
  apply andb_prop in Hok. destruct Hok as (Hok & ->).
  apply andb_prop in Hok. destruct Hok as (-> & ->). cbn [negb].
  set (w0 := set_dev d (mk_data (interface_to_usbdev env) zeros64) w).
  rewrite (send_recv_cmd_busy d _ _ _ _ w0) by exact Hm.
  rewrite send_recv_cmd_busy by exact Hm.
  rewrite send_recv_cmd_busy by exact Hm.
  cbn [fst snd].
  match goal with
  | |- _ /\ events_since w ?w3 = ?l /\ _ =>
      assert (Hnew : events_since w w3 = l)
        by (apply events_since_app; subst w0; cbn; rewrite <- !app_assoc; reflexivity)
  end.
  rewrite Hnew. split; [reflexivity|]. split; [reflexivity|].
  split; [reflexivity|]. split; [reflexivity|].
  subst w0. cbn. rewrite Nat.eqb_refl. split; reflexivity.
Qed.

End ProbeFacts.

(** A supply that identifies itself, attached while the mutex is free
    and then while it is held. *)
Lemma X15_probe_identifies_after_setup_witness :
  setup_ok (probe_all_ok (psu_identity 0%nat)) = true
  /\ fst (fst (corsairpsu_probe (PLAT := unsigned_char) 0
                 (probe_all_ok (psu_identity 0%nat)) (boot psu_silent))) = 0
  /\ frames (events_since (boot psu_silent)
               (snd (corsairpsu_probe (PLAT := unsigned_char) 0
                       (probe_all_ok (psu_identity 0%nat)) (boot psu_silent))))
     = [(0xfe, 0x03, 0x00); (0x03, 0x99, 0x00); (0x03, 0x9a, 0x00)]
  /\ usbdev_mutex (snd (corsairpsu_probe (PLAT := unsigned_char) 0
                          (probe_all_ok (psu_identity 0%nat)) (boot psu_silent)))
     = usbdev_mutex (boot psu_silent).
Proof.
  split; [reflexivity|]. split; [vm_compute; reflexivity|].
  split; [vm_compute; reflexivity|].
  exact (proj1 (proj2 (proj2
           (X15_probe_identifies_after_setup (PLAT := unsigned_char) 0%nat
              (probe_all_ok (psu_identity 0%nat)) (boot psu_silent))))).
Defined.

Lemma X16_probe_under_contention_witness :
  setup_ok (probe_all_ok (psu_identity 0%nat)) = true
  /\ usbdev_mutex (boot_contended psu_silent) = true
  /\ fst (corsairpsu_probe (PLAT := unsigned_char) 0
            (probe_all_ok (psu_identity 0%nat)) (boot_contended psu_silent))
     = (PTR_ERR_OR_ZERO (hwmon_dev (probe_all_ok (psu_identity 0%nat))),
        Some (None, None, None)).
Proof.
  split; [reflexivity|]. split; [reflexivity|].
  exact (proj1 (X16_probe_under_contention (PLAT := unsigned_char) 0%nat
                  (probe_all_ok (psu_identity 0%nat)) (boot_contended psu_silent)
                  eq_refl eq_refl)).
Defined.

(** ** The first exchange of a call *)

Lemma nth_zeros (l : list Z) (i : nat) :
  Forall (fun x => x = 0) l -> nth i l 0 = 0.
Proof.
  intros H. revert i. induction H as [|x l Hx _ IH]; intros [|i]; cbn [nth]; auto.
Qed.

(** What a transfer did not deliver is zero in the buffer. *)
Lemma overlay_tail (bytes : list Z) (i : nat) :
  (length bytes <= i)%nat -> nth i (overlay bytes zeros64) 0 = 0.
Proof.
  intros H. unfold overlay. rewrite nth_firstn.
  destruct (i <? 64)%nat; [|reflexivity].
  rewrite app_nth2 by (rewrite length_map; exact H).
  apply nth_zeros. apply Forall_drop. unfold zeros64.
  apply Forall_forall. intros x Hx. exact (repeat_spec _ _ _ Hx).
Qed.

Section FirstExchange.

Context {U : Type} {USB : UsbDevice U} {PLAT : Platform}.

(** The exchange of a frame just built, on a free mutex, when both
    transfers succeed. *)
Lemma first_exchange (d : nat) (a o p : Z) (w : world U)
  (r1 r2 : Z) (u1 u2 : U) (bytes : list Z) :
  usbdev_mutex w = false ->
  usb_snd (usbdev (devs w d)) (encode_frame (a, o, p)) = (r1, u1) -> 0 <= r1 ->
  usb_rcv u1 = (r2, bytes, u2) -> 0 <= r2 ->
  exists w',
    send_recv_cmd_impl d a o p w = (0, w')
    /\ trace w' = trace w ++ [EvFrame d a o p; EvTryLock d true;
                              EvUsbOut d (encode_frame (a, o, p)) r1; EvClear d;
                              EvUsbIn d r2 (overlay bytes zeros64); EvUnlock d]
    /\ devs w' d = mk_data u2 (overlay bytes zeros64)
    /\ usbdev_mutex w' = false.
Proof.
  intros Hm Hsnd Hr1 Hrcv Hr2.
  unfold send_recv_cmd_impl, usb_send_recv_cmd, mutex_trylock, build_frame.
  cbn [usbdev_mutex emit set_buf set_dev set_mutex devs trace].
  rewrite Hm. cbn [negb].
  unfold usb_interrupt_msg_snd.
  cbn [usbdev_mutex emit set_buf set_dev set_mutex devs trace usbdev buf].
  rewrite Nat.eqb_refl. cbn [usbdev buf]. rewrite build_frame_bytes, Hsnd.
  apply Z.ltb_ge in Hr1. rewrite Hr1.
  unfold clear_buf, usb_interrupt_msg_rcv.
  cbn [usbdev_mutex emit set_buf set_dev set_mutex devs trace usbdev buf].
  rewrite !Nat.eqb_refl. cbn [usbdev buf]. rewrite Hrcv.
  apply Z.ltb_ge in Hr2. rewrite Hr2.
  change (0 <? 0) with false. cbv iota.
  eexists. split; [reflexivity|].
  unfold mutex_unlock.
  cbn [usbdev_mutex emit set_buf set_dev set_mutex devs trace usbdev buf].
  rewrite Nat.eqb_refl. rewrite <- !app_assoc. cbn [app].
  split; [reflexivity|]. split; reflexivity.
Qed.

(** What follows a first response whose byte 1 differs from the opcode
    starts with the frame of the handshake. *)
Lemma handshake_follows (d : nat) (a o p : Z) (result : option nat) (w : world U) :
  exists rest,
    trace (snd (let '(ret, w) := send_recv_cmd_impl d 0xfe 0x03 0x00 w in
                if ret <? 0 then (ret, @None (list Z), w) else
                let '(ret, w) := send_recv_cmd_impl d a o p w in
                if ret <? 0 then (ret, None, w) else
                let '(differs, w) := echo_differs d o w in
                if differs then (- ENODATA, None, w)
                else copy_out d result w))
    = trace w ++ EvFrame d 0xfe 0x03 0x00 :: rest.
Proof.
  destruct (send_recv_cmd_impl d 254 3 0 w) as [r2 w2] eqn:E2.
  apply send_recv_cmd_impl_events in E2. destruct E2 as (x2 & Ht2 & _).
  destruct (r2 <? 0); [exists x2; exact Ht2|].
  destruct (send_recv_cmd_impl d a o p w2) as [r3 w3] eqn:E3.
  apply send_recv_cmd_impl_events in E3. destruct E3 as (x3 & Ht3 & _).
  destruct (r3 <? 0).
  { eexists. cbn [snd]. rewrite Ht3, Ht2, <- app_assoc. reflexivity. }
  unfold echo_differs.
  destruct (negb (char_value (nth 1 (buf (devs w3 d)) 0) =? o)).
  { eexists. cbn [snd emit trace]. rewrite Ht3, Ht2, <- !app_assoc. reflexivity. }
  destruct (copy_out d result (emit (EvPeek d (nth 1 (buf (devs w3 d)) 0)) w3))
    as [[rc oc] wc] eqn:Ec.
  apply copy_out_events in Ec. destruct Ec as (_ & _ & Htc & _).
  eexists. cbn [snd]. rewrite Htc. cbn [emit trace].
  rewrite Ht3, Ht2, <- !app_assoc. reflexivity.
Qed.

(** X17: what a call makes of its first response, when the mutex is
    free and both transfers of the first exchange succeed.  The buffer
    is zeroed between the two transfers, so the response is what the
    supply delivered followed by zeros: the frame just sent does not
    survive in it.  If its byte 1 equals the opcode the call returns 0
    after this one exchange, with the bytes from byte 2 on as result;
    otherwise the next frame is the handshake.  A response of fewer than
    two bytes therefore passes for an opcode of 0, that of the rail
    selection, and for no other. *)
Theorem X17_first_response
  (d : nat) (a o p : Z) (result : option nat) (w : world U)
  (r1 r2 : Z) (u1 u2 : U) (bytes : list Z) :
  usbdev_mutex w = false ->
  usb_snd (usbdev (devs w d)) (encode_frame (a, o, p)) = (r1, u1) -> 0 <= r1 ->
  usb_rcv u1 = (r2, bytes, u2) -> 0 <= r2 ->
  let run := send_recv_cmd d a o p result w in
  let new := events_since w (snd run) in
  let resp := overlay bytes zeros64 in
  hd_error (responses new) = Some resp
  /\ hd_error (wire new) = Some (encode_frame (a, o, p))
  /\ (forall i, (length bytes <= i)%nat -> nth i resp 0 = 0)
  /\ (char_value (nth 1 resp 0) = o ->
      fst run = (0, match result with
                    | Some n => if (0 <? n)%nat then Some (firstn n (skipn 2 resp)) else None
                    | None => None
                    end)
      /\ frames new = [(a, o, p)]
      /\ devs (snd run) d = mk_data u2 resp)
  /\ (char_value (nth 1 resp 0) <> o ->
      exists rest, frames new = (a, o, p) :: (0xfe, 0x03, 0x00) :: rest)
  /\ ((length bytes < 2)%nat -> (frames new = [(a, o, p)] <-> o = 0)).
Proof.
  intros Hm Hsnd Hr1 Hrcv Hr2. cbv zeta.
  destruct (first_exchange d a o p w r1 r2 u1 u2 bytes Hm Hsnd Hr1 Hrcv Hr2)
    as (w1 & Himpl & Ht1 & Hd1 & _).
  set (resp := overlay bytes zeros64) in *.
  assert (Hcases :
    hd_error (responses (events_since w (snd (send_recv_cmd d a o p result w))))
    = Some resp
    /\ hd_error (wire (events_since w (snd (send_recv_cmd d a o p result w))))
       = Some (encode_frame (a, o, p))
    /\ ((char_value (nth 1 resp 0) = o
         /\ fst (send_recv_cmd d a o p result w)
            = (0, match result with
                  | Some n => if (0 <? n)%nat then Some (firstn n (skipn 2 resp)) else None
                  | None => None
                  end)
         /\ frames (events_since w (snd (send_recv_cmd d a o p result w))) = [(a, o, p)]
         /\ devs (snd (send_recv_cmd d a o p result w)) d = mk_data u2 resp)
        \/ (char_value (nth 1 resp 0) <> o
            /\ exists rest,
                 frames (events_since w (snd (send_recv_cmd d a o p result w)))
                 = (a, o, p) :: (0xfe, 0x03, 0x00) :: rest))).
  { unfold send_recv_cmd. rewrite Himpl. change (0 <? 0) with false. cbv iota.
    unfold echo_differs. rewrite Hd1. cbn [buf].
    assert (Hr2' : (r2 <? 0) = false) by (apply Z.ltb_ge; exact Hr2).
    destruct (Z.eqb_spec (char_value (nth 1 resp 0)) o) as [He | He]; cbn [negb].
    - destruct (copy_out d result (emit (EvPeek d (nth 1 resp 0)) w1))
        as [[rc oc] wc] eqn:Ec.
      apply copy_out_events in Ec. destruct Ec as (-> & -> & Htc & _ & Hdc).
      cbn [emit trace devs] in Htc, Hdc.
      assert (Hnew : events_since w wc
                     = [EvFrame d a o p; EvTryLock d true;
                        EvUsbOut d (encode_frame (a, o, p)) r1; EvClear d;
                        EvUsbIn d r2 resp; EvUnlock d; EvPeek d (nth 1 resp 0)]
                       ++ copy_events d result).
      { apply events_since_app. rewrite Htc, Ht1, <- !app_assoc. reflexivity. }
      cbn [fst snd]. rewrite Hnew.
      autorewrite with trace_obs.
      rewrite (proj1 (copy_silent d result)), (proj2 (copy_silent d result)).
      cbn [responses wire frames flat_map response_of wire_of frame_of app hd_error].
      rewrite Hr2'. cbn [app hd_error].
      split; [reflexivity|]. split; [reflexivity|]. left.
      split; [exact He|]. split.
      + unfold copied. cbn [emit devs]. rewrite Hd1. reflexivity.
      + split; [reflexivity|]. rewrite Hdc. exact Hd1.
    - destruct (handshake_follows d a o p result (emit (EvPeek d (nth 1 resp 0)) w1))
        as (rest & Hrest).
      unfold echo_differs in Hrest.
      match type of Hrest with
      | trace (snd ?k) = _ => set (run := k) in *
      end.
      cbn [emit trace] in Hrest.
      assert (Hnew : events_since w (snd run)
                     = [EvFrame d a o p; EvTryLock d true;
                        EvUsbOut d (encode_frame (a, o, p)) r1; EvClear d;
                        EvUsbIn d r2 resp; EvUnlock d; EvPeek d (nth 1 resp 0)]
                       ++ EvFrame d 0xfe 0x03 0x00 :: rest).
      { apply events_since_app. rewrite Hrest, Ht1, <- !app_assoc. reflexivity. }
      rewrite Hnew. rewrite responses_app, wire_app, frames_app.
      cbn [responses wire frames flat_map response_of wire_of frame_of app hd_error].
      rewrite Hr2'. cbn [app hd_error].
      split; [reflexivity|]. split; [reflexivity|]. right.
      split; [exact He|]. eexists. reflexivity. }
  destruct Hcases as (Hresp & Hwire & Hcases).
  split; [exact Hresp|]. split; [exact Hwire|].
  split; [intros i Hi; apply overlay_tail; exact Hi|].
  split; [|split].
  - intros He. destruct Hcases as [(_ & H) | (Hne & _)]; [exact H | contradiction].
  - intros Hne. destruct Hcases as [(He & _) | (_ & H)]; [contradiction | exact H].
  - intros Hshort.
    assert (Hz : char_value (nth 1 resp 0) = 0).
    { unfold resp. rewrite overlay_tail by lia. unfold char_value.
      change (128 <=? 0) with false. rewrite andb_false_r. reflexivity. }
    rewrite Hz in Hcases.
    destruct Hcases as [(He & _ & Hf & _) | (Hne & rest & Hf)].
    + split; [intros _; symmetry; exact He | intros _; exact Hf].
    + split; [rewrite Hf; discriminate | intros E; symmetry in E; contradiction].
Qed.

End FirstExchange.

(** The selection of the 5V rail on a supply that takes the frame and
    delivers no byte: the call returns 0 after one exchange. *)
Lemma X17_first_response_witness :
  usbdev_mutex (boot psu_mute) = false
  /\ usb_snd (usbdev (devs (boot psu_mute) 0%nat)) (encode_frame (0x02, 0x00, 0x01))
     = (0, [(0, [])])
  /\ usb_rcv [(0, @nil Z)] = (0, [], [])
  /\ fst (send_recv_cmd (PLAT := unsigned_char) 0 0x02 0x00 0x01 None (boot psu_mute))
     = (0, None)
  /\ frames (events_since (boot psu_mute)
               (snd (send_recv_cmd (PLAT := unsigned_char) 0 0x02 0x00 0x01 None
                       (boot psu_mute))))
     = [(0x02, 0x00, 0x01)].
Proof.
  assert (Hm : usbdev_mutex (boot psu_mute) = false) by reflexivity.
  assert (Hs : usb_snd (usbdev (devs (boot psu_mute) 0%nat))
                 (encode_frame (0x02, 0x00, 0x01)) = (0, [(0, [])])) by reflexivity.
  assert (Hr : usb_rcv [(0, @nil Z)] = (0, [], [])) by reflexivity.
  split; [exact Hm|]. split; [exact Hs|]. split; [exact Hr|].
  destruct (X17_first_response (PLAT := unsigned_char) 0%nat 0x02 0x00 0x01 None
              (boot psu_mute) 0 0 [(0, [])] [] []
              Hm Hs ltac:(discriminate) Hr ltac:(discriminate))
    as (_ & _ & _ & Hacc & _).
  destruct (Hacc eq_refl) as (A & B & _).
  split; [exact A | exact B].
Defined.

(** ** No caller waits *)

Lemma nth_error_set_nth {A} (l : list A) (i j : nat) (x : A) :
  nth_error (set_nth j x l) i
  = if Nat.eqb i j then option_map (fun _ => x) (nth_error l i) else nth_error l i.
Proof.
  revert i j. induction l as [|y l IH]; intros i j.
  - destruct i, j; cbn; try reflexivity; destruct (Nat.eqb i j); reflexivity.
  - destruct i as [|i], j as [|j]; cbn [set_nth nth_error Nat.eqb option_map];
      try reflexivity. apply IH.
Qed.

Lemma length_set_nth {A} (l : list A) (j : nat) (x : A) :
  length (set_nth j x l) = length l.
Proof.
  revert j. induction l as [|y l IH]; intros [|j]; cbn [set_nth length];
    try reflexivity. rewrite IH. reflexivity.
Qed.

Section Progress.

Context {U : Type} {USB : UsbDevice U}.

(** Every step brings the caller nearer to its return, whatever the
    world is: [mutex_trylock] does not wait. *)
Lemma thread_step_progress (d : nat) (p : pc) (w : world U) :
  (steps_left (fst (thread_step d p w)) <= steps_left p - 1)%nat.
Proof.
  destruct p; cbn [thread_step].
  - destruct (mutex_trylock d w) as [[|] w']; cbn; lia.
  - destruct (usb_interrupt_msg_snd d w) as [r w']. destruct (r <? 0); cbn; lia.
  - cbn. lia.
  - destruct (usb_interrupt_msg_rcv d w) as [r w']. destruct (r <? 0); cbn; lia.
  - cbn. lia.
  - cbn. lia.
Qed.

Lemma sys_step_thread (j i d : nat) (p : pc) (s : system) :
  nth_error (threads s) i = Some (d, p) ->
  exists p',
    nth_error (threads (sys_step j s)) i = Some (d, p')
    /\ (steps_left p' <= steps_left p - (if Nat.eq_dec j i then 1 else 0))%nat.
Proof.
  intros Hi. unfold sys_step.
  destruct (nth_error (threads s) j) as [[dj pj]|] eqn:Hj.
  - pose proof (thread_step_progress dj pj (sworld s)) as Hp.
    destruct (thread_step dj pj (sworld s)) as [p' w']. cbn [threads fst] in *.
    rewrite nth_error_set_nth.
    destruct (Nat.eq_dec j i) as [-> | Hne].
    + rewrite Nat.eqb_refl, Hi. cbn [option_map].
      rewrite Hi in Hj. injection Hj as <- <-. exists p'. split; [reflexivity | exact Hp].
    + assert (Hb : Nat.eqb i j = false) by (apply Nat.eqb_neq; lia).
      rewrite Hb. exists p. split; [exact Hi | lia].
  - exists p. split; [exact Hi|]. destruct (Nat.eq_dec j i) as [-> | _]; [|lia].
    rewrite Hi in Hj. discriminate Hj.
Qed.

Lemma run_schedule_thread (sched : list nat) (i d : nat) (p : pc) (s : system) :
  nth_error (threads s) i = Some (d, p) ->
  exists p',
    nth_error (threads (run_schedule sched s)) i = Some (d, p')
    /\ (steps_left p' <= steps_left p - count_occ Nat.eq_dec sched i)%nat.
Proof.
  revert s p. induction sched as [|j sched IH]; intros s p Hi.
  - exists p. split; [exact Hi | cbn; lia].
  - destruct (sys_step_thread j i d p s Hi) as (p1 & H1 & Hs1).
    destruct (IH _ _ H1) as (p' & H' & Hs').
    exists p'. split; [exact H'|].
    cbn [count_occ]. destruct (Nat.eq_dec j i); lia.
Qed.

Lemma run_schedule_length (sched : list nat) (s : system) :
  length (threads (run_schedule sched s)) = length (threads s).
Proof.
  revert s. induction sched as [|j sched IH]; intros s; [reflexivity|].
  cbn [run_schedule fold_left]. fold (run_schedule sched (sys_step j s)).
  rewrite IH. unfold sys_step.
  destruct (nth_error (threads s) j) as [[dj pj]|]; [|reflexivity].
  destruct (thread_step dj pj (sworld s)) as [p' w']. cbn [threads].
  apply length_set_nth.
Qed.

Lemma flying_none (l : list (nat * pc)) :
  (forall i t, nth_error l i = Some t -> in_flight (snd t) = false) ->
  flying l = 0%nat.
Proof.
  induction l as [|t l IH]; intros H; [reflexivity|].
  unfold flying in *. cbn [filter]. rewrite (H 0%nat t eq_refl).
  apply IH. intros i t' Ht. exact (H (S i) t' Ht).
Qed.

(** X18: no caller waits for the mutex.  However the steps of the
    callers are interleaved, a caller that has taken five steps of its
    own has returned from [usb_send_recv_cmd]; and once every caller has
    taken five steps the mutex is free. *)
Theorem X18_callers_never_wait (ds : list nat) (w0 : world U) (sched : list nat) :
  let s := run_schedule sched (initial ds w0) in
  (forall i d,
     nth_error ds i = Some d -> (5 <= count_occ Nat.eq_dec sched i)%nat ->
     exists ret, nth_error (threads s) i = Some (d, PcReturn ret))
  /\ ((forall i, (i < length ds)%nat -> (5 <= count_occ Nat.eq_dec sched i)%nat) ->
      usbdev_mutex (sworld s) = false)
  /\ length (threads s) = length ds.
Proof.
  cbv zeta.
  assert (Hret : forall i d,
     nth_error ds i = Some d -> (5 <= count_occ Nat.eq_dec sched i)%nat ->
     exists ret, nth_error (threads (run_schedule sched (initial ds w0))) i
                 = Some (d, PcReturn ret)).
  { intros i d Hi Hc.
    assert (H0 : nth_error (threads (initial ds w0)) i = Some (d, PcEntry)).
    { unfold initial. cbn [threads]. rewrite nth_error_map, Hi. reflexivity. }
    destruct (run_schedule_thread sched i d PcEntry _ H0) as (p' & Hp & Hs).
    cbn [steps_left] in Hs.
    destruct p'; cbn [steps_left] in Hs; try lia. eauto. }
  assert (Hlen : length (threads (run_schedule sched (initial ds w0))) = length ds).
  { rewrite run_schedule_length. unfold initial. cbn [threads]. apply length_map. }
  split; [exact Hret|]. split; [|exact Hlen].
  intros Hall.
  pose proof (run_schedule_accounts sched _ (initial_accounts ds w0)) as Hinv.
  unfold lock_accounts in Hinv.
  rewrite flying_none in Hinv.
  - destruct (usbdev_mutex (sworld (run_schedule sched (initial ds w0))));
      [discriminate Hinv | reflexivity].
  - intros i t Ht.
    assert (Hi : (i < length ds)%nat).
    { rewrite <- Hlen. apply nth_error_Some. rewrite Ht. discriminate. }
    destruct (nth_error ds i) as [d|] eqn:Hd;
      [|apply nth_error_None in Hd; lia].
    destruct (Hret i d Hd (Hall i Hi)) as (ret & Hr).
    rewrite Hr in Ht. injection Ht as <-. reflexivity.
Qed.

End Progress.
